(** * Session layer of the EGE English bot: a shallow embedding

    The development follows the Python sources:
    - [src/bot/handlers.py]      chat history, exercise and test callbacks;
    - [src/exercise_manager.py]  generated exercise batches;
    - [src/test_manager.py]      the fixed diagnostic test;
    - [src/utils/validators.py]  the test-completion gate;
    - [src/database/manager.py]  the per-user record store.

    Python dictionaries keyed by user id are [gmap Z _]; dictionaries
    whose iteration order is observable are association lists; Python
    [int] is [Z], except lengths and counters that only count up from
    zero, which are [nat]; [str] is [string] read as ASCII text.  Python
    [float] is binary64: the percentages are primitive floats computed
    with the operations of the source; the accuracy of a topic, which
    is only compared with 0.7 and 0.6, is an exact rational.
    Time stamps and generated identifiers of persisted records are left
    out; the transport and the file system are taken to succeed, except
    for the write of a user record that holds a test result, which
    fails in [json.dump] (see [Db.save_user_failed]).  Values
    the environment supplies are arguments: the token [uuid.uuid4()]
    returns, and the generator's answer after decoding (the JSON value,
    or the way decoding failed). *)

From Stdlib Require Import ZArith QArith Qabs String Ascii List Lia Floats.
From stdpp Require Import gmap strings list pretty.

Local Open Scope string_scope.
Local Open Scope list_scope.
Local Open Scope Z_scope.

(** ** Python built-ins used by the sources *)

Module Py.

Definition is_upper_az (c : ascii) : bool :=
  let n := nat_of_ascii c in (65 <=? n)%nat && (n <=? 90)%nat.

Definition is_lower_az (c : ascii) : bool :=
  let n := nat_of_ascii c in (97 <=? n)%nat && (n <=? 122)%nat.

Definition upper_char (c : ascii) : ascii :=
  if is_lower_az c then ascii_of_nat (nat_of_ascii c - 32) else c.

Definition lower_char (c : ascii) : ascii :=
  if is_upper_az c then ascii_of_nat (nat_of_ascii c + 32) else c.

Fixpoint map_chars (f : ascii -> ascii) (s : string) : string :=
  match s with
  | EmptyString => EmptyString
  | String c r => String (f c) (map_chars f r)
  end.

(** [s.upper()] and [s.lower()] on ASCII text. *)
Definition upper (s : string) : string := map_chars upper_char s.
Definition lower (s : string) : string := map_chars lower_char s.

(** [s.capitalize()]: first character upper-cased, the rest lower-cased. *)
Definition capitalize (s : string) : string :=
  match s with
  | EmptyString => EmptyString
  | String c r => String (upper_char c) (lower r)
  end.

(** The ASCII characters for which [str.isspace] holds. *)
Definition is_space (c : ascii) : bool :=
  let n := nat_of_ascii c in
  ((9 <=? n)%nat && (n <=? 13)%nat) || ((28 <=? n)%nat && (n <=? 32)%nat).

Fixpoint lstrip (s : string) : string :=
  match s with
  | String c r => if is_space c then lstrip r else s
  | EmptyString => EmptyString
  end.

Fixpoint rstrip (s : string) : string :=
  match s with
  | EmptyString => EmptyString
  | String c r =>
      match rstrip r with
      | EmptyString => if is_space c then EmptyString else String c EmptyString
      | r' => String c r'
      end
  end.

(** [s.strip()] *)
Definition strip (s : string) : string := rstrip (lstrip s).

(** [s[:n]] for a non-negative [n]. *)
Fixpoint str_take (n : nat) (s : string) : string :=
  match n, s with
  | S n', String c r => String c (str_take n' r)
  | _, _ => EmptyString
  end.

(** [k in text] on strings: [k] occurs as a contiguous substring. *)
Fixpoint contains (k text : string) : bool :=
  String.prefix k text ||
  match text with
  | EmptyString => false
  | String _ r => contains k r
  end.

(** [any(k in text for k in ks)] *)
Definition any_in (ks : list string) (text : string) : bool :=
  existsb (fun k => contains k text) ks.

(** [sep.join(parts)] *)
Fixpoint join (sep : string) (parts : list string) : string :=
  match parts with
  | [] => ""
  | [p] => p
  | p :: rest => p +:+ sep +:+ join sep rest
  end.

(** [s.split(sep)] for a one-character separator: always at least one
    field, empty fields kept. *)
Fixpoint split (sep : ascii) (s : string) : list string :=
  match s with
  | EmptyString => [""]
  | String c r =>
      if Ascii.eqb c sep then "" :: split sep r
      else match split sep r with
           | [] => [String c ""]
           | f :: fs => String c f :: fs
           end
  end.

Definition digit_of (c : ascii) : option Z :=
  let n := nat_of_ascii c in
  if (48 <=? n)%nat && (n <=? 57)%nat then Some (Z.of_nat (n - 48)) else None.

(** Decimal digits with single underscores allowed between digits, as
    [int] accepts them.  [acc] is the value read so far; [after_digit]
    tells whether the previous character was a digit. *)
Fixpoint int_digits (s : string) (acc : Z) (after_digit : bool) : option Z :=
  match s with
  | EmptyString => if after_digit then Some acc else None
  | String c r =>
      match digit_of c with
      | Some d => int_digits r (10 * acc + d) true
      | None =>
          if Ascii.eqb c "_" && after_digit then int_digits r acc false
          else None
      end
  end.

(** The ASCII characters [int] skips around a number: tab to carriage
    return and the space, but not the separators 0x1c to 0x1f, which
    [str.strip] removes and [int] rejects. *)
Definition is_int_space (c : ascii) : bool :=
  let n := nat_of_ascii c in
  ((9 <=? n)%nat && (n <=? 13)%nat) || (n =? 32)%nat.

Fixpoint int_lstrip (s : string) : string :=
  match s with
  | String c r => if is_int_space c then int_lstrip r else s
  | EmptyString => EmptyString
  end.

Fixpoint int_rstrip (s : string) : string :=
  match s with
  | EmptyString => EmptyString
  | String c r =>
      match int_rstrip r with
      | EmptyString => if is_int_space c then EmptyString else String c EmptyString
      | r' => String c r'
      end
  end.

(** [int(s)] on ASCII text: [None] stands for [ValueError]. *)
Definition int (s : string) : option Z :=
  match int_rstrip (int_lstrip s) with
  | String "-" r => Z.opp <$> int_digits r 0 false
  | String "+" r => int_digits r 0 false
  | t => int_digits t 0 false
  end.

(** [str(n)] for an integer. *)
Definition str_of_int (n : Z) : string := pretty n.

(** [l[i]] with Python's negative indices; [None] stands for
    [IndexError]. *)
Definition index {A} (l : list A) (i : Z) : option A :=
  if 0 <=? i then l !! Z.to_nat i
  else if - Z.of_nat (length l) <=? i then l !! Z.to_nat (Z.of_nat (length l) + i)
  else None.

(** [l[-n:]] for a positive [n]. *)
Definition last_n {A} (n : nat) (l : list A) : list A :=
  drop (length l - n) l.

(** [s.replace(c, new)] for a one-character [c]. *)
Fixpoint replace_char (c : ascii) (new : string) (s : string) : string :=
  match s with
  | EmptyString => EmptyString
  | String a r =>
      if Ascii.eqb a c then new +:+ replace_char c new r
      else String a (replace_char c new r)
  end.

(** [s.replace(old, "")] for a non-empty [old]: occurrences are removed
    from left to right without overlap.  [skip] counts the characters of
    the occurrence being removed that are still ahead. *)
Fixpoint remove_go (old s : string) (skip : nat) : string :=
  match s with
  | EmptyString => EmptyString
  | String a r =>
      match skip with
      | S k => remove_go old r k
      | O =>
          if String.prefix old s then remove_go old r (String.length old - 1)
          else String a (remove_go old r 0)
      end
  end.

Definition remove_all (old s : string) : string := remove_go old s 0.

(** [chr(n)] for a code below 128. *)
Definition chr (n : nat) : string := String (ascii_of_nat n) EmptyString.

(** *** Floating-point numbers

    Python's [float] is IEEE 754 binary64: the primitive [float] with
    its operations, rounding to nearest, ties to even. *)

(** [float(n)] for a positive [int]; exact below 2^53, which is beyond
    every length and count of this program. *)
Fixpoint float_of_pos (p : positive) : float :=
  match p with
  | xH => 1%float
  | xO q => (2 * float_of_pos q)%float
  | xI q => (2 * float_of_pos q + 1)%float
  end.

Definition float_of_nat (n : nat) : float :=
  match N.of_nat n with
  | N0 => 0%float
  | Npos p => float_of_pos p
  end.

(** [a / b] for ints [a >= 0] and [b > 0]: the quotient rounded to the
    nearest float. *)
Definition true_div (a b : nat) : float := (float_of_nat a / float_of_nat b)%float.

(** The number a finite float stands for, the one [json.dump] writes
    and [json.load] reads back. *)
Definition Q_of_float (x : float) : Q :=
  match Prim2SF x with
  | S754_finite s m e =>
      let v := (inject_Z (Z.pos m) * Qpower 2 e)%Q in
      if s then (- v)%Q else v
  | _ => 0%Q
  end.

(** [f c n] holds for every size [n] from 1 to [bound] and every count
    [c] from 0 to [n]: a check that runs. *)
Definition all_counts_below (f : nat -> nat -> bool) (bound : nat) : bool :=
  forallb (fun n => forallb (fun c => f c n) (seq 0 (S n))) (seq 1 bound).

End Py.

(** ** Chat history tracker ([src/bot/handlers.py]) *)

Module Chat.

Record message := Message { role : string; content : string }.

(** [user_chat_history] is a [gmap Z (list message)]. *)

Definition add_to_chat_history (user_id : Z) (r c : string)
    (h : gmap Z (list message)) : gmap Z (list message) :=
  let h1 := match h !! user_id with
            | None => <[user_id := []]> h
            | Some _ => h
            end in
  let appended := default [] (h1 !! user_id) ++ [Message r c] in
  let h2 := <[user_id := appended]> h1 in
  if (20 <? Z.of_nat (length appended))
  then <[user_id := Py.last_n 20 appended]> h2
  else h2.

Definition get_chat_history (user_id : Z) (h : gmap Z (list message)) : list message :=
  default [] (h !! user_id).

Definition clear_chat_history (user_id : Z) (h : gmap Z (list message))
    : gmap Z (list message) :=
  match h !! user_id with
  | Some _ => delete user_id h
  | None => h
  end.

(** A run of appends, oldest first. *)
Definition append_all (ops : list (Z * message)) (h : gmap Z (list message))
    : gmap Z (list message) :=
  fold_left (fun acc op => add_to_chat_history op.1 (role op.2) (content op.2) acc) ops h.

(** The messages of [ops] addressed to [user_id], in order. *)
Definition sent_to (user_id : Z) (ops : list (Z * message)) : list message :=
  snd <$> filter (fun op => op.1 = user_id) ops.

End Chat.

(** ** Decoded JSON values ([json.loads], [json.load]) *)

Module Json.

#[local] Unset Elimination Schemes.
Inductive json :=
| JNull
| JBool (b : bool)
| JNum (q : Q)
| JStr (s : string)
| JArr (items : list json)
| JObj (fields : list (string * json)).
#[local] Set Elimination Schemes.

(** [key in d] and [d.get(key)] on a decoded object. *)
Fixpoint assoc {A} (key : string) (d : list (string * A)) : option A :=
  match d with
  | [] => None
  | (k, v) :: rest => if String.eqb k key then Some v else assoc key rest
  end.

(** Python truth value of a decoded value. *)
Definition truthy (j : json) : bool :=
  match j with
  | JNull => false
  | JBool b => b
  | JNum q => negb (Qeq_bool q 0)
  | JStr s => negb (String.eqb s "")
  | JArr items => negb (Nat.eqb (length items) 0)
  | JObj fields => negb (Nat.eqb (length fields) 0)
  end.

(** [len(j)]; [None] stands for [TypeError]. *)
Definition len (j : json) : option nat :=
  match j with
  | JStr s => Some (String.length s)
  | JArr items => Some (length items)
  | JObj fields => Some (length fields)
  | _ => None
  end.

Definition JInt (n : Z) : json := JNum (inject_Z n).

End Json.

(** ** User record store ([src/database/models.py], [src/database/manager.py]) *)

Module Db.

Record TestAnswer := {
  question_id : Z;
  user_answer : string;
  correct_answer : string;
  is_correct : bool;
  section : string }.

Record TestResult := {
  total_questions : nat;
  correct_answers : nat;
  score : nat;
  percentage : float;
  answers : list TestAnswer;
  strengths : list string;
  weaknesses : list string;
  section_stats : list (string * (nat * nat)) }.

Record User := {
  user_id : Z;
  has_completed_test : bool;
  test_results : list TestResult;
  total_tests_taken : nat;
  average_score : float }.

(** [User(user_id=user_id)] *)
Definition new_user (uid : Z) : User :=
  {| user_id := uid; has_completed_test := false; test_results := [];
     total_tests_taken := 0; average_score := 0%float |}.

Definition sum_scores (rs : list TestResult) : nat :=
  foldr (fun r acc => (score r + acc)%nat) 0%nat rs.

(** [User.add_test_result] *)
Definition add_test_result (u : User) (r : TestResult) : User :=
  let rs := test_results u ++ [r] in
  {| user_id := user_id u;
     has_completed_test := true;
     test_results := rs;
     total_tests_taken := S (total_tests_taken u);
     average_score := Py.true_div (sum_scores rs) (length rs) |}.

(** [DatabaseManager.get_user] over the files under [data/users], one
    per user: a user without a file gets a new record. *)
Definition get_user (uid : Z) (db : gmap Z User) : User :=
  default (new_user uid) (db !! uid).

(** [DatabaseManager.save_user]: the file is named after [user.user_id].
    The write is taken to succeed; the source catches a failed write,
    prints it and goes on. *)
Definition save_user (u : User) (db : gmap Z User) : gmap Z User :=
  <[user_id u := u]> db.

(** [save_user] when [json.dump] raises.  [User.to_dict] turns the time
    stamps of the record and of its statistics into text but not the
    [completed_at] of the entries of [test_results]; on a record that
    holds a test result [json.dump] therefore raises [TypeError].  By
    then [save_user] has opened the file for writing; it prints the
    error and returns, and the file is left cut short, so [get_user]
    cannot decode it any more and answers with a new record. *)
Definition save_user_failed (u : User) (db : gmap Z User) : gmap Z User :=
  delete (user_id u) db.

Definition mark_test_completed (uid : Z) (db : gmap Z User) : gmap Z User :=
  let u := get_user uid db in
  save_user {| user_id := user_id u; has_completed_test := true;
               test_results := test_results u;
               total_tests_taken := total_tests_taken u;
               average_score := average_score u |} db.

(** [DatabaseManager.has_completed_test] *)
Definition database_has_completed_test (uid : Z) (db : gmap Z User) : bool :=
  has_completed_test (get_user uid db).

(** Every stored record sits under its own [user_id], as [save_user]
    writes it. *)
Definition consistent (db : gmap Z User) : Prop :=
  forall uid u, db !! uid = Some u -> user_id u = uid.

End Db.

(** ** Fixed diagnostic test ([src/test_manager.py]) *)

Module FixedTest.
Import Json.

(** One entry of the question bank.  [id] and [correct_answer] are read
    with [q['...']]; the other keys with [q.get('...', default)]. *)
Record Question := {
  id : Z;
  section : option string;
  question : option string;
  explanation : option string;
  options : option (list string);
  correct_answer : string }.

(** One entry of a session's ['answers'] log. *)
Record Answer := {
  question_id : Z;
  user_answer : string;
  a_correct_answer : string;
  is_correct : bool;
  a_section : string;
  topic : string }.

(** [active_tests[user_id]] *)
Record Test := {
  questions : list Question;
  current_question : nat;
  score : nat;
  answers : list Answer }.

Record Stats := { total : nat; correct : nat }.

(** The dictionary [finish_test] returns. *)
Record Results := {
  r_total_questions : nat;
  r_score : nat;
  r_percentage : float;
  r_answers : list Answer;
  r_section_stats : list (string * Stats);
  r_topic_stats : list (string * Stats);
  r_strengths : list string;
  r_weaknesses : list string }.

(** A parsed [data/tests/user_<id>.json]. *)
Inductive test_file :=
| Unreadable
| Content (j : json).

(** The manager's dictionaries, the question bank ([None]: the bank has
    no ['questions'] key), the user records and the result files. *)
Record World := {
  active_tests : gmap Z Test;
  test_results : gmap Z (list Results);
  fixed_test : option (list Question);
  users : gmap Z Db.User;
  test_files : gmap Z test_file }.

Definition with_active_tests (w : World) (a : gmap Z Test) : World :=
  {| active_tests := a; test_results := test_results w;
     fixed_test := fixed_test w; users := users w;
     test_files := test_files w |}.

Definition _infer_topic (sec q expl : string) (opts : list string) : string :=
  let text := Py.lower (q +:+ " " +:+ expl +:+ " " +:+ Py.join " " opts) in
  if String.eqb sec "grammar" then
    if Py.any_in ["past perfect"; "by the time"; "had "] text
    then "Tenses: Past Perfect"
    else if Py.any_in ["future continuous"; "will be"; "this time next"] text
    then "Tenses: Future Continuous"
    else if Py.any_in ["present perfect"; "yet"; "have "; "has "] text
    then "Tenses: Present Perfect"
    else if Py.any_in ["conditional"; "if i"; "would "] text
    then "Conditionals (II)"
    else if Py.any_in ["mustn't"; "mustn'"; "mustn"; "must not"; "must ";
                       "should "; "have to"; "modal"] text
    then "Modals"
    else if Py.any_in ["reported speech"; "asked me where"; "indirect speech"] text
    then "Reported Speech"
    else if Py.any_in ["article"; " the "; " a "; " an "] text
    then "Articles"
    else if Py.any_in ["passive"; "was read"; "is made"; "were "] text
    then "Passive Voice"
    else if Py.any_in ["preposition"; "in "; "on "; "at "; "for "] text
    then "Prepositions"
    else "Grammar: Other"
  else if String.eqb sec "vocabulary" then
    if Py.any_in ["phrasal"; "look up"; "look after"; "look into"; "look for"] text
    then "Vocabulary: Phrasal Verbs"
    else if Py.any_in ["collocation"; "make a decision"; "take"; "do "] text
    then "Vocabulary: Collocations"
    else if Py.any_in ["word formation"; "-tion"; "-ment"; "prefix"; "suffix"] text
    then "Vocabulary: Word Formation"
    else if Py.any_in ["synonym"; "antonym"; "closest in meaning"] text
    then "Vocabulary: Synonyms/Antonyms"
    else if Py.any_in ["idiom"; "open-minded"; "piece of cake"] text
    then "Vocabulary: Idioms"
    else "Vocabulary: Other"
  else Py.capitalize sec.

Definition start_test_for_user (uid : Z) (w : World) : World * bool :=
  match fixed_test w with
  | Some qs =>
      (with_active_tests w
         (<[uid := {| questions := qs; current_question := 0;
                      score := 0; answers := [] |}]> (active_tests w)),
       true)
  | None => (w, false)
  end.

Definition get_current_question (uid : Z) (w : World) : option Question :=
  match active_tests w !! uid with
  | None => None
  | Some t => questions t !! current_question t
  end.

Definition log_entry (q : Question) (answer : string) : Answer :=
  let sec := default "" (section q) in
  {| question_id := id q;
     user_answer := answer;
     a_correct_answer := correct_answer q;
     is_correct := String.eqb answer (correct_answer q);
     a_section := sec;
     topic := _infer_topic sec (default "" (question q))
                (default "" (explanation q)) (default [] (options q)) |}.

Definition process_answer (uid : Z) (answer : string) (w : World) : World :=
  match active_tests w !! uid with
  | None => w
  | Some t =>
      match questions t !! current_question t with
      | None => w
      | Some q =>
          let t' :=
            {| questions := questions t;
               current_question := S (current_question t);
               score := if String.eqb answer (correct_answer q)
                        then S (score t) else score t;
               answers := answers t ++ [log_entry q answer] |} in
          with_active_tests w (<[uid := t']> (active_tests w))
      end
  end.

Definition is_test_completed (uid : Z) (w : World) : bool :=
  match active_tests w !! uid with
  | None => false
  | Some t => (length (questions t) <=? current_question t)%nat
  end.

(** *** [finish_test] *)

Fixpoint has_key {A} (key : string) (d : list (string * A)) : bool :=
  match d with
  | [] => false
  | (k, _) :: rest => String.eqb k key || has_key key rest
  end.

(** [d[key] = f(d[key])] on an insertion-ordered dictionary. *)
Fixpoint update {A} (f : A -> A) (key : string) (d : list (string * A))
    : list (string * A) :=
  match d with
  | [] => []
  | (k, v) :: rest =>
      if String.eqb k key then (k, f v) :: rest else (k, v) :: update f key rest
  end.

(** The per-key body of the statistics loop: create the counter when
    the key is new, count the answer, count it as correct when it is. *)
Definition tally (key : string) (ok : bool) (d : list (string * Stats))
    : list (string * Stats) :=
  let d1 := if has_key key d then d
            else d ++ [(key, {| total := 0; correct := 0 |})] in
  let d2 := update (fun s => {| total := S (total s); correct := correct s |}) key d1 in
  if ok
  then update (fun s => {| total := total s; correct := S (correct s) |}) key d2
  else d2.

(** The loop over [test['answers']]: section and topic counters. *)
Definition collect_stats (log : list Answer)
    : list (string * Stats) * list (string * Stats) :=
  fold_left
    (fun acc a =>
       (tally (a_section a) (is_correct a) acc.1,
        tally (topic a) (is_correct a) acc.2))
    log ([], []).

(** [stats['correct'] / stats['total']] *)
Definition accuracy (s : Stats) : Q :=
  inject_Z (Z.of_nat (correct s)) / inject_Z (Z.of_nat (total s)).

(** The loop over [topic_stats.items()]: strengths and weaknesses. *)
Definition classify (d : list (string * Stats)) : list string * list string :=
  fold_left
    (fun acc kv =>
       if (0 <? total kv.2)%nat then
         if Qle_bool (7 # 10) (accuracy kv.2) then (acc.1 ++ [kv.1], acc.2)
         else if Qle_bool (accuracy kv.2) (6 # 10) then (acc.1, acc.2 ++ [kv.1])
         else acc
       else acc)
    d ([], []).

(** [(score / total_questions) * 100 if total_questions > 0 else 0] *)
Definition percentage_of (sc n : nat) : float :=
  if (0 <? n)%nat
  then (Py.true_div sc n * 100)%float
  else 0%float.

(** How far the reported percentage is from 100 * sc / n. *)
Definition percentage_error (sc n : nat) : Q :=
  Qabs (Py.Q_of_float (percentage_of sc n)
        - 100 * inject_Z (Z.of_nat sc) / inject_Z (Z.of_nat n)).

(** The error is at most [eps] for every score of every test of 1 to
    [bound] questions: a check that runs. *)
Definition percentage_errors_below (eps : Q) (bound : nat) : bool :=
  Py.all_counts_below (fun sc n => Qle_bool (percentage_error sc n) eps) bound.

Definition build_results (t : Test) : Results :=
  let n := length (questions t) in
  let stats := collect_stats (answers t) in
  let sw := classify stats.2 in
  {| r_total_questions := n;
     r_score := score t;
     r_percentage := percentage_of (score t) n;
     r_answers := answers t;
     r_section_stats := stats.1;
     r_topic_stats := stats.2;
     r_strengths := sw.1;
     r_weaknesses := sw.2 |}.

(** The [TestResult] stored on the user record. *)
Definition to_test_result (r : Results) : Db.TestResult :=
  {| Db.total_questions := r_total_questions r;
     Db.correct_answers := r_score r;
     Db.score := r_score r;
     Db.percentage := r_percentage r;
     Db.answers :=
       (fun a => {| Db.question_id := question_id a;
                    Db.user_answer := user_answer a;
                    Db.correct_answer := a_correct_answer a;
                    Db.is_correct := is_correct a;
                    Db.section := a_section a |}) <$> r_answers r;
     Db.strengths := r_strengths r;
     Db.weaknesses := r_weaknesses r;
     Db.section_stats :=
       (fun kv => (kv.1, (total kv.2, correct kv.2))) <$> r_section_stats r |}.

Definition JNat (n : nat) : json := JInt (Z.of_nat n).

Definition answer_json (a : Answer) : json :=
  JObj [("question_id", JInt (question_id a));
        ("user_answer", JStr (user_answer a));
        ("correct_answer", JStr (a_correct_answer a));
        ("is_correct", JBool (is_correct a));
        ("section", JStr (a_section a));
        ("topic", JStr (topic a))].

Definition stats_json (d : list (string * Stats)) : json :=
  JObj ((fun kv => (kv.1, JObj [("total", JNat (total kv.2));
                                ("correct", JNat (correct kv.2))])) <$> d).

(** What [json.dump] writes for one result and [json.load] reads back. *)
Definition results_json (r : Results) : json :=
  JObj [("total_questions", JNat (r_total_questions r));
        ("score", JNat (r_score r));
        ("percentage", JNum (Py.Q_of_float (r_percentage r)));
        ("answers", JArr (answer_json <$> r_answers r));
        ("section_stats", stats_json (r_section_stats r));
        ("topic_stats", stats_json (r_topic_stats r));
        ("strengths", JArr (JStr <$> r_strengths r));
        ("weaknesses", JArr (JStr <$> r_weaknesses r))].

Definition save_results_to_file (uid : Z) (results : gmap Z (list Results))
    (files : gmap Z test_file) : gmap Z test_file :=
  match default [] (results !! uid) with
  | [] => files
  | rs => <[uid := Content (JArr (results_json <$> rs))]> files
  end.

(** [None] is Python's [None].  The record handed to [save_user] holds
    the new result, so the write fails and the fallback
    [mark_test_completed], which follows an exception only, is not
    called. *)
Definition finish_test (uid : Z) (w : World) : World * option Results :=
  match active_tests w !! uid with
  | None => (w, None)
  | Some t =>
      let results := build_results t in
      let stored := <[uid := default [] (test_results w !! uid) ++ [results]]>
                      (test_results w) in
      let u := Db.add_test_result (Db.get_user uid (users w)) (to_test_result results) in
      ({| active_tests := delete uid (active_tests w);
          test_results := stored;
          fixed_test := fixed_test w;
          users := Db.save_user_failed u (users w);
          test_files := save_results_to_file uid stored (test_files w) |},
       Some results)
  end.

(** The two branches of the classification loop. *)
Definition is_strength (s : Stats) : Prop :=
  (0 < total s)%nat /\ Qle_bool (7 # 10) (accuracy s) = true.

Definition is_weakness (s : Stats) : Prop :=
  (0 < total s)%nat /\ Qle_bool (7 # 10) (accuracy s) = false
  /\ Qle_bool (accuracy s) (6 # 10) = true.

(** Counters of a log, stated directly: the answers filed under [key]
    and the correct ones among them. *)
Definition answered (key_of : Answer -> string) (key : string) (log : list Answer) : nat :=
  length (filter (fun a => key_of a = key) log).

Definition answered_correctly (key_of : Answer -> string) (key : string)
    (log : list Answer) : nat :=
  length (filter (fun a => key_of a = key ∧ is_correct a = true) log).

(** Accuracy of a topic over a log: correct answers over answers. *)
Definition topic_accuracy (key : string) (log : list Answer) : Q :=
  inject_Z (Z.of_nat (answered_correctly topic key log))
  / inject_Z (Z.of_nat (answered topic key log)).

End FixedTest.

(** ** Exercise sessions ([src/exercise_manager.py]) *)

Module Exercises.
Import Json.

(** [difficulty] (always ["medium"]) and [created_at] are left out. *)
Record Exercise := {
  exercise_id : string;
  subject : string;
  question : json;
  options : list json;
  correct_answer : string;
  explanation : json }.

(** One entry of the ["results"] list of a finished session. *)
Record ItemResult := {
  res_exercise_id : string;
  res_question : json;
  res_user_answer : string;
  res_correct_answer : string;
  res_is_correct : bool;
  res_explanation : json;
  res_options : list json }.

Record Summary := {
  total_questions : nat;
  correct_answers : nat;
  percentage : float;
  level : string;
  results : list ItemResult }.

(** What [finish_exercise_session] returns. *)
Inductive finish_result :=
| NoActiveSession            (* {"error": "No active exercise session"} *)
| Finished (s : Summary).

Record Manager := {
  active_exercises : gmap Z (list Exercise);
  user_answers : gmap Z (gmap string string);
  exercise_results : gmap Z (list ItemResult);
  user_current_index : gmap Z Z;
  session_ids : gmap Z string }.

(** [ExerciseManager()] *)
Definition new_manager : Manager :=
  {| active_exercises := ∅; user_answers := ∅; exercise_results := ∅;
     user_current_index := ∅; session_ids := ∅ |}.

(** *** The built-in batches *)

Definition fallback (subj n : string) (q : string) (opts : list string)
    (ans expl : string) : Exercise :=
  {| exercise_id := subj +:+ "_fallback_" +:+ n;
     subject := subj;
     question := JStr q;
     options := JStr <$> opts;
     correct_answer := ans;
     explanation := JStr expl |}.

Definition _get_fallback_exercises (subj : string) : list Exercise :=
  if String.eqb subj "vocabulary" then
    [ fallback subj "1"
        "Choose the correct phrasal verb:
I need to ___ my notes before the exam."
        ["look up"; "look after"; "look into"; "look for"] "A"
        "'Look up' means to search for information, which fits the context of studying notes.";
      fallback subj "2"
        "Complete the collocation:
Make a ___ about your future plans."
        ["decision"; "solution"; "problem"; "opinion"] "A"
        "'Make a decision' is the correct collocation in English.";
      fallback subj "3"
        "Choose the correct word:
The weather was so ___ that we had to cancel the picnic."
        ["terrible"; "terribly"; "terribleness"; "terrify"] "A"
        "'Terrible' is an adjective that describes the weather.";
      fallback subj "4"
        "Select the right synonym:
The movie was very ___ and kept us interested."
        ["boring"; "entertaining"; "difficult"; "expensive"] "B"
        "'Entertaining' means interesting and enjoyable, which fits the context.";
      fallback subj "5"
        "Choose the correct word form:
She has a great ___ for languages."
        ["ability"; "able"; "ably"; "enable"] "A"
        "'Ability' is a noun that means the power or skill to do something." ]
  else if String.eqb subj "grammar" then
    [ fallback subj "1"
        "Choose the correct tense:
By this time next year, I ___ university."
        ["will finish"; "will have finished"; "finish"; "am finishing"] "B"
        "'Will have finished' is the future perfect tense, used for actions completed by a specific time in the future.";
      fallback subj "2"
        "Select the right conditional:
If I ___ more time, I would travel the world."
        ["have"; "had"; "would have"; "have had"] "B"
        "This is a second conditional sentence, so we use 'had' (past simple) in the if-clause.";
      fallback subj "3"
        "Choose the correct article:
___ sun rises in the east."
        ["A"; "An"; "The"; "No article"] "C"
        "'The' is used with unique objects like the sun, moon, earth, etc.";
      fallback subj "4"
        "Select the correct passive form:
The book ___ by many students last year."
        ["was read"; "was reading"; "read"; "has read"] "A"
        "'Was read' is the past simple passive form, indicating the book was the object of the action.";
      fallback subj "5"
        "Choose the right modal verb:
You ___ study harder if you want to pass the exam."
        ["can"; "must"; "should"; "would"] "C"
        "'Should' is used to give advice or make recommendations." ]
  else [].

(** *** Reading the generator's answer *)

(** What the first half of [_generate_exercises] arrives at. *)
Inductive reply :=
| Failed              (* building the context or calling the gateway raised *)
| NoText              (* [not response or response.strip() == ""] *)
| NotJson             (* neither [json.loads] nor the bracket search gave JSON *)
| Decoded (j : json). (* [exercises_data] *)

Definition is_letter_AD (c : ascii) : bool :=
  let n := nat_of_ascii c in (65 <=? n)%nat && (n <=? 68)%nat.

(** [re.sub(r"[^A-D]", "", s)] *)
Fixpoint keep_AD (s : string) : string :=
  match s with
  | EmptyString => EmptyString
  | String c r => if is_letter_AD c then String c (keep_AD r) else keep_AD r
  end.

(** [x in ["A", "B", "C", "D"]] *)
Definition is_ABCD (x : string) : bool :=
  existsb (String.eqb x) ["A"; "B"; "C"; "D"].

Section Generate.

(** Python's [str()] of a decoded number, list or dictionary. *)
Variable render : json -> string.

(** [str(j)] *)
Definition str (j : json) : string :=
  match j with
  | JStr s => s
  | JNull => "None"
  | JBool true => "True"
  | JBool false => "False"
  | _ => render j
  end.

(** The body of the loop over [enumerate(exercises_list)]: [None] is
    a skipped entry ([continue], also from the [except] clause). *)
Definition make_exercise (subj : string) (uid : Z) (i : nat) (data : json)
    : option Exercise :=
  match data with
  | JObj fields =>
      let opts := match assoc "options" fields with
                  | Some (JArr l) => l
                  | _ => []
                  end in
      if negb (Nat.eqb (length opts) 4) then None else
      let correct_answer_raw :=
        Py.upper (Py.strip (str (default (JStr "") (assoc "correct_answer" fields)))) in
      let normalized_correct := Py.str_take 1 (keep_AD correct_answer_raw) in
      if negb (is_ABCD normalized_correct) then None else
      match assoc "question" fields, assoc "explanation" fields with
      | Some q, Some e =>
          Some {| exercise_id :=
                    subj +:+ "_" +:+ Py.str_of_int uid +:+ "_"
                         +:+ Py.str_of_int (Z.of_nat i);
                  subject := subj;
                  question := q;
                  options := opts;
                  correct_answer := normalized_correct;
                  explanation := e |}
      | _, _ => None
      end
  | _ => None
  end.

(** A list, or a dictionary holding a list under ['exercises']. *)
Definition exercises_list (j : json) : option (list json) :=
  match j with
  | JObj fields =>
      match assoc "exercises" fields with
      | Some (JArr l) => Some l
      | _ => None
      end
  | JArr l => Some l
  | _ => None
  end.

Definition valid_entries (subj : string) (uid : Z) (l : list json) : list Exercise :=
  omap id (imap (make_exercise subj uid) l).

Definition _generate_exercises (subj : string) (uid : Z) (r : reply) : list Exercise :=
  match r with
  | Decoded j =>
      match exercises_list j with
      | Some l =>
          match valid_entries subj uid l with
          | [] => _get_fallback_exercises subj
          | exercises => exercises
          end
      | None => _get_fallback_exercises subj
      end
  | _ => _get_fallback_exercises subj
  end.

(** [uuid] is the value [uuid.uuid4()] returns in this call. *)
Definition start_exercise_session (uid : Z) (subj uuid : string) (r : reply)
    (m : Manager) : Manager * list Exercise :=
  let generated := _generate_exercises subj uid r in
  let exercises := match generated with
                   | [] => _get_fallback_exercises subj
                   | _ => generated
                   end in
  ({| active_exercises := <[uid := exercises]> (active_exercises m);
      user_answers := <[uid := ∅]> (user_answers m);
      exercise_results := exercise_results m;
      user_current_index := user_current_index m;
      session_ids := <[uid := uuid]> (session_ids m) |},
   exercises).

End Generate.

(** A rendering for examples in which every rendered value is a string. *)
Definition plain_render (j : json) : string := "".

(** The entries of a reply that pass the checks of the loop; none when
    the reply is not a decoded list. *)
Definition usable (render : json -> string) (subj : string) (uid : Z) (r : reply)
    : list Exercise :=
  match r with
  | Decoded j =>
      match exercises_list j with
      | Some l => valid_entries render subj uid l
      | None => []
      end
  | _ => []
  end.

(** The shape the handlers rely on: four options and a letter A to D. *)
Definition well_formed (e : Exercise) : Prop :=
  length (options e) = 4%nat /\ correct_answer e ∈ ["A"; "B"; "C"; "D"].

(** *** Answers, progress and results *)

Definition get_current_exercise (uid : Z) (exercise_index : Z) (m : Manager)
    : option Exercise :=
  match active_exercises m !! uid with
  | Some (e :: es) =>
      if (0 <=? exercise_index) && (exercise_index <? Z.of_nat (length (e :: es)))
      then Py.index (e :: es) exercise_index
      else None
  | _ => None
  end.

Definition with_user_answers (m : Manager) (a : gmap Z (gmap string string)) : Manager :=
  {| active_exercises := active_exercises m; user_answers := a;
     exercise_results := exercise_results m;
     user_current_index := user_current_index m;
     session_ids := session_ids m |}.

Definition with_current_index (m : Manager) (c : gmap Z Z) : Manager :=
  {| active_exercises := active_exercises m; user_answers := user_answers m;
     exercise_results := exercise_results m;
     user_current_index := c;
     session_ids := session_ids m |}.

Definition with_session_ids (m : Manager) (s : gmap Z string) : Manager :=
  {| active_exercises := active_exercises m; user_answers := user_answers m;
     exercise_results := exercise_results m;
     user_current_index := user_current_index m;
     session_ids := s |}.

Definition submit_answer (uid : Z) (eid answer : string) (m : Manager) : Manager :=
  let stored := default ∅ (user_answers m !! uid) in
  with_user_answers m (<[uid := <[eid := answer]> stored]> (user_answers m)).

(** The body of the loop over [exercises]. *)
Definition grade (given : gmap string string) (e : Exercise) : ItemResult :=
  let user_answer := default "" (given !! exercise_id e) in
  {| res_exercise_id := exercise_id e;
     res_question := question e;
     res_user_answer := user_answer;
     res_correct_answer := correct_answer e;
     res_is_correct := String.eqb (Py.upper user_answer) (Py.upper (correct_answer e));
     res_explanation := explanation e;
     res_options := options e |}.

Definition grade_all (given : gmap string string) (exercises : list Exercise)
    : list ItemResult * nat :=
  fold_left
    (fun acc e =>
       let r := grade given e in
       (acc.1 ++ [r], if res_is_correct r then S acc.2 else acc.2))
    exercises ([], 0%nat).

Definition excellent : string := "Отлично! 🎉".
Definition good : string := "Хорошо! 👍".
Definition fair : string := "Удовлетворительно 📚".
Definition needs_improvement : string := "Требует улучшения 💪".

(** [percentage >= 80], and so on: [a <=? p] is the comparison of
    floats. *)
Definition level_of (p : float) : string :=
  if (80 <=? p)%float then excellent
  else if (60 <=? p)%float then good
  else if (40 <=? p)%float then fair
  else needs_improvement.

(** [(correct_count / total_count * 100) if total_count > 0 else 0] *)
Definition percentage_of (correct_count total_count : nat) : float :=
  if (0 <? total_count)%nat
  then (Py.true_div correct_count total_count * 100)%float
  else 0%float.

(** The tiers of a batch of [n] items with [c] correct ones, by the
    counts: at least 80, 60 or 40 in a hundred. *)
Definition level_by_counts (c n : nat) : string :=
  if (80 * n <=? 100 * c)%nat then excellent
  else if (60 * n <=? 100 * c)%nat then good
  else if (40 * n <=? 100 * c)%nat then fair
  else needs_improvement.

(** The level computed from the float percentage is the level by
    counts for every batch of 1 to [bound] items: a check that runs. *)
Definition levels_agree (bound : nat) : bool :=
  Py.all_counts_below
    (fun c n => String.eqb (level_of (percentage_of c n)) (level_by_counts c n)) bound.

Definition finish_exercise_session (uid : Z) (m : Manager) : Manager * finish_result :=
  match active_exercises m !! uid with
  | None => (m, NoActiveSession)
  | Some exercises =>
      let given := default ∅ (user_answers m !! uid) in
      let graded := grade_all given exercises in
      let total_count := length exercises in
      let p := percentage_of graded.2 total_count in
      ({| active_exercises := delete uid (active_exercises m);
          user_answers := delete uid (user_answers m);
          exercise_results := <[uid := graded.1]> (exercise_results m);
          user_current_index := user_current_index m;
          session_ids := delete uid (session_ids m) |},
       Finished {| total_questions := total_count;
                   correct_answers := graded.2;
                   percentage := p;
                   level := level_of p;
                   results := graded.1 |})
  end.

Definition is_exercise_session_active (uid : Z) (m : Manager) : bool :=
  match active_exercises m !! uid with
  | Some (_ :: _) => true
  | _ => false
  end.

Definition get_exercise_progress (uid : Z) (m : Manager) : nat * nat :=
  match active_exercises m !! uid with
  | None => (0, 0)%nat
  | Some es => (size (default ∅ (user_answers m !! uid)), length es)
  end.

Definition get_current_exercise_index (uid : Z) (m : Manager) : Z :=
  default 0 (user_current_index m !! uid).

Definition set_current_exercise_index (uid : Z) (i : Z) (m : Manager) : Manager :=
  with_current_index m (<[uid := i]> (user_current_index m)).

Definition increment_current_index (uid : Z) (m : Manager) : Manager :=
  with_current_index m
    (<[uid := default 0 (user_current_index m !! uid) + 1]> (user_current_index m)).

Definition reset_current_index (uid : Z) (m : Manager) : Manager :=
  with_current_index m (delete uid (user_current_index m)).

Definition get_session_id (uid : Z) (m : Manager) : option string :=
  session_ids m !! uid.

(** [uuid] is the value [uuid.uuid4()] returns if the call needs one:
    a missing or empty token is replaced by it and stored. *)
Definition get_short_session_id (uid : Z) (uuid : string) (m : Manager)
    : Manager * string :=
  match session_ids m !! uid with
  | Some (String c r) => (m, Py.str_take 6 (String c r))
  | _ => (with_session_ids m (<[uid := uuid]> (session_ids m)), Py.str_take 6 uuid)
  end.

End Exercises.

(** ** Handlers and the completion gate ([src/bot/handlers.py],
       [src/utils/validators.py]) *)

Module Handlers.
Import Json.

(** The fixed texts a handler answers with. *)
Inductive notice :=
| BadFormat            (* "Ошибка формата данных." *)
| BadIndex             (* "Ошибка индекса упражнения." *)
| StaleSession         (* "Эта сессия упражнений уже завершена или устарела..." *)
| NoExerciseSession    (* "Нет активной сессии упражнений." *)
| IndexOutOfRange      (* "Ошибка: индекс упражнения вне диапазона." *)
| AnswerAccepted (answer : string)  (* "Ответ принят: ..." *)
| FinishFailed         (* "Ошибка при завершении упражнений." *)
| CreatingExercises    (* "Создаю ... упражнения ..." *)
| CannotCreate         (* "Не удалось создать упражнения. Попробуйте позже." *)
| FinishCurrentTest    (* "Сначала завершите текущий тест! Вернитесь к тесту через меню 'Test'" *)
| TakeTestFirst        (* "Сначала пройдите диагностический тест! Нажмите 'Test' чтобы начать!" *)
| Summing              (* "Подводим итоги..." *)
| TestStartFailed      (* "Ошибка при запуске теста. Попробуйте позже." *)
| NoQuestions          (* "Ошибка при получении вопросов." *)
| TestCancelled.       (* "Тест отменен." *)

(** What a handler does towards the user, in order.  [Raised] is an
    exception that reaches [handle_async_error], which logs it and
    sends nothing. *)
Inductive event :=
| Reply (n : notice)
| ShowExercise (e : Exercises.Exercise) (exercise_index : Z) (total : nat)
               (session_id : string)
| ShowExerciseResults (s : Exercises.Summary)
| SendQuestion (q : FixedTest.Question)
| ShowTestResults (r : FixedTest.Results)
| Raised.

Record Bot := {
  tests : FixedTest.World;
  exercises : Exercises.Manager }.

(** *** Exercise flow *)

Definition reset_exercise_session (uid : Z) (m : Exercises.Manager) : Exercises.Manager :=
  {| Exercises.active_exercises := delete uid (Exercises.active_exercises m);
     Exercises.user_answers := delete uid (Exercises.user_answers m);
     Exercises.exercise_results := Exercises.exercise_results m;
     Exercises.user_current_index := delete uid (Exercises.user_current_index m);
     Exercises.session_ids := Exercises.session_ids m |}.

(** [show_exercise]: the card carries the short session id, which
    [get_short_session_id] may have to create. *)
Definition show_exercise (uid : Z) (uuid : string) (e : Exercises.Exercise)
    (exercise_index : Z) (total : nat) (m : Exercises.Manager)
    : Exercises.Manager * list event :=
  let ms := Exercises.get_short_session_id uid uuid m in
  (ms.1, [ShowExercise e exercise_index total ms.2]).

(** [show_exercise_results]: a dictionary without the result keys
    raises [KeyError]. *)
Definition show_exercise_results (r : Exercises.finish_result) : option event :=
  match r with
  | Exercises.Finished s => Some (ShowExerciseResults s)
  | Exercises.NoActiveSession => None
  end.

(** [data] is [query.data]; [uuid] is what [uuid.uuid4()] returns if
    the handler comes to call it. *)
Definition handle_exercise_answer (uid : Z) (data uuid : string)
    (m : Exercises.Manager) : Exercises.Manager * list event :=
  match Py.split ":" data with
  | [tag; session_id; idx_str; answer] =>
      if negb (String.eqb tag "ex") then (m, [Reply BadFormat]) else
      match Py.int idx_str with
      | None => (m, [Reply BadIndex])
      | Some selected_index =>
          let ms := Exercises.get_short_session_id uid uuid m in
          let m1 := ms.1 in
          let current_session := ms.2 in
          if String.eqb current_session "" || negb (String.eqb session_id current_session)
          then (m1, [Reply StaleSession]) else
          match Exercises.active_exercises m1 !! uid with
          | None => (m1, [Reply NoExerciseSession])
          | Some exs =>
              let current_index := selected_index in
              if Z.of_nat (length exs) <=? current_index
              then (m1, [Reply IndexOutOfRange]) else
              match Py.index exs current_index with
              | None => (m1, [Raised])
              | Some current_exercise =>
                  let short_exercise_id :=
                    Exercises.subject current_exercise +:+ "_" +:+ Py.str_of_int uid
                      +:+ "_" +:+ Py.str_of_int current_index in
                  match Exercises.user_answers m1 !! uid ≫= (.!! short_exercise_id) with
                  | Some _ => (m1, [])
                  | None =>
                      let m2 := Exercises.submit_answer uid short_exercise_id answer m1 in
                      let next_index := current_index + 1 in
                      let m3 := Exercises.set_current_exercise_index uid next_index m2 in
                      let ack := Reply (AnswerAccepted (Py.upper answer)) in
                      if next_index <? Z.of_nat (length exs) then
                        match Py.index exs next_index with
                        | Some next_exercise =>
                            let shown := show_exercise uid uuid next_exercise next_index
                                           (length exs) m3 in
                            (shown.1, ack :: shown.2)
                        | None => (m3, [ack; Raised])
                        end
                      else
                        let fin := Exercises.finish_exercise_session uid m3 in
                        let m4 := Exercises.reset_current_index uid fin.1 in
                        match show_exercise_results fin.2 with
                        | Some shown => (m4, [ack; shown])
                        | None => (m4, [ack; Reply FinishFailed])
                        end
                  end
              end
          end
      end
  | _ => (m, [Reply BadFormat])
  end.

Definition handle_exercise_finish (uid : Z) (m : Exercises.Manager)
    : Exercises.Manager * list event :=
  let fin := Exercises.finish_exercise_session uid m in
  match fin.2 with
  | Exercises.NoActiveSession => (fin.1, [Reply FinishFailed])
  | Exercises.Finished s => (fin.1, [ShowExerciseResults s])
  end.

(** The part [vocabulary_command] and [grammar_command] have in
    common, from [start_exercise_session] on. *)
Definition begin_exercises (render : json -> string) (subj : string) (uid : Z)
    (uuid : string) (r : Exercises.reply) (m : Exercises.Manager)
    : Exercises.Manager * list event :=
  let started := Exercises.start_exercise_session render uid subj uuid r m in
  match started.2 with
  | [] => (started.1, [Reply CreatingExercises; Reply CannotCreate])
  | first :: rest =>
      let m1 := Exercises.set_current_exercise_index uid 0 started.1 in
      let shown := show_exercise uid uuid first 0 (length (first :: rest)) m1 in
      (shown.1, Reply CreatingExercises :: shown.2)
  end.

(** The handlers without their decorators. *)
Definition vocabulary_command (render : json -> string) (uid : Z) (uuid : string)
    (r : Exercises.reply) (m : Exercises.Manager) : Exercises.Manager * list event :=
  begin_exercises render "vocabulary" uid uuid r (reset_exercise_session uid m).

Definition grammar_command (render : json -> string) (uid : Z) (uuid : string)
    (r : Exercises.reply) (m : Exercises.Manager) : Exercises.Manager * list event :=
  begin_exercises render "grammar" uid uuid r
    (if Exercises.is_exercise_session_active uid m
     then reset_exercise_session uid m else m).

(** *** Fixed test flow *)

(** [send_question] reads [question['question']] and
    [question['options']], and the first character of every option. *)
Definition send_question (q : FixedTest.Question) : event :=
  match FixedTest.question q, FixedTest.options q with
  | Some _, Some opts =>
      if forallb (fun o => negb (String.eqb o "")) opts then SendQuestion q else Raised
  | _, _ => Raised
  end.

(** [show_test_results] subscripts its argument: [None] raises
    [TypeError]. *)
Definition show_test_results (r : option FixedTest.Results) : event :=
  match r with
  | Some res => ShowTestResults res
  | None => Raised
  end.

Definition restart (uid : Z) (w : FixedTest.World) : FixedTest.World * list event :=
  let started := FixedTest.start_test_for_user uid w in
  if started.2 then
    match FixedTest.get_current_question uid started.1 with
    | Some q => (started.1, [send_question q])
    | None => (started.1, [Reply NoQuestions])
    end
  else (started.1, [Reply TestStartFailed]).

Definition handle_test_actions (uid : Z) (action : string) (w : FixedTest.World)
    : FixedTest.World * list event :=
  if String.eqb action "test_continue" then
    match FixedTest.get_current_question uid w with
    | Some q => (w, [send_question q])
    | None =>
        let fin := FixedTest.finish_test uid w in
        (fin.1, [Reply Summing; show_test_results fin.2])
    end
  else if String.eqb action "test_restart" then
    restart uid (FixedTest.with_active_tests w (delete uid (FixedTest.active_tests w)))
  else if String.eqb action "test_cancel" then
    (FixedTest.with_active_tests w (delete uid (FixedTest.active_tests w)),
     [Reply TestCancelled])
  else (w, []).

(** *** The completion gate *)

Definition with_users (w : FixedTest.World) (u : gmap Z Db.User) : FixedTest.World :=
  {| FixedTest.active_tests := FixedTest.active_tests w;
     FixedTest.test_results := FixedTest.test_results w;
     FixedTest.fixed_test := FixedTest.fixed_test w;
     FixedTest.users := u;
     FixedTest.test_files := FixedTest.test_files w |}.

(** [require_test_completion(func)]: [func] is the decorated handler. *)
Definition require_test_completion (func : Bot -> Bot * list event) (uid : Z) (b : Bot)
    : Bot * list event :=
  let w := tests b in
  match FixedTest.active_tests w !! uid with
  | Some _ => (b, [Reply FinishCurrentTest])
  | None =>
      if Db.database_has_completed_test uid (FixedTest.users w) then func b
      else
        match FixedTest.test_files w !! uid with
        | Some (FixedTest.Content test_results) =>
            if truthy test_results then
              match len test_results with
              | Some n =>
                  if (0 <? n)%nat
                  then func {| tests := with_users w (Db.mark_test_completed uid (FixedTest.users w));
                               exercises := exercises b |}
                  else (b, [Reply TakeTestFirst])
              | None => (b, [Reply TakeTestFirst])
              end
            else (b, [Reply TakeTestFirst])
        | Some FixedTest.Unreadable => (b, [Reply TakeTestFirst])
        | None => (b, [Reply TakeTestFirst])
        end
  end.




(** A run of answer callbacks of one user, with everything sent. *)
Definition answer_all (uid : Z) (uuid : string) (callbacks : list string)
    (m : Exercises.Manager) : Exercises.Manager * list event :=
  fold_left
    (fun acc data =>
       let r := handle_exercise_answer uid data uuid acc.1 in (r.1, acc.2 ++ r.2))
    callbacks (m, []).

End Handlers.

(** ** The rest of the fixed-test flow ([src/test_manager.py],
       [src/bot/handlers.py]) *)

Module TestFlow.

(** [create_question_keyboard]: one button per option whose first
    character, lower-cased, is a, b, c or d; a button is its text and
    its callback data.  [None] stands for the [KeyError] of a question
    without options and the [IndexError] of an empty option. *)
Fixpoint question_buttons (opts : list string) : option (list (string * string)) :=
  match opts with
  | [] => Some []
  | o :: rest =>
      match o with
      | EmptyString => None
      | String c _ =>
          let option_letter := String (Py.lower_char c) EmptyString in
          rest' ← question_buttons rest;
          Some (if existsb (String.eqb option_letter) ["a"; "b"; "c"; "d"]
                then (o, "test_answer_" +:+ option_letter) :: rest'
                else rest')
      end
  end.

(** [option[0].lower()], the letter a button stands for. *)
Definition option_letter (o : string) : string :=
  match o with
  | EmptyString => EmptyString
  | String c _ => String (Py.lower_char c) EmptyString
  end.

Definition create_question_keyboard (q : FixedTest.Question)
    : option (list (string * string)) :=
  match FixedTest.options q with
  | Some opts => question_buttons opts
  | None => None
  end.

(** [handle_test_start] *)
Definition handle_test_start (uid : Z) (w : FixedTest.World)
    : FixedTest.World * list Handlers.event :=
  Handlers.restart uid w.

(** [handle_test_answer]: [data] is [query.data]. *)
Definition handle_test_answer (uid : Z) (data : string) (w : FixedTest.World)
    : FixedTest.World * list Handlers.event :=
  let answer := Py.remove_all "test_answer_" data in
  let w1 := FixedTest.process_answer uid answer w in
  if FixedTest.is_test_completed uid w1 then
    let fin := FixedTest.finish_test uid w1 in
    (fin.1, [Handlers.Reply Handlers.Summing; Handlers.show_test_results fin.2])
  else
    match FixedTest.get_current_question uid w1 with
    | Some q => (w1, [Handlers.send_question q])
    | None => (w1, [])
    end.

(** A run of [process_answer] calls of one user. *)
Definition process_answers (uid : Z) (given : list string) (w : FixedTest.World)
    : FixedTest.World :=
  fold_left (fun acc a => FixedTest.process_answer uid a acc) given w.

(** A run of test answers of one user, with everything sent. *)
Definition answer_test (uid : Z) (callbacks : list string) (w : FixedTest.World)
    : FixedTest.World * list Handlers.event :=
  fold_left
    (fun acc data => let r := handle_test_answer uid data acc.1 in (r.1, acc.2 ++ r.2))
    callbacks (w, []).

(** [has_user_completed_test] *)
Definition has_user_completed_test (uid : Z) (w : FixedTest.World) : bool :=
  Db.database_has_completed_test uid (FixedTest.users w).

End TestFlow.

(** ** The rest of the exercise flow ([src/bot/handlers.py]) *)

Module ExerciseFlow.

(** The callback data [show_exercise] puts on the button of option [i]:
    [f"ex:{session_id}:{exercise_index}:{letter}"], [letter = chr(65 + i)]. *)
Definition callback_data (session_id : string) (exercise_index : Z) (i : nat) : string :=
  "ex:" +:+ session_id +:+ ":" +:+ Py.str_of_int exercise_index +:+ ":"
        +:+ Py.chr (65 + i).

(** The key [handle_exercise_answer] files an answer under:
    [f"{subject}_{user_id}_{current_index}"]. *)
Definition answer_key (subj : string) (uid : Z) (current_index : Z) : string :=
  subj +:+ "_" +:+ Py.str_of_int uid +:+ "_" +:+ Py.str_of_int current_index.

(** What the handler does to the manager when it accepts an answer:
    [submit_answer], then [set_current_exercise_index]. *)
Definition record_answer (uid : Z) (key answer : string) (next_index : Z)
    (m : Exercises.Manager) : Exercises.Manager :=
  Exercises.set_current_exercise_index uid next_index
    (Exercises.submit_answer uid key answer m).

(** Every answer stored for the user sits under a handler key. *)
Definition only_answer_keys (subj : string) (uid : Z) (m : Exercises.Manager) : Prop :=
  forall key a,
    default ∅ (Exercises.user_answers m !! uid) !! key = Some a ->
    exists k : Z, key = answer_key subj uid k.

(** The user has no batch, or the built-in one with handler keys only. *)
Definition on_builtin_batch (subj : string) (uid : Z) (m : Exercises.Manager) : Prop :=
  match Exercises.active_exercises m !! uid with
  | None => True
  | Some exs => exs = Exercises._get_fallback_exercises subj /\ only_answer_keys subj uid m
  end.

(** The answer buttons of a shown exercise, as callback data. *)
Definition answer_buttons (ev : Handlers.event) : list string :=
  match ev with
  | Handlers.ShowExercise e exercise_index _ session_id =>
      imap (fun i _ => callback_data session_id exercise_index i) (Exercises.options e)
  | _ => []
  end.

(** What [vocabulary_command] and [grammar_command] leave behind when
    they hand out [batch] under the token [uuid]: the reply sent, and
    the session of the user. *)
Definition session_started (uid : Z) (uuid : string) (batch : list Exercises.Exercise)
    (m : Exercises.Manager) (res : Exercises.Manager * list Handlers.event) : Prop :=
  exists (first : Exercises.Exercise) (rest : list Exercises.Exercise),
    batch = first :: rest
    /\ res.2 = [Handlers.Reply Handlers.CreatingExercises;
                Handlers.ShowExercise first 0 (length batch) (Py.str_take 6 uuid)]
    /\ Exercises.active_exercises res.1 !! uid = Some batch
    /\ Exercises.user_answers res.1 !! uid = Some ∅
    /\ Exercises.user_current_index res.1 !! uid = Some 0
    /\ Exercises.session_ids res.1 !! uid = Some uuid
    /\ Exercises.exercise_results res.1 = Exercises.exercise_results m
    /\ forall other : Z,
         other ≠ uid ->
         Exercises.active_exercises res.1 !! other = Exercises.active_exercises m !! other
         /\ Exercises.user_answers res.1 !! other = Exercises.user_answers m !! other
         /\ Exercises.user_current_index res.1 !! other
            = Exercises.user_current_index m !! other
         /\ Exercises.session_ids res.1 !! other = Exercises.session_ids m !! other.

(** [reset_exercises_command]: whether a session was reset, and the
    manager afterwards. *)
Definition reset_exercises_command (uid : Z) (m : Exercises.Manager)
    : Exercises.Manager * bool :=
  if Exercises.is_exercise_session_active uid m
  then (Handlers.reset_exercise_session uid m, true)
  else (m, false).

End ExerciseFlow.

(** ** Result text clean-up ([clean_markdown_text], [src/bot/handlers.py]) *)

Module Markdown.

Definition bullet : string := "•".
Definition double_quote : string := String (ascii_of_nat 34) EmptyString.

Definition clean_markdown_text (text : string) : string :=
  Py.replace_char "]" ")"
    (Py.replace_char "[" "("
       (Py.replace_char "`" double_quote
          (Py.replace_char "_" "-"
             (Py.replace_char "*" bullet text)))).

(** The characters the function is there to remove. *)
Definition special (c : ascii) : bool :=
  existsb (Ascii.eqb c) ["*"; "_"; "`"; "["; "]"]%char.

(** What one character becomes. *)
Definition substitute (c : ascii) : string :=
  if Ascii.eqb c "*" then bullet
  else if Ascii.eqb c "_" then "-"
  else if Ascii.eqb c "`" then double_quote
  else if Ascii.eqb c "[" then "("
  else if Ascii.eqb c "]" then ")"
  else String c EmptyString.

Fixpoint substitute_all (s : string) : string :=
  match s with
  | EmptyString => EmptyString
  | String c r => substitute c +:+ substitute_all r
  end.

End Markdown.

(** ** Conversation ([chat_command], [handle_message], [src/bot/handlers.py]) *)

Module ChatFlow.

(** The transcripts and [context.user_data['mode']] of every user. *)
Record State := {
  histories : gmap Z (list Chat.message);
  modes : gmap Z string }.

Definition menu_labels : list string :=
  ["📝 Test"; "📚 Vocabulary"; "📖 Grammar"; "💬 Chat"; "🔥 Motivate";
   "👨‍🏫 Get contact with a teacher"; "🔄 Сбросить активные упражнения"].

Definition chat_command (uid : Z) (st : State) : State :=
  {| histories := Chat.clear_chat_history uid (histories st);
     modes := <[uid := "chat"]> (modes st) |}.

Definition newline : string := String (ascii_of_nat 10) EmptyString.

(** [context_with_history]: the transcript without its last entry, one
    line per message, then the current message. *)
Definition context_with_history (chat_history : list Chat.message) (user_message : string)
    : string :=
  fold_left
    (fun acc msg => acc +:+ Chat.role msg +:+ ": " +:+ Chat.content msg +:+ newline)
    (take (length chat_history - 1) chat_history)
    ("История чата:" +:+ newline)
  +:+ newline +:+ "Текущее сообщение пользователя: " +:+ user_message.

(** What [handle_message] does: hand a menu label to [handle_buttons],
    or ask the generator and send its answer. *)
Inductive outcome :=
| ToButtons
| Answered (prompt_type context response : string).

(** [llm prompt_type user_message] is what [llm_service.generate_content]
    returns; it catches its own failures and always returns a text. *)
Definition handle_message (llm : string -> string -> string) (uid : Z)
    (user_message : string) (st : State) : State * outcome :=
  if existsb (String.eqb user_message) menu_labels then (st, ToButtons)
  else
    let prompt_type :=
      if String.eqb (default "tutor" (modes st !! uid)) "chat" then "chat" else "tutor" in
    let h1 := Chat.add_to_chat_history uid "user" user_message (histories st) in
    let context := context_with_history (Chat.get_chat_history uid h1) user_message in
    let response := llm prompt_type context in
    let h2 := Chat.add_to_chat_history uid "assistant" response h1 in
    ({| histories := h2; modes := modes st |}, Answered prompt_type context response).

End ChatFlow.

(** ** Callback routing ([setup_handlers], [src/bot/handlers.py]) *)

Module Dispatch.

(** The callback handlers [setup_handlers] registers. *)
Inductive handler :=
| ExerciseAnswer    (* handle_exercise_answer *)
| ExerciseFinish    (* handle_exercise_finish *)
| TestStart         (* handle_test_start *)
| TestActions       (* handle_test_actions *)
| TestAnswer.       (* handle_test_answer *)

(** [re.match("^" + lit, data)] *)
Definition starts_with (lit data : string) : bool := String.prefix lit data.

(** [re.match("^" + lit + "$", data)]: [$] matches at the end of the
    text and before a newline that ends it. *)
Definition is_exactly (lit data : string) : bool :=
  String.eqb data lit || String.eqb data (lit +:+ String "010"%char EmptyString).

(** The patterns, in the order of registration. *)
Definition registered : list (handler * (string -> bool)) :=
  [(ExerciseAnswer, starts_with "ex:");
   (ExerciseFinish, is_exactly "exercise_finish");
   (TestStart, is_exactly "start_test");
   (TestActions,
    fun data => is_exactly "test_continue" data || is_exactly "test_restart" data
                || is_exactly "test_cancel" data);
   (TestAnswer, starts_with "test_answer_")].

(** The handler a callback goes to: the first one whose pattern
    matches. *)
Definition route (data : string) : option handler :=
  fst <$> List.find (fun hp => hp.2 data) registered.

End Dispatch.

(** ** Predicates on texts used in the statements *)

Module Text.

Fixpoint all_chars (p : ascii -> bool) (s : string) : bool :=
  match s with
  | EmptyString => true
  | String c r => p c && all_chars p r
  end.

Definition is_digit (c : ascii) : bool :=
  let n := nat_of_ascii c in (48 <=? n)%nat && (n <=? 57)%nat.

(** The first of the letters A to D in a text, if there is one. *)
Fixpoint first_AD (s : string) : option ascii :=
  match s with
  | EmptyString => None
  | String c r => if Exercises.is_letter_AD c then Some c else first_AD r
  end.

(** No colon, the field separator of the exercise callbacks. *)
Definition no_colon (s : string) : bool :=
  all_chars (fun c => negb (Ascii.eqb c ":")) s.

End Text.

(** ** Concrete inputs used by the examples *)

(** One question, answered by user 7. *)
Definition one_question : FixedTest.Question :=
  {| FixedTest.id := 1;
     FixedTest.section := Some "grammar";
     FixedTest.question :=
       Some "By the time we arrived at the theatre, the performance ______.";
     FixedTest.explanation := None;
     FixedTest.options :=
       Some ["a) had already started"; "b) already started";
             "c) has already started"; "d) was already starting"];
     FixedTest.correct_answer := "a" |}.

Definition fresh_test : FixedTest.Test :=
  {| FixedTest.questions := [one_question]; FixedTest.current_question := 0;
     FixedTest.score := 0; FixedTest.answers := [] |}.

Definition world_of (tests : gmap Z FixedTest.Test) : FixedTest.World :=
  {| FixedTest.active_tests := tests; FixedTest.test_results := ∅;
     FixedTest.fixed_test := Some [one_question];
     FixedTest.users := ∅; FixedTest.test_files := ∅ |}.

(** The session of user 7 after the one question was answered with ["a"]. *)
Definition answered_test : FixedTest.Test :=
  {| FixedTest.questions := [one_question]; FixedTest.current_question := 1;
     FixedTest.score := 1;
     FixedTest.answers := [FixedTest.log_entry one_question "a"] |}.

(** A bank of 25 questions, and the session of user 7 after 7 correct
    answers and 18 wrong ones. *)
Definition bank_of_25 : list FixedTest.Question := replicate 25 one_question.

Definition seven_of_25 : FixedTest.Test :=
  {| FixedTest.questions := bank_of_25; FixedTest.current_question := 25;
     FixedTest.score := 7;
     FixedTest.answers :=
       zip_with FixedTest.log_entry bank_of_25 (replicate 7 "a" ++ replicate 18 "b") |}.

Definition sample_uuid : string := "0f8fad5b-d9cb-469f-a165-70867728950e".

(** User 7 after starting a grammar session for which the generator
    answered with text that is not JSON: the built-in batch. *)
Definition grammar_session : Exercises.Manager :=
  (Exercises.start_exercise_session Exercises.plain_render 7 "grammar" sample_uuid
     Exercises.NotJson Exercises.new_manager).1.

(** A well-formed entry of a generator answer, and one with three options. *)
Definition good_entry : Json.json :=
  Json.JObj [("question", Json.JStr "She ___ to school every day.");
             ("options", Json.JArr [Json.JStr "go"; Json.JStr "goes";
                                    Json.JStr "going"; Json.JStr "gone"]);
             ("correct_answer", Json.JStr "B");
             ("explanation", Json.JStr "Third person singular takes -es.")].

Definition short_entry : Json.json :=
  Json.JObj [("question", Json.JStr "They ___ football now.");
             ("options", Json.JArr [Json.JStr "play"; Json.JStr "are playing";
                                    Json.JStr "plays"]);
             ("correct_answer", Json.JStr "B");
             ("explanation", Json.JStr "Present continuous for an action in progress.")].




(** * Properties *)

(** ** User records *)

Lemma get_user_id (uid : Z) (db : gmap Z Db.User) :
  Db.consistent db -> Db.user_id (Db.get_user uid db) = uid.
Proof.
  intros Hdb. unfold Db.get_user.
  destruct (db !! uid) as [u |] eqn:Hu; simpl; [by apply Hdb | done].
Qed.

Lemma save_user_consistent (u : Db.User) (db : gmap Z Db.User) :
  Db.consistent db -> Db.consistent (Db.save_user u db).
Proof.
  intros Hdb uid v. unfold Db.save_user.
  destruct (decide (Db.user_id u = uid)) as [<- | Hne].
  - rewrite lookup_insert_eq. by intros [= <-].
  - rewrite lookup_insert_ne by done. apply Hdb.
Qed.

(** ** Chat history *)

Section ChatFacts.
Import Chat.
Implicit Types (h : gmap Z (list message)) (l : list message).

Lemma last_n_length {A} (n : nat) (l : list A) :
  length (Py.last_n n l) = Nat.min n (length l).
Proof. unfold Py.last_n. rewrite length_drop. lia. Qed.

Lemma last_n_short {A} (n : nat) (l : list A) :
  (length l <= n)%nat -> Py.last_n n l = l.
Proof.
  intros Hle. unfold Py.last_n.
  replace (length l - n)%nat with 0%nat by lia. reflexivity.
Qed.

(** Truncating before or after one more append keeps the same tail. *)
Lemma last_n_snoc {A} (n : nat) (l : list A) (x : A) :
  (0 < n)%nat -> Py.last_n n (Py.last_n n l ++ [x]) = Py.last_n n (l ++ [x]).
Proof.
  intros Hn. unfold Py.last_n.
  rewrite !length_app, length_drop. simpl.
  destruct (decide (length l <= n)%nat) as [Hle | Hgt].
  - replace (length l - n)%nat with 0%nat by lia. simpl.
    f_equal. lia.
  - rewrite !drop_app.
    replace (length l - (length l - n) + 1 - n)%nat with 1%nat by lia.
    rewrite length_drop.
    replace (1 - (length l - (length l - n)))%nat with 0%nat by lia.
    replace (length l + 1 - n - length l)%nat with 0%nat by lia.
    simpl. rewrite drop_drop. f_equal. f_equal. lia.
Qed.

Lemma add_lookup_same uid r c h :
  add_to_chat_history uid r c h !! uid
  = Some (Py.last_n 20 (get_chat_history uid h ++ [Message r c])).
Proof.
  unfold add_to_chat_history, get_chat_history.
  destruct (h !! uid) as [old |] eqn:Hold; simpl.
  - rewrite Hold. simpl.
    destruct (20 <? Z.of_nat (length (old ++ [Message r c]))) eqn:Hlen.
    + by rewrite lookup_insert_eq.
    + rewrite lookup_insert_eq. f_equal. symmetry. apply last_n_short.
      apply Z.ltb_ge in Hlen. lia.
  - rewrite lookup_insert_eq. simpl. by rewrite lookup_insert_eq.
Qed.

Lemma add_lookup_other uid uid' r c h :
  uid' ≠ uid -> add_to_chat_history uid r c h !! uid' = h !! uid'.
Proof.
  intros Hne. unfold add_to_chat_history.
  destruct (h !! uid) as [old |] eqn:Hold;
    repeat case_match; rewrite ?lookup_insert_ne by done; done.
Qed.

Lemma append_all_snoc ops op h :
  append_all (ops ++ [op]) h
  = add_to_chat_history op.1 (role op.2) (content op.2) (append_all ops h).
Proof. unfold append_all. by rewrite fold_left_app. Qed.

Lemma sent_to_snoc uid ops op :
  sent_to uid (ops ++ [op])
  = sent_to uid ops ++ (if decide (op.1 = uid) then [op.2] else []).
Proof.
  unfold sent_to. rewrite filter_app, fmap_app. f_equal.
  rewrite filter_cons, filter_nil. by case_decide.
Qed.

Lemma append_all_history uid ops :
  get_chat_history uid (append_all ops ∅) = Py.last_n 20 (sent_to uid ops).
Proof.
  induction ops as [| op ops IH] using rev_ind.
  - reflexivity.
  - rewrite append_all_snoc, sent_to_snoc.
    destruct op as [u [r c]]. simpl.
    case_decide as Hu.
    + subst u. unfold get_chat_history at 1.
      rewrite add_lookup_same. simpl. rewrite IH.
      apply last_n_snoc. lia.
    + unfold get_chat_history at 1. rewrite add_lookup_other by done.
      fold (get_chat_history uid (append_all ops ∅)).
      by rewrite IH, app_nil_r.
Qed.

End ChatFacts.

(** C9: the transcript of a user never holds more than 20 entries.  A
    single append, whatever the transcript was before, leaves the last
    20 entries of the old transcript followed by the new message; after
    any run of appends from the empty store the transcript of a user is
    exactly the last 20 messages appended for that user, in the order of
    the appends, so the oldest ones are the ones dropped. *)
Theorem chat_history_keeps_last_20 :
  forall (ops : list (Z * Chat.message)) (uid : Z) (r c : string)
         (h : gmap Z (list Chat.message)),
    Chat.get_chat_history uid (Chat.add_to_chat_history uid r c h)
      = Py.last_n 20 (Chat.get_chat_history uid h ++ [Chat.Message r c])
    /\ (length (Chat.get_chat_history uid (Chat.add_to_chat_history uid r c h)) <= 20)%nat
    /\ Chat.get_chat_history uid (Chat.append_all ops ∅)
       = Py.last_n 20 (Chat.sent_to uid ops)
    /\ (length (Chat.get_chat_history uid (Chat.append_all ops ∅)) <= 20)%nat.
Proof.
  intros ops uid r c h.
  assert (Hone : Chat.get_chat_history uid (Chat.add_to_chat_history uid r c h)
                 = Py.last_n 20 (Chat.get_chat_history uid h ++ [Chat.Message r c])).
  { unfold Chat.get_chat_history at 1. by rewrite add_lookup_same. }
  repeat split.
  - exact Hone.
  - rewrite Hone, last_n_length. lia.
  - apply append_all_history.
  - rewrite append_all_history, last_n_length. lia.
Qed.

(** ** Fixed test: answering *)

Section ProcessAnswerFacts.
Import FixedTest.

Lemma process_answer_no_session uid answer w :
  active_tests w !! uid = None -> process_answer uid answer w = w.
Proof. intros H. unfold process_answer. by rewrite H. Qed.

Lemma process_answer_other uid uid' answer w :
  uid' ≠ uid ->
  active_tests (process_answer uid answer w) !! uid' = active_tests w !! uid'.
Proof.
  intros Hne. unfold process_answer.
  destruct (active_tests w !! uid) as [t |]; [| done].
  destruct (questions t !! current_question t); [| done].
  simpl. by rewrite lookup_insert_ne.
Qed.

(** The dictionaries outside [active_tests] are not touched. *)
Lemma process_answer_frame uid answer w :
  test_results (process_answer uid answer w) = test_results w
  /\ fixed_test (process_answer uid answer w) = fixed_test w
  /\ users (process_answer uid answer w) = users w
  /\ test_files (process_answer uid answer w) = test_files w.
Proof.
  unfold process_answer.
  destruct (active_tests w !! uid) as [t |]; [| done].
  by destruct (questions t !! current_question t).
Qed.

End ProcessAnswerFacts.

(** C6: in a fixed-test session, [process_answer] with the cursor past
    the last question changes nothing; otherwise it appends exactly one
    log entry, the one for the question under the cursor and the
    submitted label, adds one to the score exactly when the label equals
    the question's correct answer, moves the cursor on by one and keeps
    the questions. *)
Theorem process_answer_step :
  forall (uid : Z) (answer : string) (w : FixedTest.World) (t : FixedTest.Test),
    FixedTest.active_tests w !! uid = Some t ->
    ((length (FixedTest.questions t) <= FixedTest.current_question t)%nat ->
       FixedTest.process_answer uid answer w = w)
    /\ ((FixedTest.current_question t < length (FixedTest.questions t))%nat ->
        exists (q : FixedTest.Question) (t' : FixedTest.Test),
          FixedTest.questions t !! FixedTest.current_question t = Some q
          /\ FixedTest.active_tests (FixedTest.process_answer uid answer w) !! uid = Some t'
          /\ FixedTest.answers t'
             = FixedTest.answers t ++ [FixedTest.log_entry q answer]
          /\ FixedTest.question_id (FixedTest.log_entry q answer) = FixedTest.id q
          /\ FixedTest.user_answer (FixedTest.log_entry q answer) = answer
          /\ (FixedTest.is_correct (FixedTest.log_entry q answer) = true
              <-> answer = FixedTest.correct_answer q)
          /\ FixedTest.score t'
             = (FixedTest.score t
                + (if decide (answer = FixedTest.correct_answer q) then 1 else 0))%nat
          /\ FixedTest.current_question t' = S (FixedTest.current_question t)
          /\ FixedTest.questions t' = FixedTest.questions t).
Proof.
  intros uid answer w t Ht. split.
  - intros Hpast. unfold FixedTest.process_answer. rewrite Ht.
    by rewrite (lookup_ge_None_2 _ _ Hpast).
  - intros Hin.
    destruct (lookup_lt_is_Some_2 _ _ Hin) as [q Hq].
    unfold FixedTest.process_answer. rewrite Ht, Hq. simpl.
    eexists q, _. rewrite lookup_insert_eq.
    split; [done |]. split; [reflexivity |]. simpl.
    split; [done |]. split; [done |]. split; [done |].
    split; [apply String.eqb_eq |].
    split; [| done].
    case_decide as Heq.
    + apply String.eqb_eq in Heq. rewrite Heq. lia.
    + apply String.eqb_neq in Heq. rewrite Heq. lia.
Qed.

Lemma process_answer_step_witness :
  FixedTest.active_tests (world_of {[ 7 := fresh_test ]}) !! 7 = Some fresh_test
  /\ exists t',
      FixedTest.active_tests
        (FixedTest.process_answer 7 "a" (world_of {[ 7 := fresh_test ]})) !! 7 = Some t'
      /\ FixedTest.score t' = 1%nat
      /\ FixedTest.current_question t' = 1%nat.
Proof.
  assert (H7 : FixedTest.active_tests (world_of {[ 7 := fresh_test ]}) !! 7
               = Some fresh_test) by reflexivity.
  split; [exact H7 |].
  destruct (process_answer_step 7 "a" (world_of {[ 7 := fresh_test ]}) fresh_test H7)
    as [_ Hstep].
  destruct Hstep as (q & t' & Hq & Ht' & _ & _ & _ & _ & Hscore & Hcur & _).
  { simpl. lia. }
  exists t'. split; [exact Ht' |]. split; [| exact Hcur].
  rewrite Hscore. injection Hq as <-. reflexivity.
Defined.

(** ** Fixed test: results *)

Section FinishTestFacts.
Import FixedTest.

Lemma finish_test_results uid w t :
  active_tests w !! uid = Some t ->
  (finish_test uid w).2 = Some (build_results t).
Proof. intros H. unfold finish_test. by rewrite H. Qed.

Lemma finish_test_clears uid w :
  active_tests (finish_test uid w).1 !! uid = None.
Proof.
  unfold finish_test. destruct (active_tests w !! uid) eqn:H; simpl; [| done].
  apply lookup_delete_eq.
Qed.

(** The write of the record fails: afterwards the record of the user
    cannot be read, and the flag reads false. *)
Lemma finish_test_record_unreadable uid w t :
  Db.consistent (users w) ->
  active_tests w !! uid = Some t ->
  users (finish_test uid w).1 !! uid = None
  /\ Db.database_has_completed_test uid (users (finish_test uid w).1) = false.
Proof.
  intros Hdb H. unfold finish_test. rewrite H. cbn [fst users].
  unfold Db.save_user_failed. cbn [Db.add_test_result Db.user_id].
  rewrite (get_user_id uid (users w) Hdb).
  unfold Db.database_has_completed_test, Db.get_user.
  by rewrite lookup_delete_eq.
Qed.

Lemma percentage_of_pos (sc n : nat) :
  n ≠ 0%nat -> percentage_of sc n = (Py.true_div sc n * 100)%float.
Proof.
  intros Hn. unfold percentage_of.
  by destruct (Nat.ltb_spec 0 n) as [_ | Hle]; [| lia].
Qed.

Lemma all_counts_below_spec (f : nat -> nat -> bool) (bound : nat) :
  Py.all_counts_below f bound = true ->
  forall c n : nat, (0 < n <= bound)%nat -> (c <= n)%nat -> f c n = true.
Proof.
  unfold Py.all_counts_below. intros Hall c n Hn Hc.
  rewrite forallb_forall in Hall.
  assert (Hin : In n (seq 1 bound)) by (apply in_seq; lia).
  specialize (Hall n Hin). rewrite forallb_forall in Hall.
  apply Hall, in_seq. lia.
Qed.

Lemma percentage_errors_below_spec (eps : Q) (bound : nat) :
  percentage_errors_below eps bound = true ->
  forall sc n : nat,
    (0 < n <= bound)%nat -> (sc <= n)%nat -> (percentage_error sc n <= eps)%Q.
Proof.
  unfold percentage_errors_below. intros Hall sc n Hn Hsc. apply Qle_bool_iff.
  exact (all_counts_below_spec _ bound Hall sc n Hn Hsc).
Qed.

Lemma percentage_errors_checked :
  percentage_errors_below (1 # 10000000000000) 100 = true.
Proof. vm_compute. reflexivity. Qed.

Lemma percentage_error_small (sc n : nat) :
  (0 < n <= 100)%nat -> (sc <= n)%nat ->
  (percentage_error sc n <= 1 # 10000000000000)%Q.
Proof. exact (percentage_errors_below_spec _ _ percentage_errors_checked sc n). Qed.

End FinishTestFacts.

(** C7, as amended: when [finish_test] closes a session it reports the
    number of questions, the score as the number of correct answers,
    and as percentage the float product (score / total) * 100, both
    operations rounded; with no questions the percentage is 0.  For a
    test of at most 100 questions that value is within 10^-13 of
    100 * correct_answers / total_questions.  The test result built for
    the user record carries the same three numbers. *)
Theorem finish_test_percentage :
  forall (uid : Z) (w : FixedTest.World) (t : FixedTest.Test),
    FixedTest.active_tests w !! uid = Some t ->
    exists r : FixedTest.Results,
      (FixedTest.finish_test uid w).2 = Some r
      /\ FixedTest.r_total_questions r = length (FixedTest.questions t)
      /\ FixedTest.r_score r = FixedTest.score t
      /\ (FixedTest.r_total_questions r ≠ 0%nat ->
          FixedTest.r_percentage r
          = (Py.true_div (FixedTest.r_score r) (FixedTest.r_total_questions r) * 100)%float)
      /\ (FixedTest.r_total_questions r = 0%nat -> FixedTest.r_percentage r = 0%float)
      /\ ((0 < FixedTest.r_total_questions r <= 100)%nat ->
          (FixedTest.r_score r <= FixedTest.r_total_questions r)%nat ->
          (Qabs (Py.Q_of_float (FixedTest.r_percentage r)
                 - 100 * inject_Z (Z.of_nat (FixedTest.r_score r))
                   / inject_Z (Z.of_nat (FixedTest.r_total_questions r)))
           <= 1 # 10000000000000)%Q)
      /\ Db.correct_answers (FixedTest.to_test_result r) = FixedTest.r_score r
      /\ Db.total_questions (FixedTest.to_test_result r) = FixedTest.r_total_questions r
      /\ Db.percentage (FixedTest.to_test_result r) = FixedTest.r_percentage r.
Proof.
  intros uid w t Ht. exists (FixedTest.build_results t).
  split; [by apply finish_test_results |].
  split; [done |]. split; [done |].
  split; [intros Hn; by apply percentage_of_pos |].
  split.
  { cbn [FixedTest.build_results FixedTest.r_total_questions FixedTest.r_percentage].
    intros ->. reflexivity. }
  split.
  { intros Hn Hsc. by apply percentage_error_small. }
  split; [done |]. split; done.
Qed.

Lemma finish_test_percentage_witness :
  FixedTest.active_tests
    (FixedTest.process_answer 7 "a" (world_of {[ 7 := fresh_test ]})) !! 7
  = Some {| FixedTest.questions := [one_question]; FixedTest.current_question := 1;
            FixedTest.score := 1;
            FixedTest.answers := [FixedTest.log_entry one_question "a"] |}
  /\ exists r,
      (FixedTest.finish_test 7
         (FixedTest.process_answer 7 "a" (world_of {[ 7 := fresh_test ]}))).2 = Some r
      /\ FixedTest.r_percentage r = 100%float.
Proof.
  assert (H7 : FixedTest.active_tests
                 (FixedTest.process_answer 7 "a" (world_of {[ 7 := fresh_test ]})) !! 7
               = Some {| FixedTest.questions := [one_question];
                         FixedTest.current_question := 1; FixedTest.score := 1;
                         FixedTest.answers := [FixedTest.log_entry one_question "a"] |})
    by reflexivity.
  split; [exact H7 |].
  destruct (finish_test_percentage 7 _ _ H7) as (r & Hr & Hn & Hs & Hp & _).
  exists r. split; [exact Hr |].
  rewrite Hp by (rewrite Hn; discriminate).
  rewrite Hn, Hs. reflexivity.
Defined.

(** C7 as stated fails: user 7 finishes a test of 25 questions with 7
    correct answers (the session the 25 answers lead to).  The
    percentage reported is 28.000000000000004, the float product
    (7 / 25) * 100, and not 28 = 100 * 7 / 25. *)
Lemma finish_test_percentage_inexact :
  FixedTest.active_tests
    (TestFlow.process_answers 7 (replicate 7 "a" ++ replicate 18 "b")
       (world_of {[ 7 := {| FixedTest.questions := bank_of_25;
                            FixedTest.current_question := 0;
                            FixedTest.score := 0; FixedTest.answers := [] |} ]})) !! 7
  = Some seven_of_25
  /\ exists r : FixedTest.Results,
      (FixedTest.finish_test 7 (world_of {[ 7 := seven_of_25 ]})).2 = Some r
      /\ FixedTest.r_score r = 7%nat
      /\ FixedTest.r_total_questions r = 25%nat
      /\ FixedTest.r_percentage r = 0x1.c000000000001p+4%float
      /\ (FixedTest.r_percentage r =? 28)%float = false
      /\ (Py.Q_of_float (FixedTest.r_percentage r) == 7881299347898369 # 281474976710656)%Q
      /\ ~ (Py.Q_of_float (FixedTest.r_percentage r) == 100 * 7 / 25)%Q.
Proof.
  split; [vm_compute; reflexivity |].
  eexists. split; [reflexivity |].
  split; [reflexivity |]. split; [reflexivity |].
  split; [vm_compute; reflexivity |].
  split; [vm_compute; reflexivity |].
  split; [vm_compute; reflexivity |].
  vm_compute. discriminate.
Qed.

Section StatsFacts.
Import FixedTest.
Implicit Types (d : list (string * Stats)) (log : list Answer).

Lemma has_key_false {A} (k : string) (l : list (string * A)) :
  has_key k l = false <-> Json.assoc k l = None.
Proof.
  induction l as [| [k0 v] l IH]; simpl; [done |].
  destruct (String.eqb k0 k); simpl; [split; discriminate | exact IH].
Qed.

Lemma assoc_update {A} (f : A -> A) (k k' : string) (l : list (string * A)) :
  Json.assoc k' (update f k l)
  = if String.eqb k k' then f <$> Json.assoc k' l else Json.assoc k' l.
Proof.
  induction l as [| [k0 v] l IH]; simpl.
  - by destruct (String.eqb k k').
  - destruct (String.eqb_spec k0 k) as [E1 | E1]; simpl;
      destruct (String.eqb_spec k0 k') as [E2 | E2];
      destruct (String.eqb_spec k k') as [E3 | E3];
      try congruence; done.
Qed.

Lemma assoc_snoc {A} (k k' : string) (v : A) (l : list (string * A)) :
  Json.assoc k' (l ++ [(k, v)])
  = match Json.assoc k' l with
    | Some x => Some x
    | None => if String.eqb k k' then Some v else None
    end.
Proof.
  induction l as [| [k0 v0] l IH]; simpl; [done |].
  by destruct (String.eqb k0 k').
Qed.

Lemma keys_update {A} (f : A -> A) (k : string) (l : list (string * A)) :
  (update f k l).*1 = l.*1.
Proof.
  induction l as [| [k0 v] l IH]; [done |].
  simpl update. destruct (String.eqb k0 k); rewrite !fmap_cons; simpl; [done | by f_equal].
Qed.

Lemma assoc_None_keys {A} (k : string) (l : list (string * A)) :
  Json.assoc k l = None <-> k ∉ l.*1.
Proof.
  induction l as [| [k0 v] l IH].
  - split; [intros _; apply not_elem_of_nil | done].
  - rewrite fmap_cons, not_elem_of_cons. simpl.
    destruct (String.eqb_spec k0 k) as [-> | Hne].
    + split; [discriminate | intros [? _]; done].
    + rewrite IH. split; [intros ?; split; [congruence | done] | by intros [_ ?]].
Qed.

Lemma elem_of_assoc {A} (k : string) (v : A) (l : list (string * A)) :
  NoDup l.*1 -> ((k, v) ∈ l <-> Json.assoc k l = Some v).
Proof.
  induction l as [| [k0 v0] l IH]; intros Hnd.
  - split; [intros H; by apply elem_of_nil in H | discriminate].
  - rewrite fmap_cons in Hnd. apply NoDup_cons in Hnd as [Hk0 Hnd].
    rewrite elem_of_cons. simpl in *.
    destruct (String.eqb_spec k0 k) as [-> | Hne].
    + split.
      * intros [[= ->] | Hin]; [done |].
        exfalso. apply Hk0. apply list_elem_of_fmap. by exists (k, v).
      * intros [= ->]. by left.
    + rewrite <- (IH Hnd). split; [intros [[= ? ?] | ?]; [congruence | done] | by right].
Qed.

(** One pass of the loop body on an ordered dictionary. *)
Lemma assoc_tally (k k' : string) (ok : bool) d :
  Json.assoc k' (tally k ok d)
  = if String.eqb k k'
    then let old := default {| total := 0; correct := 0 |} (Json.assoc k d) in
         Some {| total := S (total old);
                 correct := if ok then S (correct old) else correct old |}
    else Json.assoc k' d.
Proof.
  unfold tally.
  destruct (String.eqb_spec k k') as [<- | Hne].
  - destruct (has_key k d) eqn:Hk.
    + destruct (Json.assoc k d) as [old |] eqn:Hold;
        [| apply has_key_false in Hold; congruence].
      destruct ok; rewrite ?assoc_update, ?String.eqb_refl, ?Hold; done.
    + apply has_key_false in Hk.
      destruct ok; rewrite ?assoc_update, ?String.eqb_refl, ?assoc_snoc, ?Hk,
        ?String.eqb_refl; done.
  - apply String.eqb_neq in Hne.
    destruct (has_key k d) eqn:Hk;
      destruct ok; rewrite ?assoc_update, ?Hne, ?assoc_snoc, ?Hne; try done;
      by destruct (Json.assoc k' d).
Qed.

Lemma keys_tally (k : string) (ok : bool) d :
  (tally k ok d).*1 = if has_key k d then d.*1 else d.*1 ++ [k].
Proof.
  unfold tally.
  destruct (has_key k d); destruct ok; rewrite ?keys_update, ?fmap_app; done.
Qed.

Lemma NoDup_tally (k : string) (ok : bool) d :
  NoDup d.*1 -> NoDup (tally k ok d).*1.
Proof.
  intros Hnd. rewrite keys_tally.
  destruct (has_key k d) eqn:Hk; [done |].
  apply NoDup_app. split; [done |]. split; [| apply NoDup_singleton].
  intros x Hx Hx'. apply list_elem_of_singleton in Hx'. subst x.
  apply has_key_false in Hk. by apply assoc_None_keys in Hk.
Qed.

(** The loop of [finish_test] keeps two independent dictionaries. *)
Lemma collect_stats_split log :
  collect_stats log
  = (fold_left (fun d a => tally (a_section a) (is_correct a) d) log [],
     fold_left (fun d a => tally (topic a) (is_correct a) d) log []).
Proof.
  unfold collect_stats.
  induction log as [| a log IH] using rev_ind; [done |].
  rewrite !fold_left_app. simpl. by rewrite IH.
Qed.

Lemma answered_snoc (key_of : Answer -> string) (k : string) log a :
  answered key_of k (log ++ [a])
  = (answered key_of k log + if decide (key_of a = k) then 1 else 0)%nat.
Proof.
  unfold answered. rewrite filter_app, length_app. f_equal.
  rewrite filter_cons, filter_nil. by case_decide.
Qed.

Lemma answered_correctly_snoc (key_of : Answer -> string) (k : string) log a :
  answered_correctly key_of k (log ++ [a])
  = (answered_correctly key_of k log
     + if decide (key_of a = k) then (if is_correct a then 1 else 0) else 0)%nat.
Proof.
  unfold answered_correctly. rewrite filter_app, length_app. f_equal.
  rewrite filter_cons, filter_nil.
  destruct (decide (key_of a = k)) as [Hk | Hk]; destruct (is_correct a) eqn:Hc;
    case_decide as H; try done; destruct H; done.
Qed.

Lemma answered_correctly_le (key_of : Answer -> string) (k : string) log :
  (answered_correctly key_of k log <= answered key_of k log)%nat.
Proof.
  unfold answered_correctly, answered.
  induction log as [| a log IH]; [done |].
  rewrite !filter_cons.
  destruct (decide (key_of a = k ∧ is_correct a = true)) as [[Hk _] | _];
    destruct (decide (key_of a = k)) as [_ | Hne]; simpl; try lia.
  by destruct Hne.
Qed.

(** What the counting loop computes, key by key. *)
Lemma tally_counts (key_of : Answer -> string) log :
  let d := fold_left (fun d a => tally (key_of a) (is_correct a) d) log [] in
  NoDup d.*1
  /\ forall k,
      Json.assoc k d
      = if decide (answered key_of k log = 0%nat) then None
        else Some {| total := answered key_of k log;
                     correct := answered_correctly key_of k log |}.
Proof.
  induction log as [| a log IH] using rev_ind; simpl.
  - split; [apply NoDup_nil_2 | done].
  - destruct IH as [Hnd IH]. rewrite fold_left_app. simpl.
    split; [by apply NoDup_tally |].
    intros k. rewrite assoc_tally, answered_snoc, answered_correctly_snoc.
    destruct (String.eqb_spec (key_of a) k) as [Hk | Hk].
    + subst k. rewrite IH.
      rewrite !(decide_True (P := key_of a = key_of a)) by done.
      rewrite (decide_False (P := (_ + 1)%nat = 0%nat)) by lia.
      case_decide as H0; simpl.
      * rewrite H0. f_equal.
        assert (answered_correctly key_of (key_of a) log = 0%nat) as ->.
        { pose proof (answered_correctly_le key_of (key_of a) log). lia. }
        destruct (is_correct a); f_equal; lia.
      * f_equal. destruct (is_correct a); f_equal; lia.
    + rewrite IH. rewrite !(decide_False (P := key_of a = k)) by done.
      rewrite !Nat.add_0_r. done.
Qed.

End StatsFacts.

Section ClassifyFacts.
Import FixedTest.
Implicit Types (d : list (string * Stats)) (log : list Answer).

Lemma classify_snoc d k s :
  classify (d ++ [(k, s)])
  = if (0 <? total s)%nat then
      if Qle_bool (7 # 10) (accuracy s) then ((classify d).1 ++ [k], (classify d).2)
      else if Qle_bool (accuracy s) (6 # 10) then ((classify d).1, (classify d).2 ++ [k])
      else classify d
    else classify d.
Proof. unfold classify. rewrite fold_left_app. reflexivity. Qed.

Lemma classify_spec d k :
  (k ∈ (classify d).1 <-> exists s, (k, s) ∈ d /\ is_strength s)
  /\ (k ∈ (classify d).2 <-> exists s, (k, s) ∈ d /\ is_weakness s).
Proof.
  unfold is_strength, is_weakness.
  induction d as [| [k0 s0] d [IH1 IH2]] using rev_ind.
  - split; split; try (intros H; by apply elem_of_nil in H);
      intros (s & H & _); by apply elem_of_nil in H.
  - rewrite classify_snoc.
    assert (Hin : forall s, (k, s) ∈ d ++ [(k0, s0)]
                            <-> (k, s) ∈ d \/ (k = k0 /\ s = s0)).
    { intros s. rewrite elem_of_app, list_elem_of_singleton.
      split; (intros [? | E]; [by left | right]).
      - by injection E.
      - destruct E as [-> ->]. done. }
    destruct (Nat.ltb_spec 0 (total s0)) as [Hpos | Hzero].
    + destruct (Qle_bool (7 # 10) (accuracy s0)) eqn:Hs; simpl.
      * split.
        -- rewrite elem_of_app, list_elem_of_singleton, IH1. split.
           ++ intros [(s & H & Hp) | ->].
              ** exists s. by rewrite Hin; auto.
              ** exists s0. rewrite Hin. auto.
           ++ intros (s & [H | [-> ->]]%Hin & Hp); [left; eauto | by right].
        -- rewrite IH2. split.
           ++ intros (s & H & Hp). exists s. rewrite Hin. auto.
           ++ intros (s & [H | [-> ->]]%Hin & Hp); [eauto |].
              destruct Hp as (_ & Hp & _). congruence.
      * destruct (Qle_bool (accuracy s0) (6 # 10)) eqn:Hw; simpl.
        -- split.
           ++ rewrite IH1. split.
              ** intros (s & H & Hp). exists s. rewrite Hin. auto.
              ** intros (s & [H | [-> ->]]%Hin & Hp); [eauto |].
                 destruct Hp as (_ & Hp). congruence.
           ++ rewrite elem_of_app, list_elem_of_singleton, IH2. split.
              ** intros [(s & H & Hp) | ->].
                 --- exists s. by rewrite Hin; auto.
                 --- exists s0. rewrite Hin. auto.
              ** intros (s & [H | [-> ->]]%Hin & Hp); [left; eauto | by right].
        -- split.
           ++ rewrite IH1. split.
              ** intros (s & H & Hp). exists s. rewrite Hin. auto.
              ** intros (s & [H | [-> ->]]%Hin & Hp); [eauto |].
                 destruct Hp as (_ & Hp). congruence.
           ++ rewrite IH2. split.
              ** intros (s & H & Hp). exists s. rewrite Hin. auto.
              ** intros (s & [H | [-> ->]]%Hin & Hp); [eauto |].
                 destruct Hp as (_ & _ & Hp). congruence.
    + split.
      * rewrite IH1. split.
        -- intros (s & H & Hp). exists s. rewrite Hin. auto.
        -- intros (s & [H | [-> ->]]%Hin & Hp); [eauto |].
           destruct Hp as (Hp & _). lia.
      * rewrite IH2. split.
        -- intros (s & H & Hp). exists s. rewrite Hin. auto.
        -- intros (s & [H | [-> ->]]%Hin & Hp); [eauto |].
           destruct Hp as (Hp & _). lia.
Qed.

Lemma answered_pos (key_of : Answer -> string) (k : string) log :
  k ∈ key_of <$> log <-> (0 < answered key_of k log)%nat.
Proof.
  unfold answered. induction log as [| a log IH].
  - simpl. split; [intros H; by apply elem_of_nil in H | lia].
  - rewrite fmap_cons, elem_of_cons, filter_cons, IH.
    case_decide as Hk; simpl; split; try lia.
    + intros _. by left.
    + intros [-> | H]; [done | lia].
Qed.

(** The topic counters of a finished session, read by key. *)
Lemma topic_stats_entry (t : Test) (k : string) (s : Stats) :
  (k, s) ∈ r_topic_stats (build_results t)
  <-> (0 < answered topic k (answers t))%nat
      /\ s = {| total := answered topic k (answers t);
                correct := answered_correctly topic k (answers t) |}.
Proof.
  unfold build_results. simpl. rewrite collect_stats_split. simpl.
  destruct (tally_counts topic (answers t)) as [Hnd Hassoc].
  rewrite (elem_of_assoc _ _ _ Hnd), Hassoc.
  case_decide as H0; split.
  - discriminate.
  - intros [Hpos _]. lia.
  - intros [= <-]. split; [lia | done].
  - intros [_ ->]. done.
Qed.

End ClassifyFacts.

(** C8: in the results of [finish_test], a topic with at least one
    logged answer is listed as a strength exactly when its accuracy
    (correct answers over answers of that topic in the log) is at least
    0.7, and as a weakness exactly when its accuracy is at most 0.6; a
    topic with an accuracy strictly between 0.6 and 0.7 is in neither
    list. *)
Theorem finish_test_strengths_weaknesses :
  forall (uid : Z) (w : FixedTest.World) (t : FixedTest.Test) (key : string),
    FixedTest.active_tests w !! uid = Some t ->
    key ∈ FixedTest.topic <$> FixedTest.answers t ->
    exists r : FixedTest.Results,
      (FixedTest.finish_test uid w).2 = Some r
      /\ (key ∈ FixedTest.r_strengths r
          <-> ((7 # 10) <= FixedTest.topic_accuracy key (FixedTest.answers t))%Q)
      /\ (key ∈ FixedTest.r_weaknesses r
          <-> (FixedTest.topic_accuracy key (FixedTest.answers t) <= (6 # 10))%Q)
      /\ (((6 # 10) < FixedTest.topic_accuracy key (FixedTest.answers t))%Q ->
          (FixedTest.topic_accuracy key (FixedTest.answers t) < (7 # 10))%Q ->
          (key ∉ FixedTest.r_strengths r) /\ (key ∉ FixedTest.r_weaknesses r)).
Proof.
  intros uid w t key Ht Hkey.
  exists (FixedTest.build_results t).
  split; [by apply finish_test_results |].
  apply answered_pos in Hkey.
  set (s := {| FixedTest.total := FixedTest.answered FixedTest.topic key (FixedTest.answers t);
               FixedTest.correct :=
                 FixedTest.answered_correctly FixedTest.topic key (FixedTest.answers t) |}).
  assert (Hacc : FixedTest.accuracy s
                 = FixedTest.topic_accuracy key (FixedTest.answers t)) by reflexivity.
  assert (Hstrong : key ∈ FixedTest.r_strengths (FixedTest.build_results t)
                    <-> ((7 # 10) <= FixedTest.topic_accuracy key (FixedTest.answers t))%Q).
  { unfold FixedTest.build_results at 1. simpl FixedTest.r_strengths.
    rewrite (proj1 (classify_spec _ key)). rewrite <- Hacc. split.
    - intros (s' & [_ ->]%topic_stats_entry & _ & Hle). by apply Qle_bool_iff.
    - intros Hle. exists s. split; [by apply topic_stats_entry |].
      split; [exact Hkey | by apply Qle_bool_iff]. }
  assert (Hweak : key ∈ FixedTest.r_weaknesses (FixedTest.build_results t)
                  <-> (FixedTest.topic_accuracy key (FixedTest.answers t) <= (6 # 10))%Q).
  { unfold FixedTest.build_results at 1. simpl FixedTest.r_weaknesses.
    rewrite (proj2 (classify_spec _ key)). rewrite <- Hacc. split.
    - intros (s' & [_ ->]%topic_stats_entry & _ & _ & Hle). by apply Qle_bool_iff.
    - intros Hle. exists s. split; [by apply topic_stats_entry |].
      split; [exact Hkey |]. split; [| by apply Qle_bool_iff].
      destruct (Qle_bool (7 # 10) (FixedTest.accuracy s)) eqn:Hs; [| done].
      apply Qle_bool_iff in Hs.
      assert (Habs : ((7 # 10) <= (6 # 10))%Q) by (eapply Qle_trans; eassumption).
      exfalso. revert Habs. unfold Qle. simpl. lia. }
  split; [exact Hstrong |]. split; [exact Hweak |].
  intros Hlo Hhi. split.
  - rewrite Hstrong. by apply Qlt_not_le.
  - rewrite Hweak. by apply Qlt_not_le.
Qed.

Lemma finish_test_strengths_weaknesses_witness :
  FixedTest.active_tests (world_of {[ 7 := answered_test ]}) !! 7 = Some answered_test
  /\ "Tenses: Past Perfect" ∈ FixedTest.topic <$> FixedTest.answers answered_test
  /\ exists r,
      (FixedTest.finish_test 7 (world_of {[ 7 := answered_test ]})).2 = Some r
      /\ "Tenses: Past Perfect" ∈ FixedTest.r_strengths r.
Proof.
  assert (H7 : FixedTest.active_tests (world_of {[ 7 := answered_test ]}) !! 7
               = Some answered_test) by reflexivity.
  assert (Hkey : "Tenses: Past Perfect" ∈ FixedTest.topic <$> FixedTest.answers answered_test)
    by (vm_compute; apply list_elem_of_here).
  split; [exact H7 |]. split; [exact Hkey |].
  destruct (finish_test_strengths_weaknesses 7 _ _ _ H7 Hkey) as (r & Hr & Hs & _).
  exists r. split; [exact Hr |].
  apply Hs. vm_compute. discriminate.
Defined.

(** ** Fixed test: finishing without a session *)

(** C10: for a user without an active fixed-test session [finish_test]
    returns Python's [None] (no error record, no empty results) and
    leaves every dictionary as it was; the [test_continue] branch of
    [handle_test_actions] then announces the summary and hands that
    [None] to [show_test_results] without a check, which raises. *)
Theorem finish_test_without_session :
  forall (uid : Z) (w : FixedTest.World),
    FixedTest.active_tests w !! uid = None ->
    FixedTest.finish_test uid w = (w, None)
    /\ Handlers.handle_test_actions uid "test_continue" w
       = (w, [Handlers.Reply Handlers.Summing; Handlers.show_test_results None])
    /\ Handlers.show_test_results None = Handlers.Raised.
Proof.
  intros uid w Hnone.
  assert (Hfin : FixedTest.finish_test uid w = (w, None)).
  { unfold FixedTest.finish_test. by rewrite Hnone. }
  split; [exact Hfin |]. split; [| reflexivity].
  unfold Handlers.handle_test_actions. simpl.
  unfold FixedTest.get_current_question. rewrite Hnone.
  by rewrite Hfin.
Qed.

Lemma finish_test_without_session_witness :
  FixedTest.active_tests (world_of ∅) !! 7 = None
  /\ Handlers.handle_test_actions 7 "test_continue" (world_of ∅)
     = (world_of ∅, [Handlers.Reply Handlers.Summing; Handlers.Raised]).
Proof.
  assert (H7 : FixedTest.active_tests (world_of ∅) !! 7 = None) by reflexivity.
  split; [exact H7 |].
  exact (proj1 (proj2 (finish_test_without_session 7 (world_of ∅) H7))).
Defined.

(** ** Exercise sessions: finishing *)

Section FinishExerciseFacts.
Import Exercises.

Lemma grade_all_from (given : gmap string string) (exs : list Exercise)
    (rs : list ItemResult) (n : nat) :
  fold_left
    (fun acc e =>
       let r := grade given e in
       (acc.1 ++ [r], if res_is_correct r then S acc.2 else acc.2))
    exs (rs, n)
  = (rs ++ (grade given <$> exs),
     (n + length (filter (fun r => res_is_correct r = true) (grade given <$> exs)))%nat).
Proof.
  revert rs n. induction exs as [| e exs IH]; intros rs n.
  - simpl. by rewrite app_nil_r, Nat.add_0_r.
  - cbn [fold_left]. rewrite IH. cbn [fst snd].
    rewrite fmap_cons, filter_cons, <- app_assoc. simpl app at 2.
    f_equal. destruct (res_is_correct (grade given e)) eqn:Hc.
    + rewrite decide_True by done. simpl. lia.
    + rewrite decide_False by (intros H; congruence). lia.
Qed.

(** The grading loop is a map, and its counter counts the correct items. *)
Lemma grade_all_spec (given : gmap string string) (exs : list Exercise) :
  grade_all given exs
  = (grade given <$> exs,
     length (filter (fun r => res_is_correct r = true) (grade given <$> exs))).
Proof. unfold grade_all. by rewrite grade_all_from. Qed.

Lemma levels_distinct :
  excellent ≠ good /\ excellent ≠ fair /\ excellent ≠ needs_improvement
  /\ good ≠ fair /\ good ≠ needs_improvement /\ fair ≠ needs_improvement.
Proof. repeat split; discriminate. Qed.

(** Comparing with two positive constants, the smaller one first. *)
Lemma SFleb_smaller (ma mb : positive) (ea eb : Z) (y : spec_float) :
  (eb < ea \/ (eb = ea /\ (mb <= ma)%positive)) ->
  SFleb (S754_finite false ma ea) y = true ->
  SFleb (S754_finite false mb eb) y = true.
Proof.
  intros Hab. unfold SFleb, SFcompare.
  destruct y as [s | s | | s m e]; try done.
  destruct s; [done |].
  change (PosDef.Pos.compare_cont Eq ma m) with (Pos.compare ma m).
  change (PosDef.Pos.compare_cont Eq mb m) with (Pos.compare mb m).
  destruct (Z.compare_spec ea e) as [-> | Hlt | Hgt]; [| | done].
  - destruct (Pos.compare_spec ma m) as [-> | Hm | Hm]; [| | done].
    + intros _. destruct Hab as [Hlt | [-> Hle]].
      * by destruct (Z.compare_spec eb e) as [? | ? | ?]; [lia | | lia].
      * rewrite Z.compare_refl.
        by destruct (Pos.compare_spec mb m) as [? | ? | ?]; [| | lia].
    + intros _. destruct Hab as [Hlt | [-> Hle]].
      * by destruct (Z.compare_spec eb e) as [? | ? | ?]; [lia | | lia].
      * rewrite Z.compare_refl.
        by destruct (Pos.compare_spec mb m) as [? | ? | ?]; [| | lia].
  - intros _. destruct (Z.compare_spec eb e) as [? | ? | ?]; [lia | done | lia].
Qed.

Lemma leb_80_60 (p : float) : (80 <=? p)%float = true -> (60 <=? p)%float = true.
Proof.
  rewrite !leb_spec.
  replace (Prim2SF 80) with (S754_finite false 5629499534213120 (-46))
    by (vm_compute; reflexivity).
  replace (Prim2SF 60) with (S754_finite false 8444249301319680 (-47))
    by (vm_compute; reflexivity).
  apply SFleb_smaller. left. lia.
Qed.

Lemma leb_60_40 (p : float) : (60 <=? p)%float = true -> (40 <=? p)%float = true.
Proof.
  rewrite !leb_spec.
  replace (Prim2SF 60) with (S754_finite false 8444249301319680 (-47))
    by (vm_compute; reflexivity).
  replace (Prim2SF 40) with (S754_finite false 5629499534213120 (-47))
    by (vm_compute; reflexivity).
  apply SFleb_smaller. right. split; [reflexivity | lia].
Qed.

Lemma level_of_spec (p : float) :
  (level_of p = excellent <-> (80 <=? p)%float = true)
  /\ (level_of p = good <-> (60 <=? p)%float = true /\ (80 <=? p)%float = false)
  /\ (level_of p = fair <-> (40 <=? p)%float = true /\ (60 <=? p)%float = false)
  /\ (level_of p = needs_improvement <-> (40 <=? p)%float = false).
Proof.
  destruct levels_distinct as (H1 & H2 & H3 & H4 & H5 & H6).
  pose proof (leb_80_60 p) as M1. pose proof (leb_60_40 p) as M2.
  unfold level_of.
  destruct (80 <=? p)%float; [rewrite (M1 eq_refl) in *; rewrite (M2 eq_refl) in * |];
    [| destruct (60 <=? p)%float; [rewrite (M2 eq_refl) in * |];
       [| destruct (40 <=? p)%float]];
    repeat split; intros;
    repeat match goal with H : _ /\ _ |- _ => destruct H end;
    first [reflexivity | exfalso; congruence].
Qed.

Lemma exercise_percentage_pos (c n : nat) :
  n ≠ 0%nat -> percentage_of c n = (Py.true_div c n * 100)%float.
Proof.
  intros Hn. unfold percentage_of.
  by destruct (Nat.ltb_spec 0 n) as [_ | Hle]; [| lia].
Qed.

Lemma levels_agree_spec (bound : nat) :
  levels_agree bound = true ->
  forall c n : nat,
    (0 < n <= bound)%nat -> (c <= n)%nat ->
    level_of (percentage_of c n) = level_by_counts c n.
Proof.
  unfold levels_agree. intros Hall c n Hn Hc. apply String.eqb_eq.
  exact (all_counts_below_spec _ bound Hall c n Hn Hc).
Qed.

Lemma levels_checked : levels_agree 100 = true.
Proof. vm_compute. reflexivity. Qed.

(** For batches of up to 100 items the rounding of the percentage does
    not move a tier. *)
Lemma level_of_counts (c n : nat) :
  (0 < n <= 100)%nat -> (c <= n)%nat ->
  level_of (percentage_of c n) = level_by_counts c n.
Proof. exact (levels_agree_spec _ levels_checked c n). Qed.

End FinishExerciseFacts.

(** C4: [finish_exercise_session] for a user without active exercises
    returns the explicit no-session error and changes nothing.  With
    active exercises it returns, item by item, the stored answer (empty
    when none), the correct letter and whether the two agree up to
    letter case; the number of correct items; the percentage, which is
    the float product correct / total * 100 (0 for an empty batch); the
    level read from that percentage: excellent from 80, good from 60,
    fair from 40, needs improvement below, which for a batch of at most
    100 items is the level by the counts themselves; and it removes the
    user's exercises, answers and session token, leaving other users
    alone. *)
Theorem finish_exercise_session_outcome :
  forall (uid : Z) (m : Exercises.Manager),
    (Exercises.active_exercises m !! uid = None ->
     Exercises.finish_exercise_session uid m = (m, Exercises.NoActiveSession))
    /\ (forall exs : list Exercises.Exercise,
        Exercises.active_exercises m !! uid = Some exs ->
        exists (s : Exercises.Summary) (m' : Exercises.Manager),
          Exercises.finish_exercise_session uid m = (m', Exercises.Finished s)
          /\ Exercises.total_questions s = length exs
          /\ Forall2
               (fun e r =>
                  Exercises.res_user_answer r
                  = default "" (default ∅ (Exercises.user_answers m !! uid)
                                  !! Exercises.exercise_id e)
                  /\ Exercises.res_correct_answer r = Exercises.correct_answer e
                  /\ (Exercises.res_is_correct r = true
                      <-> Py.upper (Exercises.res_user_answer r)
                          = Py.upper (Exercises.res_correct_answer r)))
               exs (Exercises.results s)
          /\ Exercises.correct_answers s
             = length (filter (fun r => Exercises.res_is_correct r = true)
                         (Exercises.results s))
          /\ (length exs ≠ 0%nat ->
              Exercises.percentage s
              = (Py.true_div (Exercises.correct_answers s) (Exercises.total_questions s)
                 * 100)%float)
          /\ (length exs = 0%nat -> Exercises.percentage s = 0%float)
          /\ (Exercises.level s = Exercises.excellent
              <-> (80 <=? Exercises.percentage s)%float = true)
          /\ (Exercises.level s = Exercises.good
              <-> (60 <=? Exercises.percentage s)%float = true
                  /\ (80 <=? Exercises.percentage s)%float = false)
          /\ (Exercises.level s = Exercises.fair
              <-> (40 <=? Exercises.percentage s)%float = true
                  /\ (60 <=? Exercises.percentage s)%float = false)
          /\ (Exercises.level s = Exercises.needs_improvement
              <-> (40 <=? Exercises.percentage s)%float = false)
          /\ ((0 < length exs <= 100)%nat ->
              Exercises.level s
              = Exercises.level_by_counts (Exercises.correct_answers s)
                  (Exercises.total_questions s))
          /\ Exercises.active_exercises m' !! uid = None
          /\ Exercises.user_answers m' !! uid = None
          /\ Exercises.session_ids m' !! uid = None
          /\ (forall u : Z, u ≠ uid ->
              Exercises.active_exercises m' !! u = Exercises.active_exercises m !! u
              /\ Exercises.user_answers m' !! u = Exercises.user_answers m !! u
              /\ Exercises.session_ids m' !! u = Exercises.session_ids m !! u)).
Proof.
  intros uid m. split.
  - intros Hnone. unfold Exercises.finish_exercise_session. by rewrite Hnone.
  - intros exs Hexs. unfold Exercises.finish_exercise_session. rewrite Hexs.
    rewrite grade_all_spec. cbn [fst snd].
    eexists _, _. split; [reflexivity |]. cbn.
    split; [done |].
    split.
    { apply Forall2_fmap_r, Forall_Forall2_diag, Forall_forall.
      intros e _. cbn. split; [done |]. split; [done |]. apply String.eqb_eq. }
    split; [done |].
    split; [intros Hn; by apply exercise_percentage_pos |].
    split.
    { intros ->. reflexivity. }
    destruct (level_of_spec
                (Exercises.percentage_of
                   (length (filter (fun r => Exercises.res_is_correct r = true)
                              (Exercises.grade (default ∅ (Exercises.user_answers m !! uid))
                                 <$> exs)))
                   (length exs))) as (L1 & L2 & L3 & L4).
    split; [exact L1 |]. split; [exact L2 |]. split; [exact L3 |]. split; [exact L4 |].
    split.
    { intros Hn. apply level_of_counts; [exact Hn |].
      etrans; [apply length_filter |]. by rewrite length_fmap. }
    rewrite !lookup_delete_eq.
    split; [done |]. split; [done |]. split; [done |].
    intros u Hu. by rewrite !lookup_delete_ne.
Qed.

Lemma finish_exercise_session_outcome_witness :
  Exercises.active_exercises Exercises.new_manager !! 7 = None
  /\ Exercises.finish_exercise_session 7 Exercises.new_manager
     = (Exercises.new_manager, Exercises.NoActiveSession).
Proof.
  assert (H7 : Exercises.active_exercises Exercises.new_manager !! 7 = None)
    by reflexivity.
  split; [exact H7 |].
  exact (proj1 (finish_exercise_session_outcome 7 Exercises.new_manager) H7).
Defined.

(** ** Exercise sessions: the batch handed out *)

Section BatchFacts.
Import Exercises.
Variable render : Json.json -> string.

Lemma is_ABCD_spec (x : string) :
  is_ABCD x = true <-> x ∈ ["A"; "B"; "C"; "D"].
Proof.
  unfold is_ABCD. simpl. rewrite !elem_of_cons, !orb_true_iff, !String.eqb_eq.
  split; [intros [? | [? | [? | [? | ?]]]] | intros [? | [? | [? | [? | ?%elem_of_nil]]]]];
    try done; auto 6.
Qed.

Lemma make_exercise_well_formed subj uid i data e :
  make_exercise render subj uid i data = Some e -> well_formed e.
Proof.
  unfold make_exercise, well_formed.
  destruct data as [| | | | | fields]; try discriminate.
  set (opts := match Json.assoc "options" fields with
               | Some (Json.JArr l) => l
               | _ => []
               end).
  destruct (Nat.eqb_spec (length opts) 4) as [Hlen | _]; [| discriminate].
  cbn [negb].
  match goal with
  | |- context [is_ABCD ?x] => destruct (is_ABCD x) eqn:Hletter; [| discriminate]
  end.
  cbn [negb].
  destruct (Json.assoc "question" fields); [| discriminate].
  destruct (Json.assoc "explanation" fields); [| discriminate].
  intros [= <-]. simpl. split; [exact Hlen | by apply is_ABCD_spec].
Qed.

Lemma valid_entries_well_formed subj uid l :
  Forall well_formed (valid_entries render subj uid l).
Proof.
  apply Forall_forall. intros e He. unfold valid_entries in He.
  apply list_elem_of_omap in He as (o & Ho & Hid). simpl in Hid. subst o.
  apply elem_of_lookup_imap in Ho as (i & data & Hmk & _).
  by eapply make_exercise_well_formed.
Qed.

Lemma omap_id_length {A} (l : list (option A)) :
  (length (omap id l) <= length l)%nat.
Proof. induction l as [| [x |] l IH]; csimpl; lia. Qed.

Lemma valid_entries_length subj uid l :
  (length (valid_entries render subj uid l) <= length l)%nat.
Proof.
  unfold valid_entries.
  etrans; [apply omap_id_length |]. by rewrite length_imap.
Qed.

Lemma fallback_well_formed subj n q opts ans expl :
  length opts = 4%nat -> ans ∈ ["A"; "B"; "C"; "D"] ->
  well_formed (fallback subj n q opts ans expl).
Proof. intros Hn Ha. split; [simpl; by rewrite length_fmap | exact Ha]. Qed.

Lemma fallback_exercises_well_formed subj :
  Forall well_formed (_get_fallback_exercises subj).
Proof.
  unfold _get_fallback_exercises.
  destruct (String.eqb subj "vocabulary"); [| destruct (String.eqb subj "grammar")];
    repeat constructor; apply is_ABCD_spec; reflexivity.
Qed.

Lemma fallback_exercises_length subj :
  subj = "vocabulary" \/ subj = "grammar" ->
  length (_get_fallback_exercises subj) = 5%nat.
Proof. intros [-> | ->]; reflexivity. Qed.

Lemma generate_exercises_spec subj uid r :
  _generate_exercises render subj uid r
  = match usable render subj uid r with
    | [] => _get_fallback_exercises subj
    | exercises => exercises
    end.
Proof.
  unfold _generate_exercises, usable.
  destruct r as [| | | j]; try done.
  by destruct (exercises_list j).
Qed.

End BatchFacts.

(** C1, as amended: every batch [start_exercise_session] hands out for
    the subject vocabulary or grammar is non-empty, every item has
    exactly 4 options and a correct letter among A, B, C, D, and the
    batch is stored as the user's active exercises with an empty answer
    map and the new token.  The built-in batch has exactly 5 items and
    is the batch handed out whenever the reply yields no usable entry
    (the call failed, the text is empty or not JSON, the value has the
    wrong shape, or every entry is rejected).  Otherwise the batch is
    the list of usable entries in the reply's order, whatever their
    number: an entry with a wrong option count or an unreadable letter
    is dropped on its own. *)
Theorem start_exercise_session_batch :
  forall (render : Json.json -> string) (uid : Z) (subj uuid : string)
         (r : Exercises.reply) (m : Exercises.Manager),
    subj = "vocabulary" \/ subj = "grammar" ->
    exists (batch : list Exercises.Exercise) (m' : Exercises.Manager),
      Exercises.start_exercise_session render uid subj uuid r m = (m', batch)
      /\ Exercises.active_exercises m' !! uid = Some batch
      /\ Exercises.user_answers m' !! uid = Some ∅
      /\ Exercises.session_ids m' !! uid = Some uuid
      /\ batch ≠ []
      /\ Forall Exercises.well_formed batch
      /\ length (Exercises._get_fallback_exercises subj) = 5%nat
      /\ (Exercises.usable render subj uid r = [] ->
          batch = Exercises._get_fallback_exercises subj)
      /\ (Exercises.usable render subj uid r ≠ [] ->
          batch = Exercises.usable render subj uid r).
Proof.
  intros render uid subj uuid r m Hsubj.
  pose proof (fallback_exercises_length subj Hsubj) as Hfive.
  unfold Exercises.start_exercise_session.
  rewrite generate_exercises_spec.
  eexists _, _. split; [reflexivity |]. cbn [Exercises.active_exercises
    Exercises.user_answers Exercises.session_ids].
  rewrite !lookup_insert_eq.
  split; [done |]. split; [done |]. split; [done |].
  destruct (Exercises.usable render subj uid r) as [| e es] eqn:Husable.
  - assert (Hfb : match Exercises._get_fallback_exercises subj with
                  | [] => Exercises._get_fallback_exercises subj
                  | _ :: _ => Exercises._get_fallback_exercises subj
                  end = Exercises._get_fallback_exercises subj)
      by (by destruct (Exercises._get_fallback_exercises subj)).
    rewrite Hfb.
    split.
    { intros Hnil. rewrite Hnil in Hfive. discriminate. }
    split; [apply fallback_exercises_well_formed |].
    split; [exact Hfive |]. split; [done | done].
  - split; [done |].
    split.
    { rewrite <- Husable. unfold Exercises.usable.
      destruct r as [| | | j]; try apply Forall_nil_2.
      destruct (Exercises.exercises_list j); [| apply Forall_nil_2].
      apply valid_entries_well_formed. }
    split; [exact Hfive |]. split; [discriminate | done].
Qed.

Lemma start_exercise_session_batch_witness :
  ("grammar" = "vocabulary" \/ "grammar" = "grammar")
  /\ exists batch m',
      Exercises.start_exercise_session Exercises.plain_render 7 "grammar" sample_uuid
        (Exercises.Decoded (Json.JArr [good_entry; short_entry])) Exercises.new_manager
      = (m', batch)
      /\ Forall Exercises.well_formed batch.
Proof.
  assert (Hsubj : "grammar" = "vocabulary" \/ "grammar" = "grammar") by (right; reflexivity).
  split; [exact Hsubj |].
  destruct (start_exercise_session_batch Exercises.plain_render 7 "grammar" sample_uuid
              (Exercises.Decoded (Json.JArr [good_entry; short_entry]))
              Exercises.new_manager Hsubj)
    as (batch & m' & Hrun & _ & _ & _ & _ & Hwf & _).
  exists batch, m'. split; [exact Hrun | exact Hwf].
Defined.

(** C1 as stated fails: a reply holding one well-formed entry gives a
    batch of one item, and a reply of five entries of which one has
    three options gives a batch of four items, not the built-in batch. *)
Lemma start_exercise_session_short_batch :
  length (Exercises.start_exercise_session Exercises.plain_render 7 "grammar" sample_uuid
            (Exercises.Decoded (Json.JArr [good_entry])) Exercises.new_manager).2
  = 1%nat
  /\ length (Exercises.start_exercise_session Exercises.plain_render 7 "grammar" sample_uuid
               (Exercises.Decoded
                  (Json.JArr [good_entry; short_entry; good_entry; good_entry; good_entry]))
               Exercises.new_manager).2
     = 4%nat
  /\ (Exercises.start_exercise_session Exercises.plain_render 7 "grammar" sample_uuid
        (Exercises.Decoded
           (Json.JArr [good_entry; short_entry; good_entry; good_entry; good_entry]))
        Exercises.new_manager).2
     ≠ Exercises._get_fallback_exercises "grammar".
Proof.
  split; [reflexivity |]. split; [reflexivity |].
  intros H. apply (f_equal length) in H. vm_compute in H. discriminate.
Qed.

(** ** Exercise callbacks *)

Section CallbackFacts.
Import Exercises Handlers.

Lemma short_session_id_existing uid uuid m tok :
  session_ids m !! uid = Some tok -> tok ≠ "" ->
  get_short_session_id uid uuid m = (m, Py.str_take 6 tok).
Proof.
  intros Htok Hne. unfold get_short_session_id. rewrite Htok.
  by destruct tok.
Qed.

Lemma short_session_id_missing uid uuid m :
  session_ids m !! uid = None \/ session_ids m !! uid = Some "" ->
  get_short_session_id uid uuid m
  = (with_session_ids m (<[uid := uuid]> (session_ids m)), Py.str_take 6 uuid).
Proof. intros [H | H]; unfold get_short_session_id; by rewrite H. Qed.

Lemma str_take_6_nonempty tok : tok ≠ "" -> String.eqb (Py.str_take 6 tok) "" = false.
Proof. by destruct tok. Qed.

(** A well-formed callback whose prefix matches the stored token reaches
    the session lookup with the manager unchanged. *)
Lemma matching_callback_prefix uid data uuid m tok idx_str answer idx :
  Py.split ":" data = ["ex"; Py.str_take 6 tok; idx_str; answer] ->
  Py.int idx_str = Some idx ->
  session_ids m !! uid = Some tok -> tok ≠ "" ->
  handle_exercise_answer uid data uuid m
  = match active_exercises m !! uid with
    | None => (m, [Reply NoExerciseSession])
    | Some exs =>
        if Z.of_nat (length exs) <=? idx then (m, [Reply IndexOutOfRange]) else
        match Py.index exs idx with
        | None => (m, [Raised])
        | Some current_exercise =>
            let short_exercise_id :=
              subject current_exercise +:+ "_" +:+ Py.str_of_int uid
                +:+ "_" +:+ Py.str_of_int idx in
            match user_answers m !! uid ≫= (.!! short_exercise_id) with
            | Some _ => (m, [])
            | None =>
                let m3 := set_current_exercise_index uid (idx + 1)
                            (submit_answer uid short_exercise_id answer m) in
                let ack := Reply (AnswerAccepted (Py.upper answer)) in
                if idx + 1 <? Z.of_nat (length exs) then
                  match Py.index exs (idx + 1) with
                  | Some next_exercise =>
                      ((show_exercise uid uuid next_exercise (idx + 1) (length exs) m3).1,
                       ack :: (show_exercise uid uuid next_exercise (idx + 1)
                                 (length exs) m3).2)
                  | None => (m3, [ack; Raised])
                  end
                else
                  match show_exercise_results (finish_exercise_session uid m3).2 with
                  | Some shown =>
                      (reset_current_index uid (finish_exercise_session uid m3).1,
                       [ack; shown])
                  | None =>
                      (reset_current_index uid (finish_exercise_session uid m3).1,
                       [ack; Reply FinishFailed])
                  end
            end
        end
    end.
Proof.
  intros Hsplit Hint Htok Hne. unfold handle_exercise_answer.
  rewrite Hsplit. cbn [String.eqb Ascii.eqb Bool.eqb negb]. rewrite Hint.
  rewrite (short_session_id_existing uid uuid m tok Htok Hne). cbn [fst snd].
  rewrite (str_take_6_nonempty tok Hne), String.eqb_refl. cbn [orb negb].
  reflexivity.
Qed.

(** The part of the idempotence claim that holds: a second answer for an
    index whose key is already in the answer map changes nothing. *)
Lemma duplicate_answer_ignored uid data uuid m tok idx_str answer idx exs e old :
  Py.split ":" data = ["ex"; Py.str_take 6 tok; idx_str; answer] ->
  Py.int idx_str = Some idx ->
  session_ids m !! uid = Some tok -> tok ≠ "" ->
  active_exercises m !! uid = Some exs ->
  idx < Z.of_nat (length exs) ->
  Py.index exs idx = Some e ->
  user_answers m !! uid
    ≫= (.!! (subject e +:+ "_" +:+ Py.str_of_int uid +:+ "_" +:+ Py.str_of_int idx))
  = Some old ->
  handle_exercise_answer uid data uuid m = (m, []).
Proof.
  intros Hsplit Hint Htok Hne Hexs Hlt He Hold.
  rewrite (matching_callback_prefix _ _ _ _ _ _ _ _ Hsplit Hint Htok Hne), Hexs.
  destruct (Z.leb_spec (Z.of_nat (length exs)) idx) as [Hge | _]; [lia |].
  rewrite He. cbn zeta. by rewrite Hold.
Qed.

(** An index at or beyond the end of the batch is rejected and nothing
    is stored. *)
Lemma index_beyond_batch_rejected uid data uuid m tok idx_str answer idx exs :
  Py.split ":" data = ["ex"; Py.str_take 6 tok; idx_str; answer] ->
  Py.int idx_str = Some idx ->
  session_ids m !! uid = Some tok -> tok ≠ "" ->
  active_exercises m !! uid = Some exs ->
  Z.of_nat (length exs) <= idx ->
  handle_exercise_answer uid data uuid m = (m, [Reply IndexOutOfRange]).
Proof.
  intros Hsplit Hint Htok Hne Hexs Hge.
  rewrite (matching_callback_prefix _ _ _ _ _ _ _ _ Hsplit Hint Htok Hne), Hexs.
  by destruct (Z.leb_spec (Z.of_nat (length exs)) idx) as [_ | Hlt]; [| lia].
Qed.

End CallbackFacts.

(** C2, the failing input: user 7 holds the five built-in grammar items
    and token [sample_uuid]; the callback ["ex:0f8fad:-1:B"] carries the
    index -1, which lies outside [0, 5).  The handler does not reject
    it: it reads the last item, stores the answer under the key
    ["grammar_7_-1"], sets the current index to 0 and shows item 0.
    [get_current_exercise], which checks both bounds, has no item at
    that index. *)
Theorem negative_index_is_accepted :
  Exercises.active_exercises grammar_session !! 7
    = Some (Exercises._get_fallback_exercises "grammar")
  /\ Exercises.get_current_exercise 7 (-1) grammar_session = None
  /\ Exercises.user_answers grammar_session !! 7 = Some ∅
  /\ Exercises.user_current_index grammar_session !! 7 = None
  /\ Exercises.user_answers
       (Handlers.handle_exercise_answer 7 "ex:0f8fad:-1:B" sample_uuid grammar_session).1
       !! 7 ≫= (.!! "grammar_7_-1")
     = Some "B"
  /\ Exercises.user_current_index
       (Handlers.handle_exercise_answer 7 "ex:0f8fad:-1:B" sample_uuid grammar_session).1
       !! 7
     = Some 0
  /\ (Handlers.handle_exercise_answer 7 "ex:0f8fad:-1:B" sample_uuid grammar_session).2
     = [Handlers.Reply (Handlers.AnswerAccepted "B");
        Handlers.ShowExercise
          (Exercises.fallback "grammar" "1"
             "Choose the correct tense:
By this time next year, I ___ university."
             ["will finish"; "will have finished"; "finish"; "am finishing"] "B"
             "'Will have finished' is the future perfect tense, used for actions completed by a specific time in the future.")
          0 5 "0f8fad"].
Proof. repeat split; vm_compute; reflexivity. Qed.

(** C3, as amended: a well-formed callback (four fields, tag [ex], an
    integer index) whose prefix differs from the first six characters of
    the user's session token is answered as stale and leaves the whole
    manager unchanged, when the user has a token.  When the user has no
    token (or an empty one), [get_short_session_id] first creates and
    stores a fresh one; a callback whose prefix differs from that fresh
    token is answered as stale, and the exercises, answers, results and
    current index are unchanged while the token store gains the fresh
    token for that user. *)
Theorem stale_exercise_callback :
  forall (uid : Z) (data uuid : string) (m : Exercises.Manager)
         (session_id idx_str answer : string) (idx : Z),
    Py.split ":" data = ["ex"; session_id; idx_str; answer] ->
    Py.int idx_str = Some idx ->
    (forall tok : string,
       Exercises.session_ids m !! uid = Some tok -> tok ≠ "" ->
       session_id ≠ Py.str_take 6 tok ->
       Handlers.handle_exercise_answer uid data uuid m
       = (m, [Handlers.Reply Handlers.StaleSession]))
    /\ (Exercises.session_ids m !! uid = None
         \/ Exercises.session_ids m !! uid = Some "" ->
        session_id ≠ Py.str_take 6 uuid ->
        exists m' : Exercises.Manager,
          Handlers.handle_exercise_answer uid data uuid m
          = (m', [Handlers.Reply Handlers.StaleSession])
          /\ Exercises.active_exercises m' = Exercises.active_exercises m
          /\ Exercises.user_answers m' = Exercises.user_answers m
          /\ Exercises.exercise_results m' = Exercises.exercise_results m
          /\ Exercises.user_current_index m' = Exercises.user_current_index m
          /\ Exercises.session_ids m' = <[uid := uuid]> (Exercises.session_ids m)).
Proof.
  intros uid data uuid m session_id idx_str answer idx Hsplit Hint. split.
  - intros tok Htok Hne Hdiff. unfold Handlers.handle_exercise_answer.
    rewrite Hsplit. cbn [String.eqb Ascii.eqb Bool.eqb negb]. rewrite Hint.
    rewrite (short_session_id_existing uid uuid m tok Htok Hne). cbn [fst snd].
    apply String.eqb_neq in Hdiff. rewrite Hdiff. cbn [negb].
    by rewrite orb_true_r.
  - intros Hmissing Hdiff. unfold Handlers.handle_exercise_answer.
    rewrite Hsplit. cbn [String.eqb Ascii.eqb Bool.eqb negb]. rewrite Hint.
    rewrite (short_session_id_missing uid uuid m Hmissing). cbn [fst snd].
    apply String.eqb_neq in Hdiff. rewrite Hdiff. cbn [negb].
    rewrite orb_true_r.
    eexists. split; [reflexivity |]. repeat split.
Qed.

Lemma stale_exercise_callback_witness :
  Py.split ":" "ex:abcdef:0:A" = ["ex"; "abcdef"; "0"; "A"]
  /\ Py.int "0" = Some 0
  /\ Exercises.session_ids grammar_session !! 7 = Some sample_uuid
  /\ Handlers.handle_exercise_answer 7 "ex:abcdef:0:A" sample_uuid grammar_session
     = (grammar_session, [Handlers.Reply Handlers.StaleSession]).
Proof.
  assert (Hsplit : Py.split ":" "ex:abcdef:0:A" = ["ex"; "abcdef"; "0"; "A"])
    by reflexivity.
  assert (Hint : Py.int "0" = Some 0) by reflexivity.
  assert (Htok : Exercises.session_ids grammar_session !! 7 = Some sample_uuid)
    by reflexivity.
  split; [exact Hsplit |]. split; [exact Hint |]. split; [exact Htok |].
  apply (proj1 (stale_exercise_callback 7 "ex:abcdef:0:A" sample_uuid grammar_session
                  "abcdef" "0" "A" 0 Hsplit Hint) sample_uuid Htok);
    discriminate.
Defined.

(** C3 as stated fails for a user without a token (a fresh manager, or
    a session that was finished): the stale callback is rejected, but
    the token store changes, a fresh token being created for the user. *)
Lemma stale_callback_creates_token :
  Exercises.session_ids Exercises.new_manager !! 7 = None
  /\ (Handlers.handle_exercise_answer 7 "ex:abcdef:0:A" sample_uuid
        Exercises.new_manager).2
     = [Handlers.Reply Handlers.StaleSession]
  /\ Exercises.session_ids
       (Handlers.handle_exercise_answer 7 "ex:abcdef:0:A" sample_uuid
          Exercises.new_manager).1 !! 7
     = Some sample_uuid
  /\ (Handlers.handle_exercise_answer 7 "ex:abcdef:0:A" sample_uuid
        Exercises.new_manager).1
     ≠ Exercises.new_manager.
Proof.
  split; [reflexivity |]. split; [reflexivity |]. split; [reflexivity |].
  intros H. apply (f_equal (fun m => Exercises.session_ids m !! 7)) in H.
  vm_compute in H. discriminate.
Qed.

(** ** The completion gate *)

Section GateFacts.
Import Handlers.





End GateFacts.




(** ** Built-in batches and the answer keys *)

(** The handler files an answer under [subject_user_index], while the
    items of the built-in batch are called [subject_fallback_n], and
    [finish_exercise_session] looks answers up by item id.  User 7
    answers the five built-in grammar items with their correct letters:
    the summary that ends the session counts no correct answer, every
    item shows as unanswered, and the level is the lowest one. *)
Theorem builtin_batch_graded_as_unanswered :
  exists s : Exercises.Summary,
    last (Handlers.answer_all 7 sample_uuid
            ["ex:0f8fad:0:B"; "ex:0f8fad:1:B"; "ex:0f8fad:2:C"; "ex:0f8fad:3:A";
             "ex:0f8fad:4:C"]
            grammar_session).2
    = Some (Handlers.ShowExerciseResults s)
    /\ Exercises.res_correct_answer <$> Exercises.results s = ["B"; "B"; "C"; "A"; "C"]
    /\ Exercises.res_user_answer <$> Exercises.results s = [""; ""; ""; ""; ""]
    /\ Exercises.total_questions s = 5%nat
    /\ Exercises.correct_answers s = 0%nat
    /\ Exercises.level s = Exercises.needs_improvement.
Proof. eexists. repeat split; vm_compute; reflexivity. Qed.

(** ** Texts: integers and callback fields *)

Section TextFacts.
Import Text.

Lemma all_chars_app p a b :
  all_chars p (a +:+ b) = all_chars p a && all_chars p b.
Proof. induction a as [| c a IH]; simpl; [done |]. by rewrite IH, andb_assoc. Qed.

Lemma all_chars_weaken (p q : ascii -> bool) s :
  (forall c, p c = true -> q c = true) -> all_chars p s = true -> all_chars q s = true.
Proof.
  intros Hpq. induction s as [| c s IH]; simpl; [done |].
  intros [Hc Hs]%andb_true_iff. by rewrite (Hpq c Hc), IH.
Qed.

Lemma pretty_N_char_digit d : is_digit (pretty_N_char d) = true.
Proof. unfold pretty_N_char. by repeat case_match. Qed.

Lemma digit_of_pretty_N_char d :
  (d < 10)%N -> Py.digit_of (pretty_N_char d) = Some (Z.of_N d).
Proof.
  intros Hd.
  assert (d = 0 \/ d = 1 \/ d = 2 \/ d = 3 \/ d = 4 \/ d = 5 \/ d = 6 \/ d = 7
          \/ d = 8 \/ d = 9)%N as H by lia.
  destruct H as [-> | [-> | [-> | [-> | [-> | [-> | [-> | [-> | [-> | ->]]]]]]]]];
    reflexivity.
Qed.

Lemma pretty_N_go_digits x s :
  all_chars is_digit s = true -> all_chars is_digit (pretty_N_go x s) = true.
Proof.
  revert s. induction (N.lt_wf_0 x) as [x _ IH]. intros s Hs.
  assert (x = 0 \/ 0 < x)%N as [-> | Hpos] by lia.
  - by rewrite pretty_N_go_0.
  - rewrite pretty_N_go_step by done. apply IH; [by apply N.div_lt |].
    simpl. by rewrite pretty_N_char_digit, Hs.
Qed.

Lemma pretty_N_go_nonempty x s : (0 < x)%N -> pretty_N_go x s ≠ "".
Proof.
  revert s. induction (N.lt_wf_0 x) as [x _ IH]. intros s Hpos.
  rewrite pretty_N_go_step by done.
  destruct (N.eq_0_gt_0_cases (x `div` 10)) as [-> | Hq].
  - by rewrite pretty_N_go_0.
  - apply IH; [by apply N.div_lt | done].
Qed.

(** Reading back the digits [pretty] writes. *)
Lemma int_digits_pretty_N_go x s b :
  (0 < x)%N ->
  Py.int_digits (pretty_N_go x s) 0 b = Py.int_digits s (Z.of_N x) true.
Proof.
  revert s b. induction (N.lt_wf_0 x) as [x _ IH]. intros s b Hpos.
  rewrite pretty_N_go_step by done.
  assert (Hmod : (x `mod` 10 < 10)%N) by (apply N.mod_lt; lia).
  assert (Hx : Z.of_N x = 10 * Z.of_N (x `div` 10) + Z.of_N (x `mod` 10)).
  { rewrite (N.div_mod x 10) at 1 by lia. lia. }
  destruct (N.eq_0_gt_0_cases (x `div` 10)) as [Hq | Hq].
  - rewrite Hq, pretty_N_go_0. simpl.
    rewrite (digit_of_pretty_N_char _ Hmod). rewrite Hx, Hq. reflexivity.
  - rewrite IH by (done || by apply N.div_lt). simpl.
    rewrite (digit_of_pretty_N_char _ Hmod). by rewrite Hx.
Qed.

Lemma int_rstrip_plain s :
  all_chars (fun c => negb (Py.is_int_space c)) s = true -> Py.int_rstrip s = s.
Proof.
  induction s as [| c s IH]; simpl; [done |].
  intros [Hc Hs]%andb_true_iff. rewrite (IH Hs).
  destruct s; [| done]. apply negb_true_iff in Hc. by rewrite Hc.
Qed.

Lemma int_lstrip_plain s :
  all_chars (fun c => negb (Py.is_int_space c)) s = true -> Py.int_lstrip s = s.
Proof.
  destruct s as [| c s]; simpl; [done |].
  intros [Hc _]%andb_true_iff. apply negb_true_iff in Hc. by rewrite Hc.
Qed.

Lemma digit_not_int_space c : is_digit c = true -> negb (Py.is_int_space c) = true.
Proof.
  intros Hc. destruct c as [[] [] [] [] [] [] [] []]; try discriminate Hc; reflexivity.
Qed.

Lemma digit_of_digit c : is_digit c = true -> is_Some (Py.digit_of c).
Proof. unfold is_digit, Py.digit_of. intros ->. eauto. Qed.

(** A text that starts with a digit is read by [int] without a sign. *)
Lemma int_unsigned c r :
  is_digit c = true -> all_chars is_digit r = true ->
  Py.int (String c r) = Py.int_digits (String c r) 0 false.
Proof.
  intros Hc Hr. unfold Py.int.
  assert (Hplain : all_chars (fun c => negb (Py.is_int_space c)) (String c r) = true).
  { apply (all_chars_weaken is_digit); [apply digit_not_int_space |].
    simpl. by rewrite Hc, Hr. }
  rewrite (int_lstrip_plain _ Hplain), (int_rstrip_plain _ Hplain).
  destruct c as [[] [] [] [] [] [] [] []]; try discriminate Hc; reflexivity.
Qed.

Lemma pretty_N_pos_shape (x : N) :
  (0 < x)%N ->
  exists c r, pretty x = String c r /\ is_digit c = true /\ all_chars is_digit r = true.
Proof.
  intros Hpos. unfold pretty, pretty_N. rewrite decide_False by lia.
  pose proof (pretty_N_go_digits x "" eq_refl) as Hd.
  pose proof (pretty_N_go_nonempty x "" Hpos) as Hne.
  destruct (pretty_N_go x "") as [| c r]; [done |].
  simpl in Hd. apply andb_true_iff in Hd as [Hc Hr]. eauto.
Qed.

Lemma int_pretty_N (x : N) : (0 < x)%N -> Py.int (pretty x) = Some (Z.of_N x).
Proof.
  intros Hpos. destruct (pretty_N_pos_shape x Hpos) as (c & r & Heq & Hc & Hr).
  rewrite Heq, (int_unsigned c r Hc Hr), <- Heq.
  unfold pretty, pretty_N. rewrite decide_False by lia.
  by rewrite int_digits_pretty_N_go.
Qed.

Lemma int_negative c r :
  is_digit c = true -> all_chars is_digit r = true ->
  Py.int (String "-" (String c r)) = Z.opp <$> Py.int_digits (String c r) 0 false.
Proof.
  intros Hc Hr. unfold Py.int.
  assert (Hplain : all_chars (fun c => negb (Py.is_int_space c))
                     (String "-" (String c r)) = true).
  { cbn [all_chars]. rewrite (digit_not_int_space c Hc).
    rewrite (all_chars_weaken is_digit _ r digit_not_int_space Hr). reflexivity. }
  by rewrite (int_lstrip_plain _ Hplain), (int_rstrip_plain _ Hplain).
Qed.

Lemma int_digits_pretty_N (x : N) :
  (0 < x)%N -> Py.int_digits (pretty x) 0 false = Some (Z.of_N x).
Proof.
  intros Hpos. unfold pretty, pretty_N. rewrite decide_False by lia.
  by rewrite int_digits_pretty_N_go.
Qed.

(** [int(str(n)) == n] *)
Lemma int_str_of_int (n : Z) : Py.int (Py.str_of_int n) = Some n.
Proof.
  unfold Py.str_of_int, pretty, pretty_Z. destruct n as [| p | p].
  - reflexivity.
  - change (pretty p) with (pretty (N.pos p)). by rewrite int_pretty_N.
  - change (pretty p) with (pretty (N.pos p)).
    pose proof (int_digits_pretty_N (N.pos p) eq_refl) as Hint.
    destruct (pretty_N_pos_shape (N.pos p)) as (c & r & Heq & Hc & Hr); [done |].
    rewrite Heq in *.
    change ("-" +:+ String c r) with (String "-" (String c r)).
    by rewrite (int_negative c r Hc Hr), Hint.
Qed.

(** The characters of [str(n)] are digits, after an optional minus. *)
Lemma str_of_int_shape (n : Z) :
  exists c r, Py.str_of_int n = String c r
              /\ (is_digit c = true \/ c = "-"%char)
              /\ all_chars is_digit r = true.
Proof.
  unfold Py.str_of_int, pretty, pretty_Z. destruct n as [| p | p].
  - exists "0"%char, "". auto.
  - change (pretty p) with (pretty (N.pos p)).
    destruct (pretty_N_pos_shape (N.pos p)) as (c & r & Heq & Hc & Hr); [lia |].
    exists c, r. auto.
  - change (pretty p) with (pretty (N.pos p)).
    destruct (pretty_N_pos_shape (N.pos p)) as (c & r & Heq & Hc & Hr); [lia |].
    exists "-"%char, (String c r). rewrite Heq. simpl. rewrite Hc, Hr. auto.
Qed.

Lemma str_of_int_no_colon (n : Z) : no_colon (Py.str_of_int n) = true.
Proof.
  destruct (str_of_int_shape n) as (c & r & -> & Hc & Hr).
  unfold no_colon. simpl. apply andb_true_iff. split.
  - destruct Hc as [Hc | ->]; [| done].
    destruct c as [[] [] [] [] [] [] [] []]; try discriminate Hc; reflexivity.
  - apply (all_chars_weaken is_digit); [| done].
    intros a Ha. destruct a as [[] [] [] [] [] [] [] []]; try discriminate Ha; reflexivity.
Qed.

(** Splitting at a separator the first field does not contain. *)
Lemma split_field sep a b :
  all_chars (fun c => negb (Ascii.eqb c sep)) a = true ->
  Py.split sep (a +:+ String sep b) = a :: Py.split sep b.
Proof.
  induction a as [| c a IH]; simpl.
  - by rewrite Ascii.eqb_refl.
  - intros [Hc Ha]%andb_true_iff. apply negb_true_iff in Hc. by rewrite Hc, (IH Ha).
Qed.

Lemma split_single sep a :
  all_chars (fun c => negb (Ascii.eqb c sep)) a = true -> Py.split sep a = [a].
Proof.
  induction a as [| c a IH]; simpl; [done |].
  intros [Hc Ha]%andb_true_iff. apply negb_true_iff in Hc. by rewrite Hc, (IH Ha).
Qed.

End TextFacts.

(** ** Exercise buttons *)

Section ButtonFacts.
Import Text Exercises Handlers ExerciseFlow.

Lemma chr_letter_no_colon i : (i < 4)%nat -> no_colon (Py.chr (65 + i)) = true.
Proof. intros Hi. by do 4 (destruct i as [| i]; [reflexivity |]); lia. Qed.

Lemma upper_chr_letter i : (i < 4)%nat -> Py.upper (Py.chr (65 + i)) = Py.chr (65 + i).
Proof. intros Hi. by do 4 (destruct i as [| i]; [reflexivity |]); lia. Qed.

(** The four fields of a button's callback data. *)
Lemma callback_data_fields sid k i :
  no_colon sid = true -> (i < 4)%nat ->
  Py.split ":" (callback_data sid k i)
  = ["ex"; sid; Py.str_of_int k; Py.chr (65 + i)].
Proof.
  intros Hsid Hi. unfold callback_data.
  change ("ex:" +:+ sid +:+ ":" +:+ Py.str_of_int k +:+ ":" +:+ Py.chr (65 + i))
    with ("ex" +:+ String ":" (sid +:+ String ":" (Py.str_of_int k
                                 +:+ String ":" (Py.chr (65 + i))))).
  rewrite (split_field ":" "ex") by reflexivity.
  rewrite (split_field ":" sid) by exact Hsid.
  rewrite (split_field ":" (Py.str_of_int k)) by apply str_of_int_no_colon.
  by rewrite (split_single ":" _ (chr_letter_no_colon i Hi)).
Qed.

Lemma str_take_no_colon n s : no_colon s = true -> no_colon (Py.str_take n s) = true.
Proof.
  unfold no_colon. revert s. induction n as [| n IH]; intros [| c s]; simpl; try done.
  intros [Hc Hs]%andb_true_iff. by rewrite Hc, (IH s Hs).
Qed.

Lemma py_index_nat {A} (l : list A) (k : nat) : Py.index l (Z.of_nat k) = l !! k.
Proof.
  unfold Py.index. destruct (Z.leb_spec 0 (Z.of_nat k)); [| lia].
  by rewrite Nat2Z.id.
Qed.

End ButtonFacts.

(** X2: an answer button of a shown exercise is accepted.  For a user
    with a stored token without colons and an active batch, the callback
    data that [show_exercise] writes for option [i] of item [k] is read
    back as that session, index and letter; when the item has no answer
    yet, the letter is stored under the handler's key and the current
    index becomes [k + 1].  If an item follows, it is shown with the
    same session prefix; if [k] was the last item, the session is
    finished: results are shown and the user's exercises, answers, token
    and current index are removed. *)
Theorem answer_button_accepted :
  forall (uid : Z) (uuid : string) (m : Exercises.Manager) (tok : string)
         (exs : list Exercises.Exercise) (k : nat) (e : Exercises.Exercise) (i : nat),
    Exercises.session_ids m !! uid = Some tok ->
    tok ≠ "" ->
    Text.no_colon tok = true ->
    Exercises.active_exercises m !! uid = Some exs ->
    exs !! k = Some e ->
    (i < 4)%nat ->
    Exercises.user_answers m !! uid
      ≫= (.!! ExerciseFlow.answer_key (Exercises.subject e) uid (Z.of_nat k)) = None ->
    (forall next : Exercises.Exercise,
       exs !! S k = Some next ->
       Handlers.handle_exercise_answer uid
         (ExerciseFlow.callback_data (Py.str_take 6 tok) (Z.of_nat k) i) uuid m
       = (ExerciseFlow.record_answer uid
            (ExerciseFlow.answer_key (Exercises.subject e) uid (Z.of_nat k))
            (Py.chr (65 + i)) (Z.of_nat k + 1) m,
          [Handlers.Reply (Handlers.AnswerAccepted (Py.chr (65 + i)));
           Handlers.ShowExercise next (Z.of_nat k + 1) (length exs) (Py.str_take 6 tok)]))
    /\ (S k = length exs ->
        exists (s : Exercises.Summary) (m' : Exercises.Manager),
          Handlers.handle_exercise_answer uid
            (ExerciseFlow.callback_data (Py.str_take 6 tok) (Z.of_nat k) i) uuid m
          = (m', [Handlers.Reply (Handlers.AnswerAccepted (Py.chr (65 + i)));
                  Handlers.ShowExerciseResults s])
          /\ Exercises.total_questions s = length exs
          /\ Exercises.active_exercises m' !! uid = None
          /\ Exercises.user_answers m' !! uid = None
          /\ Exercises.session_ids m' !! uid = None
          /\ Exercises.user_current_index m' !! uid = None).
Proof.
  intros uid uuid m tok exs k e i Htok Hne Hcolon Hexs He Hi Hfresh.
  pose proof (callback_data_fields (Py.str_take 6 tok) (Z.of_nat k) i
                (str_take_no_colon 6 tok Hcolon) Hi) as Hsplit.
  pose proof (matching_callback_prefix uid _ uuid m tok _ _ _ Hsplit
                (int_str_of_int (Z.of_nat k)) Htok Hne) as Hrun.
  rewrite Hexs in Hrun.
  assert (Hlen : (k < length exs)%nat) by (by eapply lookup_lt_Some).
  destruct (Z.leb_spec (Z.of_nat (length exs)) (Z.of_nat k)) as [Hge | _]; [lia |].
  rewrite py_index_nat, He in Hrun. cbn zeta in Hrun.
  unfold ExerciseFlow.answer_key in Hfresh. rewrite Hfresh in Hrun.
  rewrite (upper_chr_letter i Hi) in Hrun.
  replace (Z.of_nat k + 1) with (Z.of_nat (S k)) in * by lia.
  rewrite py_index_nat in Hrun.
  split.
  - intros next Hnext.
    assert (HS : (S k < length exs)%nat) by (by eapply lookup_lt_Some).
    destruct (Z.ltb_spec (Z.of_nat (S k)) (Z.of_nat (length exs))) as [_ | Hge]; [| lia].
    rewrite Hnext in Hrun. rewrite Hrun.
    unfold Handlers.show_exercise.
    rewrite (short_session_id_existing uid uuid _ tok); [reflexivity | exact Htok | exact Hne].
  - intros Hlast.
    destruct (Z.ltb_spec (Z.of_nat (S k)) (Z.of_nat (length exs))) as [Hlt | _]; [lia |].
    unfold Exercises.finish_exercise_session in Hrun.
    cbn [Exercises.set_current_exercise_index Exercises.submit_answer
         Exercises.with_current_index Exercises.with_user_answers
         Exercises.active_exercises] in Hrun.
    rewrite Hexs in Hrun. cbn [fst snd Handlers.show_exercise_results] in Hrun.
    eexists _, _. split; [exact Hrun |].
    cbn. rewrite !lookup_delete_eq. repeat split; done.
Qed.

Lemma answer_button_accepted_witness :
  Exercises.session_ids grammar_session !! 7 = Some sample_uuid
  /\ Text.no_colon sample_uuid = true
  /\ exists next : Exercises.Exercise,
      Exercises._get_fallback_exercises "grammar" !! 1%nat = Some next
      /\ (Handlers.handle_exercise_answer 7
            (ExerciseFlow.callback_data (Py.str_take 6 sample_uuid) 0 1)
            sample_uuid grammar_session).2
         = [Handlers.Reply (Handlers.AnswerAccepted "B");
            Handlers.ShowExercise next 1 5 "0f8fad"].
Proof.
  assert (Htok : Exercises.session_ids grammar_session !! 7 = Some sample_uuid)
    by reflexivity.
  assert (Hcolon : Text.no_colon sample_uuid = true) by reflexivity.
  assert (Hexs : Exercises.active_exercises grammar_session !! 7
                 = Some (Exercises._get_fallback_exercises "grammar")) by reflexivity.
  split; [exact Htok |]. split; [exact Hcolon |].
  destruct (Exercises._get_fallback_exercises "grammar" !! 0%nat) as [e |] eqn:He;
    [| discriminate He].
  destruct (Exercises._get_fallback_exercises "grammar" !! 1%nat) as [next |] eqn:Hnext;
    [| discriminate Hnext].
  exists next. split; [reflexivity |].
  assert (Hfresh : Exercises.user_answers grammar_session !! 7
                     ≫= (.!! ExerciseFlow.answer_key (Exercises.subject e) 7 (Z.of_nat 0))
                   = None).
  { injection He as <-. reflexivity. }
  destruct (answer_button_accepted 7 sample_uuid grammar_session sample_uuid
              (Exercises._get_fallback_exercises "grammar") 0 e 1
              Htok ltac:(discriminate) Hcolon Hexs He ltac:(lia) Hfresh) as [Hstep _].
  change (Z.of_nat 0) with 0 in Hstep.
  rewrite (Hstep next Hnext). reflexivity.
Defined.

(** ** Item ids and answer keys *)

Section IdFacts.
Import Exercises ExerciseFlow.
Variable render : Json.json -> string.

Lemma omap_id_full {A} (l : list (option A)) :
  length (omap id l) = length l -> l = Some <$> omap id l.
Proof.
  induction l as [| [x |] l IH]; csimpl; intros Hlen.
  - done.
  - f_equal. apply IH. lia.
  - pose proof (omap_id_length l). lia.
Qed.

Lemma make_exercise_id subj uid i data e :
  make_exercise render subj uid i data = Some e ->
  exercise_id e = answer_key subj uid (Z.of_nat i) /\ subject e = subj.
Proof.
  unfold make_exercise. destruct data as [| | | | | fields]; try discriminate.
  repeat case_match; try discriminate. by intros [= <-].
Qed.

(** When no entry of the reply is dropped, item [k] of the batch comes
    from entry [k]. *)
Lemma valid_entries_full subj uid l k e :
  length (valid_entries render subj uid l) = length l ->
  valid_entries render subj uid l !! k = Some e ->
  exists data, l !! k = Some data /\ make_exercise render subj uid k data = Some e.
Proof.
  unfold valid_entries. intros Hlen Hk.
  rewrite <- (length_imap (make_exercise render subj uid)) in Hlen.
  apply omap_id_full in Hlen.
  assert (Hi : imap (make_exercise render subj uid) l !! k = Some (Some e)).
  { rewrite Hlen, list_lookup_fmap, Hk. reflexivity. }
  rewrite list_lookup_imap in Hi.
  destruct (l !! k) as [data |]; [| discriminate].
  exists data. split; [done |]. by injection Hi.
Qed.

Lemma finish_results_lookup uid m exs k e :
  active_exercises m !! uid = Some exs -> exs !! k = Some e ->
  exists s m',
    finish_exercise_session uid m = (m', Finished s)
    /\ results s !! k = Some (grade (default ∅ (user_answers m !! uid)) e).
Proof.
  intros Hexs Hk. unfold finish_exercise_session. rewrite Hexs, grade_all_spec.
  eexists _, _. split; [reflexivity |]. cbn.
  by rewrite list_lookup_fmap, Hk.
Qed.

Lemma record_answer_lookup uid key a nx m :
  default ∅ (user_answers (record_answer uid key a nx m) !! uid) !! key = Some a.
Proof.
  unfold record_answer, set_current_exercise_index, submit_answer. cbn.
  rewrite lookup_insert_eq. cbn. apply lookup_insert_eq.
Qed.

Lemma record_answer_active uid key a nx m :
  active_exercises (record_answer uid key a nx m) = active_exercises m.
Proof. reflexivity. Qed.

End IdFacts.

(** X3: when the generator's list is taken whole (no entry dropped), the
    id of item [k] of the batch is the key under which the handler files
    the answer for index [k]; so the answer recorded for index [k] is
    the one [finish_exercise_session] reports and grades for item [k],
    by letter comparison without regard to case. *)
Theorem generated_ids_match_answer_keys :
  forall (render : Json.json -> string) (subj : string) (uid : Z) (l : list Json.json)
         (k : nat) (e : Exercises.Exercise) (a : string) (nx : Z) (m : Exercises.Manager),
    length (Exercises.valid_entries render subj uid l) = length l ->
    Exercises.valid_entries render subj uid l !! k = Some e ->
    Exercises.active_exercises m !! uid = Some (Exercises.valid_entries render subj uid l) ->
    Exercises.exercise_id e
    = ExerciseFlow.answer_key (Exercises.subject e) uid (Z.of_nat k)
    /\ exists (s : Exercises.Summary) (m' : Exercises.Manager) (r : Exercises.ItemResult),
        Exercises.finish_exercise_session uid
          (ExerciseFlow.record_answer uid
             (ExerciseFlow.answer_key (Exercises.subject e) uid (Z.of_nat k)) a nx m)
        = (m', Exercises.Finished s)
        /\ Exercises.results s !! k = Some r
        /\ Exercises.res_user_answer r = a
        /\ (Exercises.res_is_correct r = true
            <-> Py.upper a = Py.upper (Exercises.correct_answer e)).
Proof.
  intros render subj uid l k e a nx m Hfull Hk Hexs.
  destruct (valid_entries_full render subj uid l k e Hfull Hk) as (data & _ & Hmk).
  destruct (make_exercise_id render subj uid k data e Hmk) as [Hid Hsubj].
  assert (Hkey : Exercises.exercise_id e
                 = ExerciseFlow.answer_key (Exercises.subject e) uid (Z.of_nat k))
    by (by rewrite Hsubj).
  split; [exact Hkey |].
  destruct (finish_results_lookup uid
              (ExerciseFlow.record_answer uid
                 (ExerciseFlow.answer_key (Exercises.subject e) uid (Z.of_nat k)) a nx m)
              _ k e Hexs Hk) as (s & m' & Hfin & Hres).
  eexists s, m', _. split; [exact Hfin |]. split; [exact Hres |].
  unfold Exercises.grade. cbn [Exercises.res_user_answer Exercises.res_is_correct].
  rewrite Hkey, record_answer_lookup. cbn.
  split; [done | apply String.eqb_eq].
Qed.

Lemma generated_ids_match_answer_keys_witness :
  length (Exercises.valid_entries Exercises.plain_render "grammar" 7 [good_entry; good_entry])
  = length [good_entry; good_entry]
  /\ exists e,
      Exercises.valid_entries Exercises.plain_render "grammar" 7 [good_entry; good_entry]
        !! 1%nat = Some e
      /\ Exercises.exercise_id e = "grammar_7_1".
Proof.
  assert (Hfull : length (Exercises.valid_entries Exercises.plain_render "grammar" 7
                            [good_entry; good_entry])
                  = length [good_entry; good_entry]) by reflexivity.
  split; [exact Hfull |].
  destruct (Exercises.valid_entries Exercises.plain_render "grammar" 7
              [good_entry; good_entry] !! 1%nat) as [e |] eqn:He; [| discriminate He].
  exists e. split; [reflexivity |].
  assert (Hexs : Exercises.active_exercises
                   (Exercises.start_exercise_session Exercises.plain_render 7 "grammar"
                      sample_uuid (Exercises.Decoded (Json.JArr [good_entry; good_entry]))
                      Exercises.new_manager).1 !! 7
                 = Some (Exercises.valid_entries Exercises.plain_render "grammar" 7
                           [good_entry; good_entry])) by reflexivity.
  destruct (generated_ids_match_answer_keys Exercises.plain_render "grammar" 7
              [good_entry; good_entry] 1 e "b" 2 _ Hfull He Hexs) as [Hid _].
  rewrite Hid. injection He as <-. reflexivity.
Defined.

(** ** The built-in batch and the answer keys *)

Section BuiltinFacts.
Import Text Exercises Handlers ExerciseFlow.

Lemma fallback_item subj e :
  subj = "vocabulary" \/ subj = "grammar" ->
  e ∈ _get_fallback_exercises subj ->
  subject e = subj
  /\ (exists n, exercise_id e = subj +:+ "_fallback_" +:+ n)
  /\ Py.upper (correct_answer e) ≠ "".
Proof.
  intros [-> | ->] He; cbn in He;
    repeat (apply elem_of_cons in He as [-> | He]; [by eauto |]);
    by apply elem_of_nil in He.
Qed.

(** A handler key is never the id of a built-in item: after the subject
    the key goes on with a number, the id with the word fallback. *)
Lemma answer_key_not_fallback subj uid k n :
  subj = "vocabulary" \/ subj = "grammar" ->
  answer_key subj uid k ≠ subj +:+ "_fallback_" +:+ n.
Proof.
  intros Hsubj. unfold answer_key.
  destruct (str_of_int_shape uid) as (c & r & -> & Hc & _).
  destruct Hsubj as [-> | ->]; cbn; intros [= ->];
    destruct Hc as [Hc | Hc]; discriminate Hc.
Qed.

Lemma py_index_elem {A} (l : list A) (i : Z) (x : A) : Py.index l i = Some x -> x ∈ l.
Proof.
  unfold Py.index. repeat case_match; try discriminate; apply list_elem_of_lookup_2.
Qed.

Lemma no_correct_items (l : list ItemResult) :
  Forall (fun r => res_is_correct r = false) l ->
  length (filter (fun r => res_is_correct r = true) l) = 0%nat.
Proof.
  induction 1 as [| r l Hr _ IH]; [done |].
  rewrite filter_cons, decide_False by congruence. exact IH.
Qed.

(** Grading the built-in batch against handler keys finds no answer. *)
Lemma builtin_batch_graded subj uid m :
  subj = "vocabulary" \/ subj = "grammar" ->
  active_exercises m !! uid = Some (_get_fallback_exercises subj) ->
  only_answer_keys subj uid m ->
  exists s m',
    finish_exercise_session uid m = (m', Finished s)
    /\ active_exercises m' !! uid = None
    /\ total_questions s = 5%nat
    /\ correct_answers s = 0%nat
    /\ Forall (fun r => res_user_answer r = "" /\ res_is_correct r = false) (results s)
    /\ level s = needs_improvement.
Proof.
  intros Hsubj Hexs Hkeys.
  assert (Hgrade : forall e, e ∈ _get_fallback_exercises subj ->
            res_user_answer (grade (default ∅ (user_answers m !! uid)) e) = ""
            /\ res_is_correct (grade (default ∅ (user_answers m !! uid)) e) = false).
  { intros e He. destruct (fallback_item subj e Hsubj He) as (_ & [n Hid] & Hup).
    unfold grade. cbn [res_user_answer res_is_correct].
    destruct (default ∅ (user_answers m !! uid) !! exercise_id e) as [a |] eqn:Ha.
    - destruct (Hkeys _ _ Ha) as [k Hk]. rewrite Hid in Hk.
      symmetry in Hk. by apply answer_key_not_fallback in Hk.
    - cbn. split; [done |]. by destruct (Py.upper (correct_answer e)). }
  assert (Hall : Forall (fun r => res_user_answer r = "" /\ res_is_correct r = false)
                   (grade (default ∅ (user_answers m !! uid))
                      <$> _get_fallback_exercises subj)).
  { apply Forall_fmap, Forall_forall. intros e He. by apply Hgrade. }
  assert (Hcount : length (filter (fun r => res_is_correct r = true)
                             (grade (default ∅ (user_answers m !! uid))
                                <$> _get_fallback_exercises subj)) = 0%nat).
  { apply no_correct_items. eapply Forall_impl; [exact Hall |]. by intros r [_ ?]. }
  unfold finish_exercise_session. rewrite Hexs, grade_all_spec. cbn [fst snd].
  eexists _, _. split; [reflexivity |]. cbn.
  rewrite lookup_delete_eq, Hcount, (fallback_exercises_length subj Hsubj).
  repeat split; done.
Qed.

(** One answer callback keeps the user on the built-in batch with
    handler keys only (or without a batch), and any results it shows
    count no correct answer. *)
Lemma builtin_batch_step subj uid data uuid m :
  subj = "vocabulary" \/ subj = "grammar" ->
  on_builtin_batch subj uid m ->
  on_builtin_batch subj uid (handle_exercise_answer uid data uuid m).1
  /\ forall s, ShowExerciseResults s ∈ (handle_exercise_answer uid data uuid m).2 ->
       correct_answers s = 0%nat
       /\ Forall (fun r => res_user_answer r = "" /\ res_is_correct r = false) (results s).
Proof.
  intros Hsubj HJ.
  assert (Hnone : forall (n : notice) s, ShowExerciseResults s ∈ [Reply n] -> False).
  { intros n s [H | H]%elem_of_cons; [discriminate | by apply elem_of_nil in H]. }
  assert (Hids : forall ids, on_builtin_batch subj uid (with_session_ids m ids)).
  { intros ids. exact HJ. }
  unfold handle_exercise_answer.
  destruct (Py.split ":" data)
    as [| tag [| session_id [| idx_str [| answer [| extra rest]]]]];
    try (split; [exact HJ | intros s Hs; by apply Hnone in Hs]).
  destruct (negb (String.eqb tag "ex"));
    [split; [exact HJ | intros s Hs; by apply Hnone in Hs] |].
  destruct (Py.int idx_str) as [idx |];
    [| split; [exact HJ | intros s Hs; by apply Hnone in Hs]].
  set (ms := get_short_session_id uid uuid m).
  assert (HJ1 : on_builtin_batch subj uid ms.1).
  { unfold ms, get_short_session_id. by destruct (session_ids m !! uid) as [[|]|]. }
  assert (Hget : forall m0, on_builtin_batch subj uid m0 ->
                   on_builtin_batch subj uid (get_short_session_id uid uuid m0).1).
  { intros m0 H0. unfold get_short_session_id.
    by destruct (session_ids m0 !! uid) as [[|]|]. }
  generalize dependent ms. intros ms HJ1.
  destruct (String.eqb ms.2 "" || negb (String.eqb session_id ms.2));
    [split; [exact HJ1 | intros s Hs; by apply Hnone in Hs] |].
  destruct (active_exercises ms.1 !! uid) as [exs |] eqn:Hexs;
    [| split; [exact HJ1 | intros s Hs; by apply Hnone in Hs]].
  destruct (Z.of_nat (length exs) <=? idx);
    [split; [exact HJ1 | intros s Hs; by apply Hnone in Hs] |].
  destruct (Py.index exs idx) as [current |] eqn:Hcur.
  2: { split; [exact HJ1 |]. intros s [H | H]%elem_of_cons; [discriminate |].
       by apply elem_of_nil in H. }
  destruct (user_answers ms.1 !! uid ≫= _) as [old |] eqn:Hold.
  { split; [exact HJ1 |]. intros s H. by apply elem_of_nil in H. }
  pose proof HJ1 as HJ1'. unfold on_builtin_batch in HJ1'. rewrite Hexs in HJ1'.
  destruct HJ1' as [-> Hkeys].
  destruct (fallback_item subj current Hsubj (py_index_elem _ _ _ Hcur)) as (Hs & _ & _).
  rewrite Hs.
  set (m3 := set_current_exercise_index uid (idx + 1)
               (submit_answer uid _ answer ms.1)).
  assert (Hexs3 : active_exercises m3 !! uid = Some (_get_fallback_exercises subj))
    by exact Hexs.
  assert (Hkeys3 : only_answer_keys subj uid m3).
  { intros key a. unfold m3, set_current_exercise_index, submit_answer. cbn.
    rewrite lookup_insert_eq. cbn.
    destruct (decide (key = subj +:+ "_" +:+ Py.str_of_int uid +:+ "_"
                              +:+ Py.str_of_int idx)) as [-> | Hne].
    - intros _. by exists idx.
    - rewrite lookup_insert_ne by done. apply Hkeys. }
  assert (HJ3 : on_builtin_batch subj uid m3).
  { unfold on_builtin_batch. by rewrite Hexs3. }
  destruct (idx + 1 <? Z.of_nat (length (_get_fallback_exercises subj))).
  - destruct (Py.index (_get_fallback_exercises subj) (idx + 1)) as [next |].
    + unfold show_exercise. cbn [fst snd]. split; [by apply Hget |].
      intros s [H | [H | H]%elem_of_cons]%elem_of_cons; try discriminate.
      by apply elem_of_nil in H.
    + split; [exact HJ3 |].
      intros s [H | [H | H]%elem_of_cons]%elem_of_cons; try discriminate.
      by apply elem_of_nil in H.
  - destruct (builtin_batch_graded subj uid m3 Hsubj Hexs3 Hkeys3)
      as (s0 & m' & Hfin & Hgone & _ & Hzero & Hall & _).
    rewrite Hfin. cbn [fst snd show_exercise_results]. split.
    + unfold on_builtin_batch, reset_current_index. cbn. by rewrite Hgone.
    + intros s [H | [H | H]%elem_of_cons]%elem_of_cons; try discriminate.
      * injection H as ->. by split.
      * by apply elem_of_nil in H.
Qed.

Lemma builtin_batch_run subj uid uuid callbacks m evs :
  subj = "vocabulary" \/ subj = "grammar" ->
  on_builtin_batch subj uid m ->
  (forall s, ShowExerciseResults s ∈ evs ->
     correct_answers s = 0%nat
     /\ Forall (fun r => res_user_answer r = "" /\ res_is_correct r = false) (results s)) ->
  on_builtin_batch subj uid
    (fold_left
       (fun acc data =>
          let r := handle_exercise_answer uid data uuid acc.1 in (r.1, acc.2 ++ r.2))
       callbacks (m, evs)).1
  /\ forall s,
      ShowExerciseResults s
        ∈ (fold_left
             (fun acc data =>
                let r := handle_exercise_answer uid data uuid acc.1 in (r.1, acc.2 ++ r.2))
             callbacks (m, evs)).2 ->
      correct_answers s = 0%nat
      /\ Forall (fun r => res_user_answer r = "" /\ res_is_correct r = false) (results s).
Proof.
  intros Hsubj. revert m evs.
  induction callbacks as [| data callbacks IH]; intros m evs HJ Hevs; [by split |].
  cbn [fold_left fst snd].
  destruct (builtin_batch_step subj uid data uuid m Hsubj HJ) as [HJ' Hnew].
  apply IH; [exact HJ' |].
  intros s [Hs | Hs]%elem_of_app; [by apply Hevs | by apply Hnew].
Qed.

Lemma start_on_builtin_batch render uid subj uuid r m :
  subj = "vocabulary" \/ subj = "grammar" ->
  usable render subj uid r = [] ->
  on_builtin_batch subj uid (start_exercise_session render uid subj uuid r m).1.
Proof.
  intros Hsubj Hnone. unfold on_builtin_batch, start_exercise_session.
  rewrite generate_exercises_spec, Hnone. cbn. rewrite lookup_insert_eq.
  split.
  - by destruct (_get_fallback_exercises subj).
  - intros key a. unfold only_answer_keys. cbn. rewrite lookup_insert_eq. cbn.
    by rewrite lookup_empty.
Qed.

End BuiltinFacts.

(** X1: answers given to the built-in batch are never found.  The
    handler files an answer under [subject_user_index]; the items of the
    built-in batch are called [subject_fallback_n]; and
    [finish_exercise_session] looks answers up by item id.  So for a
    session started on the built-in batch (the reply had no usable
    entry), whatever callbacks follow, every summary shown, by the last
    answer or by the finish button, counts 0 correct answers and shows
    every item as unanswered. *)
Theorem builtin_batch_never_scores :
  forall (render : Json.json -> string) (uid : Z) (subj uuid uuid' : string)
         (r : Exercises.reply) (m : Exercises.Manager) (callbacks : list string)
         (s : Exercises.Summary),
    subj = "vocabulary" \/ subj = "grammar" ->
    Exercises.usable render subj uid r = [] ->
    Handlers.ShowExerciseResults s
      ∈ (Handlers.answer_all uid uuid' callbacks
           (Exercises.start_exercise_session render uid subj uuid r m).1).2
      ++ (Handlers.handle_exercise_finish uid
            (Handlers.answer_all uid uuid' callbacks
               (Exercises.start_exercise_session render uid subj uuid r m).1).1).2 ->
    Exercises.correct_answers s = 0%nat
    /\ Forall (fun item => Exercises.res_user_answer item = ""
                           /\ Exercises.res_is_correct item = false)
         (Exercises.results s).
Proof.
  intros render uid subj uuid uuid' r m callbacks s Hsubj Hnone Hs.
  pose proof (start_on_builtin_batch render uid subj uuid r m Hsubj Hnone) as HJ.
  destruct (builtin_batch_run subj uid uuid' callbacks _ [] Hsubj HJ) as [HJ' Hrun].
  { intros s0 H0. by apply elem_of_nil in H0. }
  apply elem_of_app in Hs as [Hs | Hs]; [by apply Hrun |].
  unfold Handlers.answer_all in Hs. unfold Handlers.handle_exercise_finish in Hs.
  unfold ExerciseFlow.on_builtin_batch in HJ'.
  set (m1 := (fold_left _ callbacks _).1) in *.
  destruct (Exercises.active_exercises m1 !! uid) as [exs |] eqn:Hexs.
  - destruct HJ' as [-> Hkeys].
    destruct (builtin_batch_graded subj uid m1 Hsubj Hexs Hkeys)
      as (s0 & m' & Hfin & _ & _ & Hzero & Hall & _).
    rewrite Hfin in Hs. cbn in Hs.
    apply list_elem_of_singleton in Hs. injection Hs as ->. by split.
  - unfold Exercises.finish_exercise_session in Hs. rewrite Hexs in Hs. cbn in Hs.
    apply list_elem_of_singleton in Hs. discriminate.
Qed.

Lemma builtin_batch_never_scores_witness :
  ("grammar" = "vocabulary" \/ "grammar" = "grammar")
  /\ Exercises.usable Exercises.plain_render "grammar" 7 Exercises.NotJson = []
  /\ exists s : Exercises.Summary,
      last (Handlers.answer_all 7 sample_uuid
              ["ex:0f8fad:0:B"; "ex:0f8fad:1:B"; "ex:0f8fad:2:C"; "ex:0f8fad:3:A";
               "ex:0f8fad:4:C"]
              grammar_session).2
      = Some (Handlers.ShowExerciseResults s)
      /\ Exercises.correct_answers s = 0%nat.
Proof.
  assert (Hsubj : "grammar" = "vocabulary" \/ "grammar" = "grammar") by (by right).
  assert (Hnone : Exercises.usable Exercises.plain_render "grammar" 7 Exercises.NotJson = [])
    by reflexivity.
  split; [exact Hsubj |]. split; [exact Hnone |].
  destruct (last (Handlers.answer_all 7 sample_uuid
              ["ex:0f8fad:0:B"; "ex:0f8fad:1:B"; "ex:0f8fad:2:C"; "ex:0f8fad:3:A";
               "ex:0f8fad:4:C"] grammar_session).2) as [[| | s | | |] |] eqn:Hlast;
    try (vm_compute in Hlast; discriminate Hlast).
  exists s. split; [reflexivity |].
  apply (builtin_batch_never_scores Exercises.plain_render 7 "grammar" sample_uuid
           sample_uuid Exercises.NotJson Exercises.new_manager
           ["ex:0f8fad:0:B"; "ex:0f8fad:1:B"; "ex:0f8fad:2:C"; "ex:0f8fad:3:A";
            "ex:0f8fad:4:C"] s Hsubj Hnone).
  apply elem_of_app. left. apply last_Some_elem_of. exact Hlast.
Defined.

(** ** Fixed test: a whole run *)

Section TestRunFacts.
Import FixedTest TestFlow.

Lemma zip_with_snoc {A B C} (f : A -> B -> C) (l : list A) (k : list B) (b : B) :
  zip_with f l (k ++ [b])
  = zip_with f l k ++ match l !! length k with
                      | Some a => [f a b]
                      | None => []
                      end.
Proof.
  revert k. induction l as [| a l IH]; intros k.
  - by destruct k.
  - destruct k as [| b0 k]; simpl.
    + by destruct l.
    + by rewrite IH.
Qed.

Lemma process_answers_snoc uid given a w :
  process_answers uid (given ++ [a]) w
  = process_answer uid a (process_answers uid given w).
Proof. unfold process_answers. by rewrite fold_left_app. Qed.

Lemma count_correct_snoc (log : list Answer) (a : Answer) :
  length (filter (fun x => is_correct x = true) (log ++ [a]))
  = (length (filter (fun x => is_correct x = true) log)
     + if is_correct a then 1 else 0)%nat.
Proof.
  rewrite filter_app, length_app, filter_cons, filter_nil.
  destruct (is_correct a); [by rewrite decide_True | by rewrite decide_False].
Qed.

Lemma log_entry_correct q a : is_correct (log_entry q a) = String.eqb a (correct_answer q).
Proof. reflexivity. Qed.

End TestRunFacts.

(** X4: a test session after any run of answers.  After
    [start_test_for_user] and the answers [given], the user's session
    holds the bank's questions, its log is the questions paired with the
    answers in order (answers beyond the last question are ignored), the
    cursor equals the length of the log, the score is the number of log
    entries marked correct, and the test counts as completed exactly
    when at least as many answers were given as there are questions. *)
Theorem test_session_after_answers :
  forall (uid : Z) (w : FixedTest.World) (qs : list FixedTest.Question)
         (given : list string),
    FixedTest.fixed_test w = Some qs ->
    exists t : FixedTest.Test,
      FixedTest.active_tests
        (TestFlow.process_answers uid given (FixedTest.start_test_for_user uid w).1)
        !! uid = Some t
      /\ FixedTest.questions t = qs
      /\ FixedTest.answers t = zip_with FixedTest.log_entry qs given
      /\ FixedTest.current_question t = length (FixedTest.answers t)
      /\ FixedTest.current_question t = Nat.min (length qs) (length given)
      /\ FixedTest.score t
         = length (filter (fun a => FixedTest.is_correct a = true) (FixedTest.answers t))
      /\ (FixedTest.is_test_completed uid
            (TestFlow.process_answers uid given (FixedTest.start_test_for_user uid w).1)
          = true <-> (length qs <= length given)%nat).
Proof.
  intros uid w qs given Hbank.
  assert (Hmain : exists t,
            FixedTest.active_tests
              (TestFlow.process_answers uid given (FixedTest.start_test_for_user uid w).1)
              !! uid = Some t
            /\ FixedTest.questions t = qs
            /\ FixedTest.answers t = zip_with FixedTest.log_entry qs given
            /\ FixedTest.current_question t = Nat.min (length qs) (length given)
            /\ FixedTest.score t
               = length (filter (fun a => FixedTest.is_correct a = true)
                           (FixedTest.answers t))).
  { induction given as [| a given IH] using rev_ind.
    - unfold FixedTest.start_test_for_user. rewrite Hbank. cbn.
      rewrite lookup_insert_eq. eexists. split; [reflexivity |]. cbn.
      rewrite Nat.min_0_r. by destruct qs.
    - destruct IH as (t & Ht & Hq & Hlog & Hcur & Hscore).
      rewrite process_answers_snoc. unfold FixedTest.process_answer at 1.
      rewrite Ht, Hcur, Hq, zip_with_snoc, length_app. cbn [length].
      destruct (decide (length given < length qs)%nat) as [Hlt | Hge].
      + rewrite Nat.min_r by lia.
        destruct (lookup_lt_is_Some_2 qs (length given) Hlt) as [q Hlook].
        rewrite Hlook. cbn. rewrite lookup_insert_eq.
        eexists. split; [reflexivity |]. cbn.
        rewrite ?Hlog, ?Hq. split; [done |]. split; [done |].
        split; [lia |].
        rewrite count_correct_snoc, log_entry_correct, Hscore, Hlog.
        destruct (String.eqb a (FixedTest.correct_answer q)); lia.
      + rewrite Nat.min_l by lia.
        rewrite (lookup_ge_None_2 qs (length qs)) by lia.
        assert (qs !! length given = None) as -> by (apply lookup_ge_None_2; lia).
        rewrite app_nil_r, Ht. exists t.
        split; [done |]. split; [done |]. split; [done |].
        split; [rewrite Hcur; lia | done]. }
  destruct Hmain as (t & Ht & Hq & Hlog & Hcur & Hscore).
  exists t. split; [done |]. split; [done |]. split; [done |].
  split; [by rewrite Hlog, length_zip_with, Hcur |].
  split; [done |]. split; [done |].
  unfold FixedTest.is_test_completed. rewrite Ht, Hq, Hcur.
  rewrite Nat.leb_le. lia.
Qed.

Lemma test_session_after_answers_witness :
  FixedTest.fixed_test (world_of ∅) = Some [one_question]
  /\ exists t : FixedTest.Test,
      FixedTest.active_tests
        (TestFlow.process_answers 7 ["a"; "b"]
           (FixedTest.start_test_for_user 7 (world_of ∅)).1) !! 7 = Some t
      /\ FixedTest.answers t = [FixedTest.log_entry one_question "a"].
Proof.
  assert (Hbank : FixedTest.fixed_test (world_of ∅) = Some [one_question]) by reflexivity.
  split; [exact Hbank |].
  destruct (test_session_after_answers 7 (world_of ∅) [one_question] ["a"; "b"] Hbank)
    as (t & Ht & _ & Hlog & _).
  exists t. split; [exact Ht | exact Hlog].
Defined.

(** ** Fixed test: keyboard and answer callbacks *)

Section KeyboardFacts.
Import FixedTest TestFlow.

Lemma remove_prefix_letter x :
  x ∈ ["a"; "b"; "c"; "d"] -> Py.remove_all "test_answer_" ("test_answer_" +:+ x) = x.
Proof.
  intros Hx. repeat (apply elem_of_cons in Hx as [-> | Hx]; [reflexivity |]).
  by apply elem_of_nil in Hx.
Qed.

Lemma is_letter_abcd x :
  existsb (String.eqb x) ["a"; "b"; "c"; "d"] = true <-> x ∈ ["a"; "b"; "c"; "d"].
Proof.
  simpl. rewrite !elem_of_cons, !orb_true_iff, !String.eqb_eq.
  split; [intros [? | [? | [? | [? | ?]]]] | intros [? | [? | [? | [? | ?%elem_of_nil]]]]];
    try done; auto 6.
Qed.

Lemma question_buttons_none opts : question_buttons opts = None <-> "" ∈ opts.
Proof.
  induction opts as [| o opts IH]; simpl.
  - split; [discriminate | intros H; by apply elem_of_nil in H].
  - rewrite elem_of_cons. destruct o as [| c o].
    + split; [by left | done].
    + destruct (question_buttons opts) as [rest |]; cbn.
      * split; [discriminate |]. intros [H | H]; [discriminate |]. by apply IH in H.
      * split; [intros _; right; by apply IH | done].
Qed.

Lemma question_buttons_some opts buttons :
  question_buttons opts = Some buttons ->
  buttons
  = (fun o => (o, "test_answer_" +:+ option_letter o))
      <$> filter (fun o => option_letter o ∈ ["a"; "b"; "c"; "d"]) opts.
Proof.
  revert buttons. induction opts as [| o opts IH]; intros buttons.
  - by intros [= <-].
  - cbn [question_buttons]. destruct o as [| c o]; [discriminate |].
    destruct (question_buttons opts) as [rest |]; cbn [mbind option_bind]; [| discriminate].
    rewrite filter_cons. cbn [option_letter].
    match goal with
    | |- context [existsb ?f ?l] => destruct (existsb f l) eqn:Hl
    end.
    + intros Hb. injection Hb as <-.
      rewrite decide_True by (by apply is_letter_abcd).
      rewrite fmap_cons. by rewrite (IH rest eq_refl).
    + intros Hb. injection Hb as <-.
      rewrite decide_False; [by apply IH |].
      intros H. apply is_letter_abcd in H. congruence.
Qed.

End KeyboardFacts.

(** X5: the answer keyboard of a question.  [create_question_keyboard]
    fails exactly when an option is empty; otherwise it makes one button
    per option whose first character is a, b, c or d in either case, in
    order, and drops the other options; from the callback data of each
    button [handle_test_answer] recovers that first character in lower
    case. *)
Theorem question_keyboard_round_trip :
  forall (q : FixedTest.Question) (opts : list string),
    FixedTest.options q = Some opts ->
    (TestFlow.create_question_keyboard q = None <-> "" ∈ opts)
    /\ forall buttons : list (string * string),
        TestFlow.create_question_keyboard q = Some buttons ->
        buttons.*1
        = filter (fun o => TestFlow.option_letter o ∈ ["a"; "b"; "c"; "d"]) opts
        /\ Forall
             (fun b =>
                TestFlow.option_letter b.1 ∈ ["a"; "b"; "c"; "d"]
                /\ Py.remove_all "test_answer_" b.2 = TestFlow.option_letter b.1)
             buttons.
Proof.
  intros q opts Hopts. unfold TestFlow.create_question_keyboard. rewrite Hopts.
  split; [apply question_buttons_none |].
  intros buttons Hb. apply question_buttons_some in Hb. subst buttons.
  split.
  - rewrite <- list_fmap_compose. by rewrite list_fmap_id.
  - apply Forall_fmap, Forall_forall. intros o [Ho _]%list_elem_of_filter. cbn.
    split; [exact Ho | by apply remove_prefix_letter].
Qed.

Lemma question_keyboard_round_trip_witness :
  FixedTest.options one_question
  = Some ["a) had already started"; "b) already started";
          "c) has already started"; "d) was already starting"]
  /\ exists buttons,
      TestFlow.create_question_keyboard one_question = Some buttons
      /\ Forall (fun b => Py.remove_all "test_answer_" b.2 = TestFlow.option_letter b.1)
           buttons.
Proof.
  assert (Hopts : FixedTest.options one_question
                  = Some ["a) had already started"; "b) already started";
                          "c) has already started"; "d) was already starting"])
    by reflexivity.
  split; [exact Hopts |].
  destruct (TestFlow.create_question_keyboard one_question) as [buttons |] eqn:Hk;
    [| discriminate Hk].
  exists buttons. split; [reflexivity |].
  destruct (question_keyboard_round_trip one_question _ Hopts) as [_ Hsome].
  destruct (Hsome buttons Hk) as [_ Hall].
  eapply Forall_impl; [exact Hall |]. by intros b [_ ?].
Defined.

(** X6: one test answer callback.  Without a session nothing changes
    and nothing is sent.  With a session at question [q], the answer
    read from the callback data is processed by [process_answer]; if a
    question follows it is sent and the session stays; if [q] was the
    last question the test is finished in the same call: the summary is
    announced, results over all questions with the new log entry are
    shown and appended to the user's results in memory, and the session
    is removed. *)
Theorem test_answer_callback :
  forall (uid : Z) (data answer : string) (w : FixedTest.World),
    Py.remove_all "test_answer_" data = answer ->
    (FixedTest.active_tests w !! uid = None ->
     TestFlow.handle_test_answer uid data w = (w, []))
    /\ forall (t : FixedTest.Test) (q : FixedTest.Question),
        FixedTest.active_tests w !! uid = Some t ->
        FixedTest.questions t !! FixedTest.current_question t = Some q ->
        (forall next : FixedTest.Question,
           FixedTest.questions t !! S (FixedTest.current_question t) = Some next ->
           TestFlow.handle_test_answer uid data w
           = (FixedTest.process_answer uid answer w, [Handlers.send_question next]))
        /\ (S (FixedTest.current_question t) = length (FixedTest.questions t) ->
            exists (r : FixedTest.Results) (w' : FixedTest.World),
              TestFlow.handle_test_answer uid data w
              = (w', [Handlers.Reply Handlers.Summing; Handlers.ShowTestResults r])
              /\ FixedTest.r_total_questions r = length (FixedTest.questions t)
              /\ FixedTest.r_answers r
                 = FixedTest.answers t ++ [FixedTest.log_entry q answer]
              /\ FixedTest.active_tests w' !! uid = None
              /\ FixedTest.test_results w' !! uid
                 = Some (default [] (FixedTest.test_results w !! uid) ++ [r])).
Proof.
  intros uid data answer w Hdata. unfold TestFlow.handle_test_answer. rewrite Hdata.
  split.
  - intros Hnone. rewrite (process_answer_no_session uid answer w Hnone).
    unfold FixedTest.is_test_completed, FixedTest.get_current_question. by rewrite Hnone.
  - intros t q Ht Hq.
    assert (Hw1 : FixedTest.active_tests (FixedTest.process_answer uid answer w) !! uid
                  = Some {| FixedTest.questions := FixedTest.questions t;
                            FixedTest.current_question := S (FixedTest.current_question t);
                            FixedTest.score :=
                              if String.eqb answer (FixedTest.correct_answer q)
                              then S (FixedTest.score t) else FixedTest.score t;
                            FixedTest.answers :=
                              FixedTest.answers t ++ [FixedTest.log_entry q answer] |}).
    { unfold FixedTest.process_answer. rewrite Ht, Hq. cbn. apply lookup_insert_eq. }
    split.
    + intros next Hnext.
      assert (Hlt : (S (FixedTest.current_question t) < length (FixedTest.questions t))%nat)
        by (by eapply lookup_lt_Some).
      unfold FixedTest.is_test_completed, FixedTest.get_current_question.
      rewrite Hw1. cbn [FixedTest.questions FixedTest.current_question].
      destruct (Nat.leb_spec (length (FixedTest.questions t))
                  (S (FixedTest.current_question t))) as [Hle | _]; [lia |].
      by rewrite Hnext.
    + intros Hlast.
      unfold FixedTest.is_test_completed.
      rewrite Hw1. cbn [FixedTest.questions FixedTest.current_question].
      destruct (Nat.leb_spec (length (FixedTest.questions t))
                  (S (FixedTest.current_question t))) as [_ | Hlt]; [| lia].
      unfold FixedTest.finish_test. rewrite Hw1. cbn [fst snd Handlers.show_test_results].
      eexists _, _. split; [reflexivity |]. cbn.
      rewrite lookup_delete_eq, lookup_insert_eq.
      destruct (process_answer_frame uid answer w) as (-> & _).
      repeat split; done.
Qed.

Lemma test_answer_callback_witness :
  Py.remove_all "test_answer_" "test_answer_a" = "a"
  /\ FixedTest.active_tests (world_of ∅) !! 7 = None
  /\ TestFlow.handle_test_answer 7 "test_answer_a" (world_of ∅) = (world_of ∅, []).
Proof.
  assert (Hdata : Py.remove_all "test_answer_" "test_answer_a" = "a") by reflexivity.
  assert (Hnone : FixedTest.active_tests (world_of ∅) !! 7 = None) by reflexivity.
  split; [exact Hdata |]. split; [exact Hnone |].
  exact (proj1 (test_answer_callback 7 "test_answer_a" "a" (world_of ∅) Hdata) Hnone).
Defined.

(** ** Fixed test: from finishing to the gate *)

Section UnlockFacts.
Import FixedTest.

Lemma finish_test_file uid w t :
  active_tests w !! uid = Some t ->
  test_files (finish_test uid w).1 !! uid
  = Some (Content (Json.JArr (results_json
                                <$> default [] (test_results w !! uid)
                                    ++ [build_results t]))).
Proof.
  intros Ht. unfold finish_test. rewrite Ht. cbn.
  unfold save_results_to_file. rewrite lookup_insert_eq. cbn.
  destruct (default [] (test_results w !! uid) ++ [build_results t]) as [| r rs] eqn:Hl.
  - by apply app_nil in Hl as [_ ?].
  - apply lookup_insert_eq.
Qed.

End UnlockFacts.

(** X7: the result file written by [finish_test] is what the gate's
    repair path accepts.  After a session was finished the user's file
    holds a non-empty list with one entry per test finished in memory;
    so if the user record reads false (as it does once the write in
    [finish_test] has failed) while no test is in progress,
    [require_test_completion] sets the flag and runs the handler. *)
Theorem result_file_repairs_flag :
  forall (uid : Z) (w : FixedTest.World) (t : FixedTest.Test)
         (func : Handlers.Bot -> Handlers.Bot * list Handlers.event)
         (m : Exercises.Manager) (db : gmap Z Db.User),
    FixedTest.active_tests w !! uid = Some t ->
    Db.database_has_completed_test uid db = false ->
    exists items : list Json.json,
      FixedTest.test_files (FixedTest.finish_test uid w).1 !! uid
      = Some (FixedTest.Content (Json.JArr items))
      /\ length items = S (length (default [] (FixedTest.test_results w !! uid)))
      /\ Handlers.require_test_completion func uid
           {| Handlers.tests := Handlers.with_users (FixedTest.finish_test uid w).1 db;
              Handlers.exercises := m |}
         = func {| Handlers.tests :=
                     Handlers.with_users (FixedTest.finish_test uid w).1
                       (Db.mark_test_completed uid db);
                   Handlers.exercises := m |}.
Proof.
  intros uid w t func m db Ht Hflag.
  eexists. split; [by apply finish_test_file |].
  split; [rewrite length_fmap, length_app; simpl; lia |].
  unfold Handlers.require_test_completion. cbn [Handlers.tests Handlers.exercises].
  cbn [Handlers.with_users FixedTest.active_tests FixedTest.users FixedTest.test_files].
  rewrite finish_test_clears, Hflag, (finish_test_file uid w t Ht).
  cbn [Json.truthy Json.len]. rewrite length_fmap, length_app. cbn [length].
  replace (length (default [] (FixedTest.test_results w !! uid)) + 1)%nat
    with (S (length (default [] (FixedTest.test_results w !! uid)))) by lia.
  reflexivity.
Qed.

Lemma result_file_repairs_flag_witness :
  FixedTest.active_tests (world_of {[ 7 := answered_test ]}) !! 7 = Some answered_test
  /\ Db.database_has_completed_test 7 ∅ = false
  /\ exists items : list Json.json,
      FixedTest.test_files (FixedTest.finish_test 7 (world_of {[ 7 := answered_test ]})).1
        !! 7 = Some (FixedTest.Content (Json.JArr items))
      /\ length items = 1%nat.
Proof.
  assert (Ht : FixedTest.active_tests (world_of {[ 7 := answered_test ]}) !! 7
               = Some answered_test) by reflexivity.
  assert (Hflag : Db.database_has_completed_test 7 ∅ = false) by reflexivity.
  split; [exact Ht |]. split; [exact Hflag |].
  destruct (result_file_repairs_flag 7 _ answered_test (fun b => (b, []))
              Exercises.new_manager ∅ Ht Hflag) as (items & Hfile & Hlen & _).
  exists items. split; [exact Hfile | exact Hlen].
Defined.

(** ** Fixed test: restart and cancel *)

(** X8: restart and cancel.  [test_restart] replaces whatever session
    the user had by a fresh one over the bank (cursor 0, score 0, empty
    log); when the bank has no questions key the old session is gone
    and none is created.  [test_cancel] removes the session.  Neither
    writes results, user records or files, and neither touches another
    user's session. *)
Theorem test_restart_and_cancel :
  forall (uid : Z) (w : FixedTest.World),
    (forall qs : list FixedTest.Question,
       FixedTest.fixed_test w = Some qs ->
       FixedTest.active_tests (Handlers.handle_test_actions uid "test_restart" w).1 !! uid
       = Some {| FixedTest.questions := qs; FixedTest.current_question := 0;
                 FixedTest.score := 0; FixedTest.answers := [] |})
    /\ (FixedTest.fixed_test w = None ->
        FixedTest.active_tests (Handlers.handle_test_actions uid "test_restart" w).1 !! uid
        = None
        /\ (Handlers.handle_test_actions uid "test_restart" w).2
           = [Handlers.Reply Handlers.TestStartFailed])
    /\ FixedTest.active_tests (Handlers.handle_test_actions uid "test_cancel" w).1 !! uid
       = None
    /\ (Handlers.handle_test_actions uid "test_cancel" w).2
       = [Handlers.Reply Handlers.TestCancelled]
    /\ forall action : string,
        action = "test_restart" \/ action = "test_cancel" ->
        FixedTest.test_results (Handlers.handle_test_actions uid action w).1
        = FixedTest.test_results w
        /\ FixedTest.users (Handlers.handle_test_actions uid action w).1 = FixedTest.users w
        /\ FixedTest.test_files (Handlers.handle_test_actions uid action w).1
           = FixedTest.test_files w
        /\ forall other : Z,
            other ≠ uid ->
            FixedTest.active_tests (Handlers.handle_test_actions uid action w).1 !! other
            = FixedTest.active_tests w !! other.
Proof.
  intros uid w.
  assert (Hrestart : Handlers.handle_test_actions uid "test_restart" w
                     = Handlers.restart uid
                         (FixedTest.with_active_tests w
                            (delete uid (FixedTest.active_tests w)))) by reflexivity.
  assert (Hcancel : Handlers.handle_test_actions uid "test_cancel" w
                    = (FixedTest.with_active_tests w
                         (delete uid (FixedTest.active_tests w)),
                       [Handlers.Reply Handlers.TestCancelled])) by reflexivity.
  split; [| split; [| split; [| split]]].
  - intros qs Hbank. rewrite Hrestart.
    unfold Handlers.restart, FixedTest.start_test_for_user. cbn [FixedTest.fixed_test
      FixedTest.with_active_tests]. rewrite Hbank. cbn [snd fst].
    unfold FixedTest.get_current_question. cbn. rewrite lookup_insert_eq.
    destruct qs; cbn; apply lookup_insert_eq.
  - intros Hbank. rewrite Hrestart.
    unfold Handlers.restart, FixedTest.start_test_for_user. cbn [FixedTest.fixed_test
      FixedTest.with_active_tests]. rewrite Hbank. cbn.
    split; [apply lookup_delete_eq | done].
  - rewrite Hcancel. cbn. apply lookup_delete_eq.
  - by rewrite Hcancel.
  - intros action [-> | ->].
    + rewrite Hrestart.
      unfold Handlers.restart, FixedTest.start_test_for_user. cbn [FixedTest.fixed_test
        FixedTest.with_active_tests].
      destruct (FixedTest.fixed_test w) as [qs |]; cbn [snd fst].
      * unfold FixedTest.get_current_question. cbn. rewrite lookup_insert_eq.
        destruct qs; cbn; (repeat split; try done);
          intros other Hne; by rewrite lookup_insert_ne, lookup_delete_ne.
      * cbn. repeat split; try done. intros other Hne. by rewrite lookup_delete_ne.
    + rewrite Hcancel. cbn. repeat split; try done.
      intros other Hne. by rewrite lookup_delete_ne.
Qed.

Lemma test_restart_and_cancel_witness :
  FixedTest.fixed_test (world_of {[ 7 := answered_test ]}) = Some [one_question]
  /\ FixedTest.active_tests
       (Handlers.handle_test_actions 7 "test_restart" (world_of {[ 7 := answered_test ]})).1
       !! 7
     = Some fresh_test.
Proof.
  assert (Hbank : FixedTest.fixed_test (world_of {[ 7 := answered_test ]})
                  = Some [one_question]) by reflexivity.
  split; [exact Hbank |].
  exact (proj1 (test_restart_and_cancel 7 (world_of {[ 7 := answered_test ]}))
           [one_question] Hbank).
Defined.

(** ** Topic inference *)

Section TopicFacts.
Import FixedTest.

Lemma lower_char_idem c : Py.lower_char (Py.lower_char c) = Py.lower_char c.
Proof. by destruct c as [[] [] [] [] [] [] [] []]. Qed.

Lemma lower_char_upper c : Py.lower_char (Py.upper_char c) = Py.lower_char c.
Proof. by destruct c as [[] [] [] [] [] [] [] []]. Qed.

Lemma lower_upper s : Py.lower (Py.upper s) = Py.lower s.
Proof.
  unfold Py.lower, Py.upper. induction s as [| c s IH]; simpl; [done |].
  by rewrite lower_char_upper, IH.
Qed.

Lemma lower_app a b : Py.lower (a +:+ b) = Py.lower a +:+ Py.lower b.
Proof. unfold Py.lower. induction a as [| c a IH]; simpl; [done | by rewrite IH]. Qed.

Lemma lower_join sep l : Py.lower (Py.join sep l) = Py.join (Py.lower sep) (Py.lower <$> l).
Proof.
  induction l as [| a l IH]; [done |].
  destruct l as [| b l]; [done |].
  change (Py.join sep (a :: b :: l)) with (a +:+ sep +:+ Py.join sep (b :: l)).
  rewrite !lower_app, IH. reflexivity.
Qed.

(** The text the rules are matched against depends on the lower-cased
    inputs only. *)
Lemma topic_text_lower q e opts :
  Py.lower (q +:+ " " +:+ e +:+ " " +:+ Py.join " " opts)
  = Py.lower q +:+ " " +:+ Py.lower e +:+ " " +:+ Py.join " " (Py.lower <$> opts).
Proof. by rewrite !lower_app, lower_join. Qed.

End TopicFacts.

(** X9: what [_infer_topic] can return.  For the section "grammar" the
    topic is one of ten fixed labels, for "vocabulary" one of six; for
    any other section, also one that differs in case only, such as
    "Grammar", the text is ignored and the capitalised section name is
    returned.  The topic depends on the question, explanation and
    options only through their lower-cased text. *)
Theorem infer_topic_labels :
  forall (sec q expl : string) (opts : list string),
    (sec = "grammar" ->
     FixedTest._infer_topic sec q expl opts
     ∈ ["Tenses: Past Perfect"; "Tenses: Future Continuous"; "Tenses: Present Perfect";
        "Conditionals (II)"; "Modals"; "Reported Speech"; "Articles"; "Passive Voice";
        "Prepositions"; "Grammar: Other"])
    /\ (sec = "vocabulary" ->
        FixedTest._infer_topic sec q expl opts
        ∈ ["Vocabulary: Phrasal Verbs"; "Vocabulary: Collocations";
           "Vocabulary: Word Formation"; "Vocabulary: Synonyms/Antonyms";
           "Vocabulary: Idioms"; "Vocabulary: Other"])
    /\ (sec ≠ "grammar" -> sec ≠ "vocabulary" ->
        FixedTest._infer_topic sec q expl opts = Py.capitalize sec)
    /\ forall (q' expl' : string) (opts' : list string),
        Py.lower q' = Py.lower q ->
        Py.lower expl' = Py.lower expl ->
        Py.lower <$> opts' = Py.lower <$> opts ->
        FixedTest._infer_topic sec q' expl' opts' = FixedTest._infer_topic sec q expl opts.
Proof.
  intros sec q expl opts. split; [| split; [| split]].
  - intros ->. unfold FixedTest._infer_topic. cbn [String.eqb Ascii.eqb Bool.eqb].
    repeat match goal with
           | |- context [if Py.any_in ?ks ?t then _ else _] => destruct (Py.any_in ks t)
           end;
      repeat first [apply list_elem_of_here | apply list_elem_of_further].
  - intros ->. unfold FixedTest._infer_topic. cbn [String.eqb Ascii.eqb Bool.eqb].
    repeat match goal with
           | |- context [if Py.any_in ?ks ?t then _ else _] => destruct (Py.any_in ks t)
           end;
      repeat first [apply list_elem_of_here | apply list_elem_of_further].
  - intros Hg Hv. unfold FixedTest._infer_topic.
    apply String.eqb_neq in Hg, Hv. by rewrite Hg, Hv.
  - intros q' expl' opts' Hq He Ho. unfold FixedTest._infer_topic.
    by rewrite (topic_text_lower q' expl' opts'), (topic_text_lower q expl opts), Hq, He, Ho.
Qed.

Lemma infer_topic_labels_witness :
  Py.lower "BY THE TIME we arrived" = Py.lower "By the time we arrived"
  /\ FixedTest._infer_topic "grammar" "BY THE TIME we arrived" "" []
     = FixedTest._infer_topic "grammar" "By the time we arrived" "" [].
Proof.
  assert (Hq : Py.lower "BY THE TIME we arrived" = Py.lower "By the time we arrived")
    by reflexivity.
  split; [exact Hq |].
  exact (proj2 (proj2 (proj2 (infer_topic_labels "grammar" "By the time we arrived" "" [])))
           "BY THE TIME we arrived" "" [] Hq eq_refl eq_refl).
Defined.

(** ** Fixed test: statistics and lists of the results *)

Section ResultListsFacts.
Import FixedTest.
Implicit Types (d : list (string * Stats)).

Lemma section_stats_entry (t : Test) (k : string) (s : Stats) :
  (k, s) ∈ r_section_stats (build_results t)
  <-> (0 < answered a_section k (answers t))%nat
      /\ s = {| total := answered a_section k (answers t);
                correct := answered_correctly a_section k (answers t) |}.
Proof.
  unfold build_results. simpl. rewrite collect_stats_split. simpl.
  destruct (tally_counts a_section (answers t)) as [Hnd Hassoc].
  rewrite (elem_of_assoc _ _ _ Hnd), Hassoc.
  case_decide as H0; split.
  - discriminate.
  - intros [Hpos _]. lia.
  - intros [= <-]. split; [lia | done].
  - intros [_ ->]. done.
Qed.

Lemma stats_keys_NoDup (t : Test) :
  NoDup (r_section_stats (build_results t)).*1
  /\ NoDup (r_topic_stats (build_results t)).*1.
Proof.
  unfold build_results. simpl. rewrite collect_stats_split. simpl.
  split; [apply (tally_counts a_section) | apply (tally_counts topic)].
Qed.

Lemma classify_sublist d :
  (classify d).1 `sublist_of` d.*1 /\ (classify d).2 `sublist_of` d.*1.
Proof.
  induction d as [| [k s] d [IH1 IH2]] using rev_ind; [by split |].
  rewrite classify_snoc, fmap_app. cbn [fmap list_fmap fst].
  repeat case_match; cbn [fst snd]; split;
    first [by apply sublist_app | by apply sublist_inserts_r].
Qed.

Lemma strength_not_weakness (s : Stats) : is_strength s -> is_weakness s -> False.
Proof. intros [_ H1] (_ & H2 & _). congruence. Qed.

End ResultListsFacts.

(** X10: the statistics of a finished test.  In the results of
    [finish_test], [section_stats] has an entry for exactly the sections
    with at least one logged answer, and [topic_stats] for exactly such
    topics; each entry holds the number of logged answers of that
    section or topic and the number of correct ones among them, and no
    key occurs twice. *)
Theorem finish_test_statistics :
  forall (uid : Z) (w : FixedTest.World) (t : FixedTest.Test),
    FixedTest.active_tests w !! uid = Some t ->
    exists r : FixedTest.Results,
      (FixedTest.finish_test uid w).2 = Some r
      /\ NoDup (FixedTest.r_section_stats r).*1
      /\ NoDup (FixedTest.r_topic_stats r).*1
      /\ forall (key : string) (s : FixedTest.Stats),
          ((key, s) ∈ FixedTest.r_section_stats r
           <-> (0 < FixedTest.answered FixedTest.a_section key (FixedTest.answers t))%nat
               /\ s = {| FixedTest.total :=
                           FixedTest.answered FixedTest.a_section key (FixedTest.answers t);
                         FixedTest.correct :=
                           FixedTest.answered_correctly FixedTest.a_section key
                             (FixedTest.answers t) |})
          /\ ((key, s) ∈ FixedTest.r_topic_stats r
              <-> (0 < FixedTest.answered FixedTest.topic key (FixedTest.answers t))%nat
                  /\ s = {| FixedTest.total :=
                              FixedTest.answered FixedTest.topic key (FixedTest.answers t);
                            FixedTest.correct :=
                              FixedTest.answered_correctly FixedTest.topic key
                                (FixedTest.answers t) |}).
Proof.
  intros uid w t Ht. exists (FixedTest.build_results t).
  split; [by apply finish_test_results |].
  destruct (stats_keys_NoDup t) as [Hs Htp].
  split; [exact Hs |]. split; [exact Htp |].
  intros key s. split; [apply section_stats_entry | apply topic_stats_entry].
Qed.

Lemma finish_test_statistics_witness :
  FixedTest.active_tests (world_of {[ 7 := answered_test ]}) !! 7 = Some answered_test
  /\ exists r : FixedTest.Results,
      (FixedTest.finish_test 7 (world_of {[ 7 := answered_test ]})).2 = Some r
      /\ NoDup (FixedTest.r_section_stats r).*1.
Proof.
  assert (Ht : FixedTest.active_tests (world_of {[ 7 := answered_test ]}) !! 7
               = Some answered_test) by reflexivity.
  split; [exact Ht |].
  destruct (finish_test_statistics 7 _ answered_test Ht) as (r & Hr & Hnd & _).
  exists r. split; [exact Hr | exact Hnd].
Defined.

(** X11: the strengths and weaknesses of a finished test.  Both lists
    name topics of logged answers only, no topic occurs twice in a list,
    and no topic is in both. *)
Theorem strengths_and_weaknesses_lists :
  forall (uid : Z) (w : FixedTest.World) (t : FixedTest.Test),
    FixedTest.active_tests w !! uid = Some t ->
    exists r : FixedTest.Results,
      (FixedTest.finish_test uid w).2 = Some r
      /\ NoDup (FixedTest.r_strengths r)
      /\ NoDup (FixedTest.r_weaknesses r)
      /\ (forall key : string,
            key ∈ FixedTest.r_strengths r \/ key ∈ FixedTest.r_weaknesses r ->
            key ∈ FixedTest.topic <$> FixedTest.answers t)
      /\ forall key : string,
          key ∈ FixedTest.r_strengths r -> key ∈ FixedTest.r_weaknesses r -> False.
Proof.
  intros uid w t Ht. exists (FixedTest.build_results t).
  split; [by apply finish_test_results |].
  destruct (stats_keys_NoDup t) as [_ Hnd].
  pose proof (classify_sublist (FixedTest.r_topic_stats (FixedTest.build_results t)))
    as [Hsub1 Hsub2].
  assert (Hs : FixedTest.r_strengths (FixedTest.build_results t)
               = (FixedTest.classify
                    (FixedTest.r_topic_stats (FixedTest.build_results t))).1) by reflexivity.
  assert (Hw : FixedTest.r_weaknesses (FixedTest.build_results t)
               = (FixedTest.classify
                    (FixedTest.r_topic_stats (FixedTest.build_results t))).2) by reflexivity.
  rewrite Hs, Hw.
  split; [by eapply sublist_NoDup |]. split; [by eapply sublist_NoDup |].
  split.
  - intros key Hkey.
    assert (Hin : key ∈ (FixedTest.r_topic_stats (FixedTest.build_results t)).*1)
      by (destruct Hkey as [H | H]; eapply elem_of_sublist; eauto).
    apply list_elem_of_fmap in Hin as ([k s] & -> & Hks).
    apply topic_stats_entry in Hks as [Hpos _]. by apply answered_pos.
  - intros key H1 H2.
    apply (proj1 (classify_spec _ key)) in H1 as (s1 & Hin1 & Hst).
    apply (proj2 (classify_spec _ key)) in H2 as (s2 & Hin2 & Hwk).
    apply (elem_of_assoc _ _ _ Hnd) in Hin1, Hin2.
    assert (s1 = s2) as -> by congruence.
    by eapply strength_not_weakness.
Qed.

Lemma strengths_and_weaknesses_lists_witness :
  FixedTest.active_tests (world_of {[ 7 := answered_test ]}) !! 7 = Some answered_test
  /\ exists r : FixedTest.Results,
      (FixedTest.finish_test 7 (world_of {[ 7 := answered_test ]})).2 = Some r
      /\ NoDup (FixedTest.r_strengths r).
Proof.
  assert (Ht : FixedTest.active_tests (world_of {[ 7 := answered_test ]}) !! 7
               = Some answered_test) by reflexivity.
  split; [exact Ht |].
  destruct (strengths_and_weaknesses_lists 7 _ answered_test Ht) as (r & Hr & Hnd & _).
  exists r. split; [exact Hr | exact Hnd].
Defined.

(** ** Exercise manager: tokens, reset, finish *)

(** X12: [get_short_session_id] creates a token once.  Given a
    non-empty fresh identifier, after the call the user has a non-empty
    token whose first six characters are the result; the result has at
    most six characters; other users' tokens and every other dictionary
    are as before; and a second call, whatever fresh identifier it is
    offered, returns the same prefix and changes nothing. *)
Theorem short_session_id_stable :
  forall (uid : Z) (uuid uuid' : string) (m : Exercises.Manager),
    uuid ≠ "" ->
    exists tok : string,
      Exercises.session_ids (Exercises.get_short_session_id uid uuid m).1 !! uid = Some tok
      /\ tok ≠ ""
      /\ (Exercises.get_short_session_id uid uuid m).2 = Py.str_take 6 tok
      /\ (String.length (Exercises.get_short_session_id uid uuid m).2 <= 6)%nat
      /\ Exercises.get_short_session_id uid uuid' (Exercises.get_short_session_id uid uuid m).1
         = Exercises.get_short_session_id uid uuid m
      /\ Exercises.active_exercises (Exercises.get_short_session_id uid uuid m).1
         = Exercises.active_exercises m
      /\ Exercises.user_answers (Exercises.get_short_session_id uid uuid m).1
         = Exercises.user_answers m
      /\ Exercises.user_current_index (Exercises.get_short_session_id uid uuid m).1
         = Exercises.user_current_index m
      /\ forall other : Z,
          other ≠ uid ->
          Exercises.session_ids (Exercises.get_short_session_id uid uuid m).1 !! other
          = Exercises.session_ids m !! other.
Proof.
  intros uid uuid uuid' m Huuid.
  assert (Hlen : forall s, (String.length (Py.str_take 6 s) <= 6)%nat).
  { intros s. do 7 (destruct s as [| ? s]; [simpl; lia |]). simpl. lia. }
  destruct (Exercises.session_ids m !! uid) as [[| c tok] |] eqn:Hold.
  - rewrite (short_session_id_missing uid uuid m (or_intror Hold)).
    exists uuid. cbn. rewrite lookup_insert_eq.
    split; [done |]. split; [done |]. split; [done |]. split; [apply Hlen |].
    split.
    { rewrite (short_session_id_existing uid uuid' _ uuid); [done | | done].
      cbn. apply lookup_insert_eq. }
    repeat split; try done. intros other Hne. by rewrite lookup_insert_ne.
  - assert (Hne : String c tok ≠ "") by discriminate.
    rewrite (short_session_id_existing uid uuid m _ Hold Hne).
    exists (String c tok). cbn [fst snd].
    split; [done |]. split; [done |]. split; [done |]. split; [apply Hlen |].
    split; [by apply short_session_id_existing |].
    repeat split; done.
  - rewrite (short_session_id_missing uid uuid m (or_introl Hold)).
    exists uuid. cbn. rewrite lookup_insert_eq.
    split; [done |]. split; [done |]. split; [done |]. split; [apply Hlen |].
    split.
    { rewrite (short_session_id_existing uid uuid' _ uuid); [done | | done].
      cbn. apply lookup_insert_eq. }
    repeat split; try done. intros other Hne. by rewrite lookup_insert_ne.
Qed.

Lemma short_session_id_stable_witness :
  sample_uuid ≠ ""
  /\ Exercises.get_short_session_id 7 "another" (Exercises.get_short_session_id 7 sample_uuid
                                                   Exercises.new_manager).1
     = Exercises.get_short_session_id 7 sample_uuid Exercises.new_manager.
Proof.
  assert (Hne : sample_uuid ≠ "") by discriminate.
  split; [exact Hne |].
  destruct (short_session_id_stable 7 sample_uuid "another" Exercises.new_manager Hne)
    as (tok & _ & _ & _ & _ & Hsame & _).
  exact Hsame.
Defined.

(** X13: what [reset_exercise_session] leaves behind.  The user has no
    active session, progress (0, 0) and current index 0, but keeps the
    session token; other users are untouched.  A button of the
    abandoned session, whose prefix still matches that token, is
    therefore not answered as stale but as "no active session", and
    changes nothing. *)
Theorem reset_keeps_token :
  forall (uid : Z) (m : Exercises.Manager),
    Exercises.is_exercise_session_active uid (Handlers.reset_exercise_session uid m) = false
    /\ Exercises.get_exercise_progress uid (Handlers.reset_exercise_session uid m)
       = (0%nat, 0%nat)
    /\ Exercises.get_current_exercise_index uid (Handlers.reset_exercise_session uid m) = 0
    /\ Exercises.session_ids (Handlers.reset_exercise_session uid m)
       = Exercises.session_ids m
    /\ (forall other : Z,
          other ≠ uid ->
          Exercises.active_exercises (Handlers.reset_exercise_session uid m) !! other
          = Exercises.active_exercises m !! other
          /\ Exercises.user_answers (Handlers.reset_exercise_session uid m) !! other
             = Exercises.user_answers m !! other
          /\ Exercises.user_current_index (Handlers.reset_exercise_session uid m) !! other
             = Exercises.user_current_index m !! other)
    /\ forall (tok uuid : string) (k : Z) (i : nat),
        Exercises.session_ids m !! uid = Some tok ->
        tok ≠ "" ->
        Text.no_colon tok = true ->
        (i < 4)%nat ->
        Handlers.handle_exercise_answer uid
          (ExerciseFlow.callback_data (Py.str_take 6 tok) k i) uuid
          (Handlers.reset_exercise_session uid m)
        = (Handlers.reset_exercise_session uid m,
           [Handlers.Reply Handlers.NoExerciseSession]).
Proof.
  intros uid m.
  assert (Hnone : Exercises.active_exercises (Handlers.reset_exercise_session uid m) !! uid
                  = None) by (cbn; apply lookup_delete_eq).
  split; [unfold Exercises.is_exercise_session_active; by rewrite Hnone |].
  split; [unfold Exercises.get_exercise_progress; by rewrite Hnone |].
  split.
  { unfold Exercises.get_current_exercise_index. cbn. by rewrite lookup_delete_eq. }
  split; [done |].
  split.
  { intros other Hne. cbn. by rewrite !lookup_delete_ne. }
  intros tok uuid k i Htok Hne Hcolon Hi.
  pose proof (callback_data_fields (Py.str_take 6 tok) k i
                (str_take_no_colon 6 tok Hcolon) Hi) as Hsplit.
  rewrite (matching_callback_prefix uid _ uuid (Handlers.reset_exercise_session uid m)
             tok _ _ _ Hsplit (int_str_of_int k) Htok Hne).
  by rewrite Hnone.
Qed.

Lemma reset_keeps_token_witness :
  Exercises.session_ids grammar_session !! 7 = Some sample_uuid
  /\ Handlers.handle_exercise_answer 7
       (ExerciseFlow.callback_data (Py.str_take 6 sample_uuid) 0 1) sample_uuid
       (Handlers.reset_exercise_session 7 grammar_session)
     = (Handlers.reset_exercise_session 7 grammar_session,
        [Handlers.Reply Handlers.NoExerciseSession]).
Proof.
  assert (Htok : Exercises.session_ids grammar_session !! 7 = Some sample_uuid)
    by reflexivity.
  split; [exact Htok |].
  apply (proj2 (proj2 (proj2 (proj2 (proj2 (reset_keeps_token 7 grammar_session)))))
           sample_uuid sample_uuid 0 1%nat Htok); [discriminate | reflexivity | lia].
Defined.

(** X14: the finish button.  [handle_exercise_finish] without an active
    session answers with the failure notice and changes nothing; with a
    session it shows the summary and removes the session, so pressing
    the button a second time always gives the failure notice and leaves
    the state of the first press. *)
Theorem exercise_finish_button :
  forall (uid : Z) (m : Exercises.Manager),
    (Exercises.active_exercises m !! uid = None ->
     Handlers.handle_exercise_finish uid m
     = (m, [Handlers.Reply Handlers.FinishFailed]))
    /\ (forall exs : list Exercises.Exercise,
          Exercises.active_exercises m !! uid = Some exs ->
          exists s : Exercises.Summary,
            (Handlers.handle_exercise_finish uid m).2 = [Handlers.ShowExerciseResults s]
            /\ Exercises.total_questions s = length exs
            /\ Exercises.exercise_results (Handlers.handle_exercise_finish uid m).1 !! uid
               = Some (Exercises.results s))
    /\ Handlers.handle_exercise_finish uid (Handlers.handle_exercise_finish uid m).1
       = ((Handlers.handle_exercise_finish uid m).1,
          [Handlers.Reply Handlers.FinishFailed]).
Proof.
  intros uid m.
  assert (H1 : forall m0 : Exercises.Manager,
               Exercises.active_exercises m0 !! uid = None ->
               Handlers.handle_exercise_finish uid m0
               = (m0, [Handlers.Reply Handlers.FinishFailed])).
  { intros m0 Hnone.
    unfold Handlers.handle_exercise_finish, Exercises.finish_exercise_session.
    by rewrite Hnone. }
  split; [apply H1 |]. split.
  - intros exs Hexs.
    unfold Handlers.handle_exercise_finish, Exercises.finish_exercise_session.
    rewrite Hexs. cbn. eexists. split; [reflexivity |]. split; [done |].
    by rewrite lookup_insert_eq.
  - destruct (Exercises.active_exercises m !! uid) as [exs |] eqn:Hexs.
    + apply H1. unfold Handlers.handle_exercise_finish, Exercises.finish_exercise_session.
      rewrite Hexs. cbn. apply lookup_delete_eq.
    + rewrite (H1 m Hexs). cbn [fst]. by apply H1.
Qed.

Lemma exercise_finish_button_witness :
  Exercises.active_exercises Exercises.new_manager !! 7 = None
  /\ Handlers.handle_exercise_finish 7 Exercises.new_manager
     = (Exercises.new_manager, [Handlers.Reply Handlers.FinishFailed]).
Proof.
  assert (H7 : Exercises.active_exercises Exercises.new_manager !! 7 = None)
    by reflexivity.
  split; [exact H7 |].
  exact (proj1 (exercise_finish_button 7 Exercises.new_manager) H7).
Defined.

(** ** Exercise manager: reading one entry *)

Section EntryFacts.
Import Json Exercises Text.

Lemma normalized_letter raw :
  Py.str_take 1 (keep_AD raw)
  = match first_AD raw with
    | Some c => String c ""
    | None => ""
    end.
Proof.
  induction raw as [| c raw IH]; simpl; [done |].
  destruct (is_letter_AD c); [| exact IH]. simpl. by destruct (keep_AD raw).
Qed.

Lemma is_ABCD_letter c : is_letter_AD c = true -> is_ABCD (String c "") = true.
Proof.
  intros Hc. destruct c as [[] [] [] [] [] [] [] []]; try discriminate Hc; reflexivity.
Qed.

Lemma first_AD_letter raw c : first_AD raw = Some c -> is_letter_AD c = true.
Proof.
  induction raw as [| a raw IH]; simpl; [discriminate |].
  destruct (is_letter_AD a) eqn:Ha; [by intros [= <-] | exact IH].
Qed.

End EntryFacts.

(** X15: which entries of a reply become exercises.  [make_exercise]
    keeps an entry exactly when it is an object with a question, an
    explanation, a list of exactly four options, and an answer whose
    text, stripped and upper-cased, contains one of the letters A to D;
    the exercise then carries these values, the id subject_user_position
    and, as correct answer, the first such letter wherever it stands in
    the text (a missing answer counts as empty text). *)
Theorem make_exercise_accepts :
  forall (render : Json.json -> string) (subj : string) (uid : Z) (i : nat)
         (data : Json.json) (e : Exercises.Exercise),
    Exercises.make_exercise render subj uid i data = Some e
    <-> exists (fields : list (string * Json.json)) (opts : list Json.json)
               (q expl : Json.json) (c : ascii),
          data = Json.JObj fields
          /\ Json.assoc "options" fields = Some (Json.JArr opts)
          /\ length opts = 4%nat
          /\ Json.assoc "question" fields = Some q
          /\ Json.assoc "explanation" fields = Some expl
          /\ Text.first_AD
               (Py.upper
                  (Py.strip
                     (Exercises.str render
                        (default (Json.JStr "") (Json.assoc "correct_answer" fields)))))
             = Some c
          /\ e = {| Exercises.exercise_id := ExerciseFlow.answer_key subj uid (Z.of_nat i);
                    Exercises.subject := subj;
                    Exercises.question := q;
                    Exercises.options := opts;
                    Exercises.correct_answer := String c "";
                    Exercises.explanation := expl |}.
Proof.
  intros render subj uid i data e. unfold Exercises.make_exercise. split.
  - destruct data as [| | | | | fields]; try discriminate.
    destruct (Json.assoc "options" fields) as [[| | | | opts |] |] eqn:Hopts;
      try discriminate.
    destruct (Nat.eqb_spec (length opts) 4) as [Hlen | _]; [| discriminate].
    cbn [negb]. rewrite normalized_letter.
    destruct (Text.first_AD _) as [c |] eqn:Hc; [| discriminate].
    rewrite (is_ABCD_letter c (first_AD_letter _ c Hc)). cbn [negb].
    destruct (Json.assoc "question" fields) as [q |] eqn:Hq; [| discriminate].
    destruct (Json.assoc "explanation" fields) as [expl |] eqn:He; [| discriminate].
    intros [= <-]. by exists fields, opts, q, expl, c.
  - intros (fields & opts & q & expl & c & -> & Hopts & Hlen & Hq & He & Hc & ->).
    rewrite Hopts, Hlen. cbn [Nat.eqb negb]. rewrite normalized_letter, Hc.
    rewrite (is_ABCD_letter c (first_AD_letter _ c Hc)). cbn [negb].
    by rewrite Hq, He.
Qed.

Lemma make_exercise_accepts_witness :
  Exercises.correct_answer
    <$> Exercises.make_exercise Exercises.plain_render "grammar" 7 0
          (Json.JObj [("question", Json.JStr "She ___ to school every day.");
                      ("options", Json.JArr [Json.JStr "go"; Json.JStr "goes";
                                             Json.JStr "going"; Json.JStr "gone"]);
                      ("correct_answer", Json.JStr " answer: b ");
                      ("explanation", Json.JStr "Third person singular.")])
  = Some "A".
Proof.
  rewrite (proj2 (make_exercise_accepts Exercises.plain_render "grammar" 7 0
                    (Json.JObj [("question", Json.JStr "She ___ to school every day.");
                                ("options", Json.JArr [Json.JStr "go"; Json.JStr "goes";
                                                       Json.JStr "going"; Json.JStr "gone"]);
                                ("correct_answer", Json.JStr " answer: b ");
                                ("explanation", Json.JStr "Third person singular.")])
                    {| Exercises.exercise_id := ExerciseFlow.answer_key "grammar" 7 0;
                       Exercises.subject := "grammar";
                       Exercises.question := Json.JStr "She ___ to school every day.";
                       Exercises.options := [Json.JStr "go"; Json.JStr "goes";
                                             Json.JStr "going"; Json.JStr "gone"];
                       Exercises.correct_answer := "A";
                       Exercises.explanation := Json.JStr "Third person singular." |})).
  - reflexivity.
  - eexists _, _, _, _, "A"%char. repeat split; reflexivity.
Defined.

(** X16: [get_current_exercise] checks both bounds.  It returns item
    [i] of the user's batch for 0 <= i < len and nothing otherwise, in
    particular for every negative index and for a user without a
    batch. *)
Theorem get_current_exercise_bounds :
  forall (uid : Z) (i : Z) (m : Exercises.Manager) (e : Exercises.Exercise),
    Exercises.get_current_exercise uid i m = Some e
    <-> exists exs : list Exercises.Exercise,
          Exercises.active_exercises m !! uid = Some exs
          /\ 0 <= i < Z.of_nat (length exs)
          /\ exs !! Z.to_nat i = Some e.
Proof.
  intros uid i m e. unfold Exercises.get_current_exercise. split.
  - destruct (Exercises.active_exercises m !! uid) as [[| e0 es] |]; try discriminate.
    destruct (Z.leb_spec 0 i) as [H0 | _]; [| discriminate].
    destruct (Z.ltb_spec i (Z.of_nat (length (e0 :: es)))) as [Hlt | _]; [| discriminate].
    cbn [andb]. unfold Py.index.
    destruct (Z.leb_spec 0 i) as [_ | ?]; [| lia].
    intros Hi. exists (e0 :: es). split; [done |]. split; [lia | done].
  - intros (exs & -> & [H0 Hlt] & Hi).
    destruct exs as [| e0 es]; [simpl in Hlt; lia |].
    destruct (Z.leb_spec 0 i) as [_ | ?]; [| lia].
    destruct (Z.ltb_spec i (Z.of_nat (length (e0 :: es)))) as [_ | ?]; [| lia].
    cbn [andb]. unfold Py.index.
    by destruct (Z.leb_spec 0 i) as [_ | ?]; [| lia].
Qed.

Lemma get_current_exercise_bounds_witness :
  Exercises.get_current_exercise 7 4 grammar_session
  = Exercises._get_fallback_exercises "grammar" !! 4%nat
  /\ Exercises.get_current_exercise 7 (-1) grammar_session = None
  /\ Exercises.get_current_exercise 7 5 grammar_session = None.
Proof.
  split; [| split].
  - destruct (Exercises._get_fallback_exercises "grammar" !! 4%nat) as [e |] eqn:He;
      [| vm_compute in He; discriminate He].
    apply (proj2 (get_current_exercise_bounds 7 4 grammar_session e)).
    exists (Exercises._get_fallback_exercises "grammar").
    split; [reflexivity |]. split; [vm_compute; split; [discriminate | reflexivity] |].
    exact He.
  - destruct (Exercises.get_current_exercise 7 (-1) grammar_session) as [e |] eqn:He;
      [| reflexivity].
    apply (proj1 (get_current_exercise_bounds 7 (-1) grammar_session e)) in He
      as (exs & _ & Hi & _). lia.
  - destruct (Exercises.get_current_exercise 7 5 grammar_session) as [e |] eqn:He;
      [| reflexivity].
    apply (proj1 (get_current_exercise_bounds 7 5 grammar_session e)) in He
      as (exs & Hexs & Hi & _).
    assert (Hfive : exs = Exercises._get_fallback_exercises "grammar").
    { assert (Hs : Exercises.active_exercises grammar_session !! 7
                   = Some (Exercises._get_fallback_exercises "grammar")) by reflexivity.
      congruence. }
    subst exs. vm_compute in Hi. destruct Hi as [_ Hi]. discriminate Hi.
Defined.

(** ** Result text clean-up *)

Section MarkdownFacts.
Import Markdown Text.

Lemma string_app_assoc (a b c : string) : (a +:+ b) +:+ c = a +:+ (b +:+ c).
Proof.
  induction a as [| x a IH]; [done |].
  change (String x ((a +:+ b) +:+ c) = String x (a +:+ (b +:+ c))). by rewrite IH.
Qed.

Lemma replace_char_app c new a b :
  Py.replace_char c new (a +:+ b) = Py.replace_char c new a +:+ Py.replace_char c new b.
Proof.
  induction a as [| x a IH]; simpl; [done |].
  destruct (Ascii.eqb x c); rewrite IH; [| done].
  by rewrite string_app_assoc.
Qed.

(** The five replacements do not feed one another. *)
Lemma clean_markdown_text_cons c r :
  clean_markdown_text (String c r) = substitute c +:+ clean_markdown_text r.
Proof.
  unfold clean_markdown_text, substitute.
  cbn [Py.replace_char].
  destruct (Ascii.eqb_spec c "*") as [-> | H1].
  { by rewrite !replace_char_app. }
  cbn [Py.replace_char].
  destruct (Ascii.eqb_spec c "_") as [-> | H2].
  { by rewrite !replace_char_app. }
  cbn [Py.replace_char].
  destruct (Ascii.eqb_spec c "`") as [-> | H3].
  { by rewrite !replace_char_app. }
  cbn [Py.replace_char].
  destruct (Ascii.eqb_spec c "[") as [-> | H4].
  { by rewrite !replace_char_app. }
  cbn [Py.replace_char].
  by destruct (Ascii.eqb_spec c "]") as [-> | H5].
Qed.

Lemma substitute_plain c : special c = false -> substitute c = String c "".
Proof.
  unfold special, substitute. cbn [existsb]. rewrite !orb_false_iff.
  by intros (-> & -> & -> & -> & -> & _).
Qed.

Lemma substitute_safe c : all_chars (fun x => negb (special x)) (substitute c) = true.
Proof.
  destruct (special c) eqn:Hc.
  - unfold special, substitute in *. cbn [existsb] in Hc.
    repeat (destruct (Ascii.eqb c _); [reflexivity |]). discriminate Hc.
  - rewrite (substitute_plain c Hc). simpl. by rewrite Hc.
Qed.

End MarkdownFacts.

(** X17: [clean_markdown_text] is one pass over the text.  Although the
    source chains five replacements, none of them feeds another: the
    result is the text with every [*], [_], backquote, [[] and []]
    replaced by its substitute and every other character kept in place.
    So the result holds none of the five characters, a text without them
    is returned unchanged, and cleaning twice is cleaning once. *)
Theorem clean_markdown_text_single_pass :
  forall text : string,
    Markdown.clean_markdown_text text = Markdown.substitute_all text
    /\ Text.all_chars (fun c => negb (Markdown.special c))
         (Markdown.clean_markdown_text text) = true
    /\ (Text.all_chars (fun c => negb (Markdown.special c)) text = true ->
        Markdown.clean_markdown_text text = text)
    /\ Markdown.clean_markdown_text (Markdown.clean_markdown_text text)
       = Markdown.clean_markdown_text text.
Proof.
  intros text.
  assert (Hpass : forall t, Markdown.clean_markdown_text t = Markdown.substitute_all t).
  { induction t as [| c r IH]; [reflexivity |].
    rewrite clean_markdown_text_cons, IH. reflexivity. }
  assert (Hsafe : forall t, Text.all_chars (fun c => negb (Markdown.special c))
                              (Markdown.clean_markdown_text t) = true).
  { intros t. rewrite Hpass. induction t as [| c r IH]; [reflexivity |].
    cbn [Markdown.substitute_all]. by rewrite all_chars_app, substitute_safe, IH. }
  assert (Hplain : forall t, Text.all_chars (fun c => negb (Markdown.special c)) t = true ->
                             Markdown.clean_markdown_text t = t).
  { intros t. rewrite Hpass. induction t as [| c r IH]; [reflexivity |].
    cbn [Text.all_chars Markdown.substitute_all].
    intros [Hc Hr]%andb_true_iff. apply negb_true_iff in Hc.
    by rewrite (substitute_plain c Hc), (IH Hr). }
  split; [apply Hpass |]. split; [apply Hsafe |]. split; [apply Hplain |].
  apply Hplain, Hsafe.
Qed.

Lemma clean_markdown_text_single_pass_witness :
  Text.all_chars (fun c => negb (Markdown.special c)) "2 of 5 (40.0%)" = true
  /\ Markdown.clean_markdown_text "2 of 5 (40.0%)" = "2 of 5 (40.0%)"
  /\ Markdown.clean_markdown_text "*a_b* [c]" = "•a-b• (c)".
Proof.
  assert (H : Text.all_chars (fun c => negb (Markdown.special c)) "2 of 5 (40.0%)" = true)
    by reflexivity.
  split; [exact H |].
  split; [exact (proj1 (proj2 (proj2 (clean_markdown_text_single_pass _))) H) |].
  reflexivity.
Defined.

(** ** Conversation *)

Section ConversationFacts.
Import Chat ChatFlow.

Lemma last_n_S_snoc {A} (n : nat) (l : list A) (x : A) :
  Py.last_n (S n) (l ++ [x]) = Py.last_n n l ++ [x].
Proof.
  unfold Py.last_n. rewrite length_app. simpl.
  replace (length l + 1 - S n)%nat with (length l - n)%nat by lia.
  rewrite drop_app_le by lia. reflexivity.
Qed.

Lemma take_all_but_last {A} (l : list A) (x : A) :
  take (length (l ++ [x]) - 1) (l ++ [x]) = l.
Proof.
  rewrite length_app. simpl.
  replace (length l + 1 - 1)%nat with (length l) by lia.
  by rewrite take_app_length.
Qed.

(** The prompt a user's mode selects. *)
Lemma prompt_of_mode (modes : gmap Z string) uid :
  (if String.eqb (default "tutor" (modes !! uid)) "chat" then "chat" else "tutor")
  = if decide (modes !! uid = Some "chat") then "chat" else "tutor".
Proof.
  destruct (modes !! uid) as [mode |]; cbn [default id].
  - destruct (String.eqb_spec mode "chat") as [-> | Hne]; case_decide as H;
      first [reflexivity | exfalso; apply H; reflexivity
             | exfalso; apply Hne; by injection H].
  - by case_decide.
Qed.

(** A message that is no menu label: what is asked, and the state left. *)
Lemma handle_message_answered llm uid msg st :
  existsb (String.eqb msg) menu_labels = false ->
  let old := get_chat_history uid (histories st) in
  let prompt_type := if decide (modes st !! uid = Some "chat") then "chat" else "tutor" in
  let context := context_with_history (Py.last_n 19 old ++ [Message "user" msg]) msg in
  let response := llm prompt_type context in
  (handle_message llm uid msg st).2 = Answered prompt_type context response
  /\ get_chat_history uid (histories (handle_message llm uid msg st).1)
     = Py.last_n 20 (old ++ [Message "user" msg; Message "assistant" response])
  /\ (forall other : Z,
        other ≠ uid ->
        histories (handle_message llm uid msg st).1 !! other = histories st !! other)
  /\ modes (handle_message llm uid msg st).1 = modes st.
Proof.
  intros Hmenu old prompt_type context response.
  unfold handle_message. rewrite Hmenu. cbn [fst snd histories modes].
  rewrite prompt_of_mode. fold prompt_type.
  assert (Hfirst : get_chat_history uid (add_to_chat_history uid "user" msg (histories st))
                   = Py.last_n 19 old ++ [Message "user" msg]).
  { unfold get_chat_history at 1. rewrite add_lookup_same. simpl.
    apply (last_n_S_snoc 19). }
  rewrite Hfirst. fold context. fold response.
  split; [reflexivity |]. split.
  - unfold get_chat_history at 1. rewrite add_lookup_same. simpl.
    rewrite Hfirst. rewrite <- (last_n_S_snoc 19).
    rewrite last_n_snoc by lia. by rewrite <- app_assoc.
  - split; [| reflexivity].
    intros other Hne. by rewrite !add_lookup_other.
Qed.

End ConversationFacts.

(** X18: one turn of the conversation.  A text that is a label of the
    main menu goes to [handle_buttons] and leaves transcripts and modes
    alone.  Any other text is sent to the generator under the prompt
    "chat" when the user's mode is chat and "tutor" otherwise, with a
    context built from the 19 most recent earlier messages of that user
    followed by the text itself; afterwards the user's transcript is
    the last 20 entries of the old transcript, the text and the
    generator's answer, in this order.  Other users' transcripts and
    all modes are unchanged. *)
Theorem handle_message_turn :
  forall (llm : string -> string -> string) (uid : Z) (msg : string)
         (st : ChatFlow.State),
    (existsb (String.eqb msg) ChatFlow.menu_labels = true ->
     ChatFlow.handle_message llm uid msg st = (st, ChatFlow.ToButtons))
    /\ (existsb (String.eqb msg) ChatFlow.menu_labels = false ->
        let old := Chat.get_chat_history uid (ChatFlow.histories st) in
        let prompt_type :=
          if decide (ChatFlow.modes st !! uid = Some "chat") then "chat" else "tutor" in
        let context :=
          ChatFlow.context_with_history
            (Py.last_n 19 old ++ [Chat.Message "user" msg]) msg in
        let response := llm prompt_type context in
        (ChatFlow.handle_message llm uid msg st).2
        = ChatFlow.Answered prompt_type context response
        /\ Chat.get_chat_history uid
             (ChatFlow.histories (ChatFlow.handle_message llm uid msg st).1)
           = Py.last_n 20 (old ++ [Chat.Message "user" msg;
                                   Chat.Message "assistant" response])
        /\ (forall other : Z,
              other ≠ uid ->
              ChatFlow.histories (ChatFlow.handle_message llm uid msg st).1 !! other
              = ChatFlow.histories st !! other)
        /\ ChatFlow.modes (ChatFlow.handle_message llm uid msg st).1 = ChatFlow.modes st).
Proof.
  intros llm uid msg st. split.
  - intros Hmenu. unfold ChatFlow.handle_message. by rewrite Hmenu.
  - apply handle_message_answered.
Qed.

Lemma handle_message_turn_witness :
  existsb (String.eqb "Hello") ChatFlow.menu_labels = false
  /\ Chat.get_chat_history 7
       (ChatFlow.histories
          (ChatFlow.handle_message (fun _ _ => "Hi!") 7 "Hello"
             {| ChatFlow.histories := ∅; ChatFlow.modes := ∅ |}).1)
     = [Chat.Message "user" "Hello"; Chat.Message "assistant" "Hi!"].
Proof.
  assert (Hmenu : existsb (String.eqb "Hello") ChatFlow.menu_labels = false)
    by reflexivity.
  split; [exact Hmenu |].
  exact (proj1 (proj2 (proj2 (handle_message_turn (fun _ _ => "Hi!") 7 "Hello"
                                {| ChatFlow.histories := ∅; ChatFlow.modes := ∅ |})
                                Hmenu))).
Defined.

(** X19: [chat_command] opens a new conversation.  It empties the
    user's transcript and sets the user's mode to chat, leaving other
    users alone; the next text that is no menu label is therefore sent
    under the prompt "chat" with a context that holds no earlier
    message, and the transcript then consists of that text and the
    answer. *)
Theorem chat_command_fresh_conversation :
  forall (llm : string -> string -> string) (uid : Z) (msg : string)
         (st : ChatFlow.State),
    existsb (String.eqb msg) ChatFlow.menu_labels = false ->
    let st1 := ChatFlow.chat_command uid st in
    let context := ChatFlow.context_with_history [Chat.Message "user" msg] msg in
    let response := llm "chat" context in
    Chat.get_chat_history uid (ChatFlow.histories st1) = []
    /\ ChatFlow.modes st1 !! uid = Some "chat"
    /\ (forall other : Z,
          other ≠ uid ->
          ChatFlow.histories st1 !! other = ChatFlow.histories st !! other
          /\ ChatFlow.modes st1 !! other = ChatFlow.modes st !! other)
    /\ (ChatFlow.handle_message llm uid msg st1).2
       = ChatFlow.Answered "chat" context response
    /\ Chat.get_chat_history uid
         (ChatFlow.histories (ChatFlow.handle_message llm uid msg st1).1)
       = [Chat.Message "user" msg; Chat.Message "assistant" response].
Proof.
  intros llm uid msg st Hmenu st1 context response.
  assert (Hempty : Chat.get_chat_history uid (ChatFlow.histories st1) = []).
  { unfold st1, ChatFlow.chat_command, Chat.clear_chat_history, Chat.get_chat_history.
    cbn [ChatFlow.histories].
    destruct (ChatFlow.histories st !! uid) eqn:Hold.
    - by rewrite lookup_delete_eq.
    - by rewrite Hold. }
  assert (Hmode : ChatFlow.modes st1 !! uid = Some "chat").
  { unfold st1, ChatFlow.chat_command. cbn. apply lookup_insert_eq. }
  split; [exact Hempty |]. split; [exact Hmode |]. split.
  { intros other Hne. unfold st1, ChatFlow.chat_command, Chat.clear_chat_history.
    cbn [ChatFlow.histories ChatFlow.modes].
    split; [| by rewrite lookup_insert_ne].
    destruct (ChatFlow.histories st !! uid); [by rewrite lookup_delete_ne | done]. }
  destruct (handle_message_answered llm uid msg st1 Hmenu) as (Hout & Hhist & _ & _).
  rewrite Hempty in Hout, Hhist. rewrite decide_True in Hout, Hhist by exact Hmode.
  split; [exact Hout | exact Hhist].
Qed.

Lemma chat_command_fresh_conversation_witness :
  existsb (String.eqb "Hello") ChatFlow.menu_labels = false
  /\ Chat.get_chat_history 7
       (ChatFlow.histories
          (ChatFlow.handle_message (fun _ _ => "Hi!") 7 "Hello"
             (ChatFlow.chat_command 7
                {| ChatFlow.histories := {[ 7 := [Chat.Message "user" "old"] ]};
                   ChatFlow.modes := ∅ |})).1)
     = [Chat.Message "user" "Hello"; Chat.Message "assistant" "Hi!"].
Proof.
  assert (Hmenu : existsb (String.eqb "Hello") ChatFlow.menu_labels = false)
    by reflexivity.
  split; [exact Hmenu |].
  exact (proj2 (proj2 (proj2 (proj2
           (chat_command_fresh_conversation (fun _ _ => "Hi!") 7 "Hello"
              {| ChatFlow.histories := {[ 7 := [Chat.Message "user" "old"] ]};
                 ChatFlow.modes := ∅ |} Hmenu))))).
Defined.

(** ** Exercise commands *)

Section CommandFacts.
Import Exercises Handlers ExerciseFlow.
Variable render : Json.json -> string.

Lemma generated_nonempty subj uid r :
  subj = "vocabulary" \/ subj = "grammar" ->
  _generate_exercises render subj uid r ≠ [].
Proof.
  intros Hsubj. rewrite generate_exercises_spec.
  destruct (usable render subj uid r); [| discriminate].
  intros Hnil. pose proof (fallback_exercises_length subj Hsubj) as Hfive.
  rewrite Hnil in Hfive. discriminate.
Qed.

(** A callback whose prefix is not that of the stored token. *)
Lemma foreign_prefix_rejected uid data uuid m tok session_id idx_str answer idx :
  Py.split ":" data = ["ex"; session_id; idx_str; answer] ->
  Py.int idx_str = Some idx ->
  session_ids m !! uid = Some tok -> tok ≠ "" ->
  session_id ≠ Py.str_take 6 tok ->
  handle_exercise_answer uid data uuid m = (m, [Reply StaleSession]).
Proof.
  intros Hsplit Hint Htok Hne Hdiff. unfold handle_exercise_answer.
  rewrite Hsplit. cbn [String.eqb Ascii.eqb Bool.eqb negb]. rewrite Hint.
  rewrite (short_session_id_existing uid uuid m tok Htok Hne). cbn [fst snd].
  apply String.eqb_neq in Hdiff. rewrite Hdiff. cbn [negb].
  by rewrite orb_true_r.
Qed.

Lemma begin_exercises_started subj uid uuid r m0 m :
  subj = "vocabulary" \/ subj = "grammar" ->
  exercise_results m0 = exercise_results m ->
  (forall other : Z,
     other ≠ uid ->
     active_exercises m0 !! other = active_exercises m !! other
     /\ user_answers m0 !! other = user_answers m !! other
     /\ user_current_index m0 !! other = user_current_index m !! other
     /\ session_ids m0 !! other = session_ids m !! other) ->
  session_started uid uuid (_generate_exercises render subj uid r) m
    (begin_exercises render subj uid uuid r m0).
Proof.
  intros Hsubj Hres Hother.
  pose proof (generated_nonempty subj uid r Hsubj) as Hne.
  unfold session_started, begin_exercises, start_exercise_session.
  destruct (_generate_exercises render subj uid r) as [| first rest]; [done |].
  exists first, rest. cbn [fst snd]. unfold show_exercise.
  split; [reflexivity |].
  destruct uuid as [| c uuid].
  - rewrite short_session_id_missing
      by (right; cbn; apply lookup_insert_eq).
    cbn. rewrite !lookup_insert_eq.
    repeat split; try done.
    all: try (rewrite ?lookup_insert_ne by done; by apply Hother).
  - rewrite (short_session_id_existing _ _ _ (String c uuid))
      by (try discriminate; cbn; apply lookup_insert_eq).
    cbn. rewrite !lookup_insert_eq.
    repeat split; try done.
    all: try (rewrite ?lookup_insert_ne by done; by apply Hother).
Qed.

End CommandFacts.

(** X20: an exercise command always opens a session.  Whatever the
    generator answered and whatever session the user had,
    [vocabulary_command] and [grammar_command], once past the completion
    gate, announce the exercises and show item 0 of the batch
    [_generate_exercises] built, labelled
    with the first six characters of the new token; the reply "could
    not create exercises" is never sent.  Afterwards the user holds that
    batch, an empty answer map, current index 0 and the new token;
    stored results and other users are untouched.  A button of an
    earlier card, whose prefix differs from the new one, is answered as
    stale from then on and changes nothing. *)
Theorem exercise_command_opens_session :
  forall (render : Json.json -> string) (uid : Z) (uuid subj : string)
         (r : Exercises.reply) (m : Exercises.Manager)
         (res : Exercises.Manager * list Handlers.event),
    (subj = "vocabulary" /\ res = Handlers.vocabulary_command render uid uuid r m)
    \/ (subj = "grammar" /\ res = Handlers.grammar_command render uid uuid r m) ->
    ExerciseFlow.session_started uid uuid
      (Exercises._generate_exercises render subj uid r) m res
    /\ forall (prefix uuid' : string) (k : Z) (i : nat),
        uuid ≠ "" ->
        prefix ≠ Py.str_take 6 uuid ->
        Text.no_colon prefix = true ->
        (i < 4)%nat ->
        Handlers.handle_exercise_answer uid (ExerciseFlow.callback_data prefix k i)
          uuid' res.1
        = (res.1, [Handlers.Reply Handlers.StaleSession]).
Proof.
  intros render uid uuid subj r m res Hcmd.
  assert (Hstarted : ExerciseFlow.session_started uid uuid
                       (Exercises._generate_exercises render subj uid r) m res).
  { destruct Hcmd as [[-> ->] | [-> ->]].
    - unfold Handlers.vocabulary_command.
      apply begin_exercises_started; [by left | done |].
      intros other Hne. cbn. by rewrite !lookup_delete_ne.
    - unfold Handlers.grammar_command.
      apply begin_exercises_started; [by right | |].
      + by destruct (Exercises.is_exercise_session_active uid m).
      + intros other Hne.
        destruct (Exercises.is_exercise_session_active uid m); [| done].
        cbn. by rewrite !lookup_delete_ne. }
  split; [exact Hstarted |].
  intros prefix uuid' k i Huuid Hdiff Hcolon Hi.
  destruct Hstarted as (first & rest & _ & _ & _ & _ & _ & Htok & _).
  exact (foreign_prefix_rejected uid _ uuid' res.1 uuid prefix _ _ k
           (callback_data_fields prefix k i Hcolon Hi) (int_str_of_int k)
           Htok Huuid Hdiff).
Qed.

Lemma exercise_command_opens_session_witness :
  ExerciseFlow.session_started 7 "1b9d6bcd-bbfd-4b2d-9b5d-ab8dfbbd4bed"
    (Exercises._generate_exercises Exercises.plain_render "vocabulary" 7
       (Exercises.Decoded (Json.JArr [good_entry])))
    grammar_session
    (Handlers.vocabulary_command Exercises.plain_render 7
       "1b9d6bcd-bbfd-4b2d-9b5d-ab8dfbbd4bed"
       (Exercises.Decoded (Json.JArr [good_entry])) grammar_session)
  /\ Handlers.handle_exercise_answer 7
       (ExerciseFlow.callback_data (Py.str_take 6 sample_uuid) 0 1) sample_uuid
       (Handlers.vocabulary_command Exercises.plain_render 7
          "1b9d6bcd-bbfd-4b2d-9b5d-ab8dfbbd4bed"
          (Exercises.Decoded (Json.JArr [good_entry])) grammar_session).1
     = ((Handlers.vocabulary_command Exercises.plain_render 7
           "1b9d6bcd-bbfd-4b2d-9b5d-ab8dfbbd4bed"
           (Exercises.Decoded (Json.JArr [good_entry])) grammar_session).1,
        [Handlers.Reply Handlers.StaleSession]).
Proof.
  pose proof (exercise_command_opens_session Exercises.plain_render 7
                "1b9d6bcd-bbfd-4b2d-9b5d-ab8dfbbd4bed" "vocabulary"
                (Exercises.Decoded (Json.JArr [good_entry])) grammar_session _
                (or_introl (conj eq_refl eq_refl))) as [Hstarted Hstale].
  split; [exact Hstarted |].
  apply Hstale; [discriminate | discriminate | reflexivity | lia].
Defined.

(** ** Callback routing *)

Section RoutingFacts.
Import Dispatch.

Lemma starts_with_app lit data :
  starts_with lit data = true -> exists rest, data = lit +:+ rest.
Proof.
  unfold starts_with. revert data.
  induction lit as [| a lit IH]; intros data; [by exists data |].
  destruct data as [| b data]; [discriminate |]. simpl.
  destruct (ascii_dec a b) as [<- | _]; [| discriminate].
  intros [rest ->]%IH. by exists rest.
Qed.

Lemma starts_with_literal lit rest : starts_with lit (lit +:+ rest) = true.
Proof.
  unfold starts_with. induction lit as [| a lit IH]; [by destruct rest |].
  change (String a lit +:+ rest) with (String a (lit +:+ rest)). simpl.
  by destruct (ascii_dec a a).
Qed.

Lemma is_exactly_app lit data :
  is_exactly lit data = true -> exists rest, data = lit +:+ rest.
Proof.
  unfold is_exactly. intros [->%String.eqb_eq | ->%String.eqb_eq]%orb_true_iff.
  - exists "". clear. induction lit as [| a lit IH]; [done |].
    change (String a lit = String a (lit +:+ "")). by rewrite <- IH.
  - by eexists.
Qed.

End RoutingFacts.

(** The text a matching pattern begins with, in normal form. *)
Ltac pattern_text :=
  repeat match goal with
    | H : _ || _ = true |- _ => apply orb_true_iff in H as [H | H]
    | H : Dispatch.starts_with _ _ = true |- _ =>
        apply starts_with_app in H as [? H]; vm_compute in H
    | H : Dispatch.is_exactly _ _ = true |- _ =>
        apply is_exactly_app in H as [? H]; vm_compute in H
    end.

(** The patterns exclude one another. *)
Lemma route_matches (data : string) (h : Dispatch.handler) (p : string -> bool) :
  (h, p) ∈ Dispatch.registered ->
  (Dispatch.route data = Some h <-> p data = true).
Proof.
  intros Hin. unfold Dispatch.route, Dispatch.registered in *.
  cbn [List.find snd].
  destruct (Dispatch.starts_with "ex:" data) eqn:H1;
    [| destruct (Dispatch.is_exactly "exercise_finish" data) eqn:H2;
       [| destruct (Dispatch.is_exactly "start_test" data) eqn:H3;
          [| destruct (Dispatch.is_exactly "test_continue" data
                       || Dispatch.is_exactly "test_restart" data
                       || Dispatch.is_exactly "test_cancel" data) eqn:H4;
             [| destruct (Dispatch.starts_with "test_answer_" data) eqn:H5]]]];
    cbn [fmap option_fmap option_map fst];
    repeat (apply elem_of_cons in Hin as [[= -> ->] | Hin]);
    try (by apply elem_of_nil in Hin);
    (split; [intros [=]; try done | intros Hp; try done; try congruence]);
    exfalso; pattern_text; congruence.
Qed.

(** X21: callbacks reach their handlers.  The five callback patterns
    [setup_handlers] registers exclude one another, so a callback goes
    to a handler exactly when that handler's pattern matches it, in
    whatever order the handlers were registered.  Every button the bot
    makes is routed to the handler that reads it: the answer buttons of
    an exercise card to [handle_exercise_answer], the finish button to
    [handle_exercise_finish], the start button to [handle_test_start],
    continue, restart and cancel to [handle_test_actions], and the
    buttons of a question keyboard to [handle_test_answer]. *)
Theorem callback_routing :
  forall data : string,
    (forall (h : Dispatch.handler) (p : string -> bool),
       (h, p) ∈ Dispatch.registered ->
       (Dispatch.route data = Some h <-> p data = true))
    /\ (forall (session_id : string) (k : Z) (i : nat),
          Dispatch.route (ExerciseFlow.callback_data session_id k i)
          = Some Dispatch.ExerciseAnswer)
    /\ Dispatch.route "exercise_finish" = Some Dispatch.ExerciseFinish
    /\ Dispatch.route "start_test" = Some Dispatch.TestStart
    /\ Dispatch.route "test_continue" = Some Dispatch.TestActions
    /\ Dispatch.route "test_restart" = Some Dispatch.TestActions
    /\ Dispatch.route "test_cancel" = Some Dispatch.TestActions
    /\ (forall (q : FixedTest.Question) (buttons : list (string * string))
               (button : string * string),
          TestFlow.create_question_keyboard q = Some buttons ->
          button ∈ buttons ->
          Dispatch.route button.2 = Some Dispatch.TestAnswer).
Proof.
  intros data. split; [intros h p; apply route_matches |].
  split.
  { intros session_id k i.
    apply (route_matches _ _ (Dispatch.starts_with "ex:")).
    - apply list_elem_of_here.
    - apply starts_with_literal. }
  do 5 (split; [reflexivity |]).
  intros q buttons button Hq Hin. unfold TestFlow.create_question_keyboard in Hq.
  destruct (FixedTest.options q) as [opts |]; [| discriminate].
  rewrite (question_buttons_some opts buttons Hq) in Hin.
  apply list_elem_of_fmap in Hin as (o & -> & _). cbn [snd].
  apply (route_matches _ _ (Dispatch.starts_with "test_answer_")).
  - unfold Dispatch.registered. do 4 apply list_elem_of_further. apply list_elem_of_here.
  - apply starts_with_literal.
Qed.

Lemma callback_routing_witness :
  TestFlow.create_question_keyboard one_question
  = Some [("a) had already started", "test_answer_a");
          ("b) already started", "test_answer_b");
          ("c) has already started", "test_answer_c");
          ("d) was already starting", "test_answer_d")]
  /\ Dispatch.route "test_answer_c" = Some Dispatch.TestAnswer.
Proof.
  assert (Hq : TestFlow.create_question_keyboard one_question
               = Some [("a) had already started", "test_answer_a");
                       ("b) already started", "test_answer_b");
                       ("c) has already started", "test_answer_c");
                       ("d) was already starting", "test_answer_d")]) by reflexivity.
  split; [exact Hq |].
  refine (proj2 (proj2 (proj2 (proj2 (proj2 (proj2 (proj2 (callback_routing "")))))))
            one_question _ ("c) has already started", "test_answer_c") Hq _).
  do 2 apply list_elem_of_further. apply list_elem_of_here.
Defined.
